(** * hairclub-api: the appointment scheduling and conflict-resolution engine

    A shallow embedding of the booking core of the repository
    (controllers/appointment.controller.ts, services/appointment.service.ts,
    models/Appointment.ts, models/Schedule.ts, utils/dateUtils.ts) together
    with the properties its specification states about it.

    Conventions of the embedding.
    - A JavaScript number that the code obtains by parsing text is a [JS.num]:
      an integer or [NaN]; comparisons with [NaN] are false, arithmetic
      propagates it.
    - A [Date] is its timestamp in milliseconds, read on the local clock axis
      of the server process (the zone is taken to have a constant offset, so
      local midnight is a multiple of a day).  An invalid Date is [JS.NaN].
    - The appointments collection is the list of its documents; a transaction
      that is aborted hands back the collection it started from. *)

From Stdlib Require Import ZArith String Ascii Lia Bool.
From stdpp Require Import base decidable option list strings gmap pretty.

Local Open Scope string_scope.
Local Open Scope Z_scope.

(** ** JavaScript values used by the code *)

Module JS.

Inductive num : Type :=
| Num (z : Z)
| NaN.

#[global] Instance num_eq_dec : EqDecision num.
Proof. solve_decision. Defined.

Definition add (a b : num) : num :=
  match a, b with Num x, Num y => Num (x + y) | _, _ => NaN end.

Definition mul (a b : num) : num :=
  match a, b with Num x, Num y => Num (x * y) | _, _ => NaN end.

Definition ltb (a b : num) : bool :=
  match a, b with Num x, Num y => x <? y | _, _ => false end.

Definition leb (a b : num) : bool :=
  match a, b with Num x, Num y => x <=? y | _, _ => false end.

Definition gtb (a b : num) : bool := ltb b a.

Definition geb (a b : num) : bool := leb b a.

(** Value of a decimal digit character. *)
Definition digit_of (c : ascii) : option Z :=
  let n := Z.of_N (N_of_ascii c) in
  if (48 <=? n) && (n <=? 57) then Some (n - 48) else None.

Fixpoint digits_from (acc : Z) (s : string) : option Z :=
  match s with
  | EmptyString => Some acc
  | String c r =>
      match digit_of c with
      | Some d => digits_from (10 * acc + d) r
      | None => None
      end
  end.

(** [Number(s)] on the texts the code meets: a run of decimal digits (the
    empty string is 0); any other text is mapped to [NaN]. *)
Definition Number (s : string) : num :=
  match digits_from 0 s with Some z => Num z | None => NaN end.

Fixpoint leading_digits (acc : option Z) (s : string) : option Z :=
  match s with
  | EmptyString => acc
  | String c r =>
      match digit_of c with
      | Some d => leading_digits (Some (10 * default 0 acc + d)) r
      | None => acc
      end
  end.

(** [parseInt(s)]: the leading decimal digits, [NaN] when there is none or
    when the argument is [undefined]. *)
Definition parseInt (s : option string) : num :=
  match s with
  | Some s => match leading_digits None s with Some z => Num z | None => NaN end
  | None => NaN
  end.

(** [s.split(sep)] for a one-character separator. *)
Fixpoint split (sep : ascii) (s : string) : list string :=
  match s with
  | EmptyString => [EmptyString]
  | String c r =>
      if Ascii.eqb c sep then EmptyString :: split sep r
      else match split sep r with
           | x :: xs => String c x :: xs
           | [] => [String c EmptyString]
           end
  end.

(** [s.padStart(2, '0')]. *)
Definition padStart2 (s : string) : string :=
  match String.length s with
  | 0%nat => "00"
  | 1%nat => "0" ++ s
  | _ => s
  end.

(** [s.padStart(4, '0')], used for the year of a formatted date. *)
Definition padStart4 (s : string) : string :=
  match String.length s with
  | 0%nat => "0000"
  | 1%nat => "000" ++ s
  | 2%nat => "00" ++ s
  | 3%nat => "0" ++ s
  | _ => s
  end.

(** [s.toLowerCase()] on ASCII text. *)
Definition lower (c : ascii) : ascii :=
  let n := N_of_ascii c in
  if ((65 <=? n) && (n <=? 90))%N then ascii_of_N (n + 32) else c.

Fixpoint toLowerCase (s : string) : string :=
  match s with
  | EmptyString => EmptyString
  | String c r => String (lower c) (toLowerCase r)
  end.

(** A value is truthy when it is present and not the empty string. *)
Definition truthy (s : option string) : bool :=
  match s with Some s => negb (String.eqb s "") | None => false end.

(** [s || d] for optional text. *)
Definition orElse (s : option string) (d : string) : string :=
  match s with Some x => if String.eqb x "" then d else x | None => d end.

(** The idiom [const [hours, minutes] = time.split(':').map(Number)]; a
    missing second component is [undefined], which arithmetic turns to NaN. *)
Definition splitHM (time : string) : num * num :=
  match map Number (split ":" time) with
  | h :: m :: _ => (h, m)
  | [h] => (h, NaN)
  | [] => (NaN, NaN)
  end.

(** [hours * 60 + minutes] after [splitHM]. *)
Definition minutesOf (time : string) : num :=
  let '(hours, minutes) := splitHM time in
  add (mul hours (Num 60)) minutes.

(** The template
    [`${Math.floor(m / 60).toString().padStart(2, '0')}:${(m % 60).toString().padStart(2, '0')}`]. *)
Definition hhmm (m : Z) : string :=
  padStart2 (pretty (m / 60)) ++ ":" ++ padStart2 (pretty (Z.rem m 60)).

End JS.

(** ** Dates *)

Module Date.

Definition msPerMinute : Z := 60000.
Definition msPerHour : Z := 3600000.
Definition msPerDay : Z := 86400000.

(** [startOfDay(d)] of date-fns and [d.setHours(0, 0, 0, 0)]. *)
Definition startOfDay (t : Z) : Z := t - t mod msPerDay.

(** [endOfDay(d)] of date-fns and [d.setHours(23, 59, 59, 999)]. *)
Definition endOfDay (t : Z) : Z := startOfDay t + (msPerDay - 1).

(** [d.setHours(h, m)]: seconds and milliseconds of [d] are kept. *)
Definition setHours (t : Z) (h m : JS.num) : JS.num :=
  JS.add (JS.Num (startOfDay t + t mod msPerMinute))
         (JS.add (JS.mul h (JS.Num msPerHour)) (JS.mul m (JS.Num msPerMinute))).

(** [d.setHours(h, m, 0, 0)]. *)
Definition setHours00 (t : Z) (h m : JS.num) : JS.num :=
  JS.add (JS.Num (startOfDay t))
         (JS.add (JS.mul h (JS.Num msPerHour)) (JS.mul m (JS.Num msPerMinute))).

(** [d.setMinutes(d.getMinutes() + k)]. *)
Definition addMinutes (t : JS.num) (k : Z) : JS.num :=
  JS.add t (JS.Num (k * msPerMinute)).

(** [d.setDate(d.getDate() + k)]. *)
Definition addDays (t : Z) (k : Z) : Z := t + k * msPerDay.

(** Day count since 1970-01-01 to year, month (1-12), day of month. *)
Definition civil_from_days (z0 : Z) : Z * Z * Z :=
  let z := z0 + 719468 in
  let era := z / 146097 in
  let doe := z - era * 146097 in
  let yoe := (doe - doe / 1460 + doe / 36524 - doe / 146096) / 365 in
  let y := yoe + era * 400 in
  let doy := doe - (365 * yoe + yoe / 4 - yoe / 100) in
  let mp := (5 * doy + 2) / 153 in
  let d := doy - (153 * mp + 2) / 5 + 1 in
  let m := if mp <? 10 then mp + 3 else mp - 9 in
  (if m <=? 2 then y + 1 else y, m, d).

Definition days_from_civil (y0 m d : Z) : Z :=
  let y := if m <=? 2 then y0 - 1 else y0 in
  let era := y / 400 in
  let yoe := y - era * 400 in
  let doy := (153 * (if 2 <? m then m - 3 else m + 9) + 2) / 5 + d - 1 in
  let doe := yoe * 365 + yoe / 4 - yoe / 100 + doy in
  era * 146097 + doe - 719468.

(** The Date for a local calendar day and time of day. *)
Definition at_ (y m d hh mm : Z) : Z :=
  days_from_civil y m d * msPerDay + hh * msPerHour + mm * msPerMinute.

(** [d.setMonth(d.getMonth() + k)]: the month may leave 0..11 and the day of
    the month may pass the end of the target month; both carry over. *)
Definition addMonths (t : Z) (k : Z) : Z :=
  let '(y, m, d) := civil_from_days (t / msPerDay) in
  let month := (m - 1) + k in
  let firstOfMonth := days_from_civil (y + month / 12) (month mod 12 + 1) 1 in
  (firstOfMonth + (d - 1)) * msPerDay + t mod msPerDay.

(** [d.getDay()]: 0 is Sunday; 1970-01-01 was a Thursday. *)
Definition getDay (t : Z) : Z := (t / msPerDay + 4) mod 7.

(** [format(d, 'EEEE')] of date-fns with its default locale (en-US). *)
Definition format_EEEE (t : Z) : string :=
  nth (Z.to_nat (getDay t))
      ["Sunday"; "Monday"; "Tuesday"; "Wednesday"; "Thursday"; "Friday"; "Saturday"]
      "".

(** [format(d, 'yyyy-MM-dd')] of date-fns. *)
Definition format_yyyy_MM_dd (t : Z) : string :=
  let '(y, m, d) := civil_from_days (t / msPerDay) in
  JS.padStart4 (pretty y) ++ "-" ++ JS.padStart2 (pretty m) ++ "-" ++ JS.padStart2 (pretty d).

(** A field of one or two decimal digits, as the tokens [HH] and [mm] of
    date-fns read it. *)
Definition twoDigits (s : string) : option Z :=
  match s with
  | String a EmptyString => JS.digit_of a
  | String a (String b EmptyString) =>
      match JS.digit_of a, JS.digit_of b with
      | Some x, Some y => Some (10 * x + y)
      | _, _ => None
      end
  | _ => None
  end.

(** [parse(s, 'HH:mm', new Date())] of date-fns, as minutes after the
    midnight of the reference day: hours up to 23, a colon, minutes up to 59;
    an invalid Date otherwise. *)
Definition parse_HHmm (s : string) : JS.num :=
  match JS.split ":" s with
  | [h; m] =>
      match twoDigits h, twoDigits m with
      | Some hh, Some mm =>
          if (hh <? 24) && (mm <? 60) then JS.Num (hh * 60 + mm) else JS.NaN
      | _, _ => JS.NaN
      end
  | _ => JS.NaN
  end.

(** [d.getHours()] and [d.getMinutes()] of such a parsed time. *)
Definition getHours (t : JS.num) : JS.num :=
  match t with JS.Num m => JS.Num (m / 60) | JS.NaN => JS.NaN end.

Definition getMinutes (t : JS.num) : JS.num :=
  match t with JS.Num m => JS.Num (m mod 60) | JS.NaN => JS.NaN end.

(** [format(d, 'HH:mm')] of a time of day given in minutes after midnight. *)
Definition format_HHmm (m : Z) : string :=
  JS.padStart2 (pretty (m / 60 mod 24)) ++ ":" ++ JS.padStart2 (pretty (m mod 60)).

End Date.

(** ** Documents (models/Appointment.ts, models/Schedule.ts, models/User.ts) *)

(** An ObjectId, identified with its hexadecimal text ([toString()]). *)
Definition ObjectId : Type := string.

Module Appointment.

Inductive Status : Type :=
| pending
| confirmed
| completed
| cancelled
| needsRescheduling.

#[global] Instance Status_eq_dec : EqDecision Status.
Proof. solve_decision. Defined.

Record IAppointment : Type := {
  _id : ObjectId;
  user : ObjectId;
  services : list ObjectId;
  date : Z;
  time : string;
  totalDuration : Z;
  status : Status;
  notes : string;
  cancellationReason : option string;
  cancelledAt : option Z;
  reminderSent : bool;
  reminderSentAt : option Z;
  createdAt : Z;
  updatedAt : option Z;
  version : Z
}.

#[global] Instance IAppointment_eq_dec : EqDecision IAppointment.
Proof. solve_decision. Defined.

(** The assignments of the controllers, one setter per group of fields that
    the code writes together. *)
Definition set_cancelled (a : IAppointment) (reason : string) (at_ : Z) : IAppointment :=
  {| _id := _id a; user := user a; services := services a; date := date a;
     time := time a; totalDuration := totalDuration a;
     status := cancelled; notes := notes a;
     cancellationReason := Some reason; cancelledAt := Some at_;
     reminderSent := reminderSent a; reminderSentAt := reminderSentAt a;
     createdAt := createdAt a; updatedAt := updatedAt a; version := version a |}.

Definition set_needsRescheduling (a : IAppointment) (newNotes : string) : IAppointment :=
  {| _id := _id a; user := user a; services := services a; date := date a;
     time := time a; totalDuration := totalDuration a;
     status := needsRescheduling; notes := newNotes;
     cancellationReason := cancellationReason a; cancelledAt := cancelledAt a;
     reminderSent := reminderSent a; reminderSentAt := reminderSentAt a;
     createdAt := createdAt a; updatedAt := updatedAt a; version := version a |}.

Definition set_slot (a : IAppointment) (newDate : Z) (newTime : string)
    (updatedServices : list ObjectId) (duration : Z) (at_ : Z) : IAppointment :=
  {| _id := _id a; user := user a; services := updatedServices; date := newDate;
     time := newTime; totalDuration := duration;
     status := status a; notes := notes a;
     cancellationReason := cancellationReason a; cancelledAt := cancelledAt a;
     reminderSent := reminderSent a; reminderSentAt := reminderSentAt a;
     createdAt := createdAt a; updatedAt := Some at_; version := version a |}.

Definition set_saved (a : IAppointment) (at_ : Z) : IAppointment :=
  {| _id := _id a; user := user a; services := services a; date := date a;
     time := time a; totalDuration := totalDuration a;
     status := status a; notes := notes a;
     cancellationReason := cancellationReason a; cancelledAt := cancelledAt a;
     reminderSent := reminderSent a; reminderSentAt := reminderSentAt a;
     createdAt := createdAt a; updatedAt := Some at_; version := version a + 1 |}.

(** The [match] of the [time] path: [/^([01]\d|2[0-3]):([0-5]\d)$/]. *)
Definition time_match (s : string) : bool :=
  match s with
  | String h1 (String h0 (String c (String m1 (String m0 EmptyString)))) =>
      match JS.digit_of h1, JS.digit_of h0, JS.digit_of m1, JS.digit_of m0 with
      | Some a, Some b, Some x, Some _ =>
          Ascii.eqb c ":" && ((a <=? 1) || ((a =? 2) && (b <=? 3))) && (x <=? 5)
      | _, _, _, _ => false
      end
  | _ => false
  end.

(** The validators of the schema paths [date], [time] and [totalDuration],
    run by [save]: the date is not before today's midnight, the time has the
    24-hour form, the duration lies in 1..480. *)
Definition validate (now : Z) (a : IAppointment) : bool :=
  (Date.startOfDay now <=? date a)
  && time_match (time a)
  && (1 <=? totalDuration a) && (totalDuration a <=? 480).

End Appointment.

Module Schedule.

Record DailySchedule : Type := {
  closed : bool;
  openingAM : option string;
  closingAM : option string;
  openingPM : option string;
  closingPM : option string
}.

Record SpecialDay : Type := {
  date : Z;
  schedule : DailySchedule
}.

Record RegularHours : Type := {
  lunes : DailySchedule;
  martes : DailySchedule;
  miercoles : DailySchedule;
  jueves : DailySchedule;
  viernes : DailySchedule;
  sabado : DailySchedule;
  domingo : DailySchedule
}.

Record ISchedule : Type := {
  regularHours : RegularHours;
  specialDays : list SpecialDay
}.

(** The property read [schedule.regularHours[key]]: [None] is [undefined]. *)
Definition regularHours_get (rh : RegularHours) (key : string) : option DailySchedule :=
  if String.eqb key "lunes" then Some (lunes rh)
  else if String.eqb key "martes" then Some (martes rh)
  else if String.eqb key "miercoles" then Some (miercoles rh)
  else if String.eqb key "jueves" then Some (jueves rh)
  else if String.eqb key "viernes" then Some (viernes rh)
  else if String.eqb key "sabado" then Some (sabado rh)
  else if String.eqb key "domingo" then Some (domingo rh)
  else None.

End Schedule.

Record IUser : Type := {
  user_id : ObjectId;
  name : string;
  email : string;
  role : string
}.

(** A catalogue entry.  models/Service.ts is not part of the sources at hand;
    the controllers read only these fields of it. *)
Record IService : Type := {
  service_id : ObjectId;
  service_name : string;
  duration : Z
}.

(** The authenticated principal [req.user] set by the auth middleware. *)
Record Principal : Type := {
  id : ObjectId;
  principal_role : string;
  principal_email : string
}.

(** Everything an operation reads besides the appointments collection. *)
Record World : Type := {
  now : Z;                                (* the clock, [new Date()] *)
  users : list IUser;                     (* the users collection *)
  catalog : list IService;                (* the services collection *)
  theSchedule : option Schedule.ISchedule; (* [Schedule.findOne()] *)
  delivers : string -> bool;              (* does a mail to this address go out;
                                             when not, the send call throws *)
  nextId : ObjectId;                      (* the _id given to a new document *)
  utcOffset : Z;                          (* local clock minus UTC, in ms *)
  madridOffset : Z                        (* Europe/Madrid clock minus local, in ms *)
}.

(** ** The appointments collection and its storage rules *)

Import Appointment.

Definition Store : Type := list IAppointment.

Definition findById (i : ObjectId) (st : Store) : option IAppointment :=
  List.find (fun a => bool_decide (_id a = i)) st.

Definition findUserById (i : ObjectId) (us : list IUser) : option IUser :=
  List.find (fun u => bool_decide (user_id u = i)) us.

(** The day query [{ date: { $gte: dateStart, $lte: dateEnd } }]. *)
Definition dateBetween (dateStart dateEnd : Z) (a : IAppointment) : bool :=
  (dateStart <=? date a) && (date a <=? dateEnd).

(** [{ status: { $ne: 'cancelled' } }] and [{ status: { $nin: ['cancelled'] } }]. *)
Definition notCancelled (a : IAppointment) : bool :=
  negb (bool_decide (status a = cancelled)).

(** The index [date_time_status_unique]: key [{ date: 1, time: 1, status: 1 }],
    [unique: true], [partialFilterExpression: { status: { $nin: ['cancelled'] } }].
    Two documents collide when both pass the filter and agree on the whole
    key. *)
Definition sameIndexKey (a b : IAppointment) : bool :=
  bool_decide (date a = date b) && bool_decide (time a = time b)
  && bool_decide (status a = status b).

Definition date_time_status_unique (others : Store) (a : IAppointment) : bool :=
  negb (notCancelled a
        && existsb (fun b => notCancelled b && sameIndexKey a b) others).

Inductive SaveError : Type :=
| ValidationError
| DuplicateKey    (* code 11000, keyPattern { date, time, status } *)
| DuplicateId.    (* code 11000, keyPattern { _id } *)

(** The [pre('save')] hook and the [timestamps] option: a modified document
    gets the next version number and a fresh [updatedAt]. *)
Definition preSave (now : Z) (loaded a : IAppointment) : IAppointment :=
  if bool_decide (a = loaded) then a else set_saved a now.

(** [document.save({ session })] of a document that was loaded from the
    collection: validation, then the write, which the unique index may
    refuse. *)
Definition save (now : Z) (a : IAppointment) (st : Store) : SaveError + Store :=
  if negb (validate now a) then inl ValidationError
  else
    let others := List.filter (fun b => negb (bool_decide (_id b = _id a))) st in
    if negb (date_time_status_unique others a) then inl DuplicateKey
    else inr (map (fun b => if bool_decide (_id b = _id a) then preSave now b a else b) st).

(** [save] of a document made by [new Appointment({...})]. *)
Definition saveNew (now : Z) (a : IAppointment) (st : Store) : SaveError + Store :=
  if negb (validate now a) then inl ValidationError
  else if existsb (fun b => bool_decide (_id b = _id a)) st then inl DuplicateId
  else if negb (date_time_status_unique st a) then inl DuplicateKey
  else inr (st ++ [set_saved a now])%list.

(** ** Conflict detector *)

(** The overlap condition shared by [checkTimeConflict] and
    [verifyAppointmentAvailability]. *)
Definition overlap (startMinutes endMinutes appStartMinutes appEndMinutes : JS.num) : bool :=
  (JS.geb startMinutes appStartMinutes && JS.ltb startMinutes appEndMinutes)
  || (JS.gtb endMinutes appStartMinutes && JS.leb endMinutes appEndMinutes)
  || (JS.leb startMinutes appStartMinutes && JS.geb endMinutes appEndMinutes).

Definition appointmentOverlaps (startMinutes endMinutes : JS.num) (appointment : IAppointment) : bool :=
  let appStartMinutes := JS.minutesOf (time appointment) in
  let appEndMinutes := JS.add appStartMinutes (JS.Num (totalDuration appointment)) in
  overlap startMinutes endMinutes appStartMinutes appEndMinutes.

(** appointment.controller.ts, [checkTimeConflict]. *)
Definition checkTimeConflict (date : Z) (time : string) (duration : Z)
    (existingAppointmentId : option ObjectId) (st : Store) : bool :=
  let startMinutes := JS.minutesOf time in
  let endMinutes := JS.add startMinutes (JS.Num duration) in
  let dateStart := Date.startOfDay date in
  let dateEnd := Date.endOfDay date in
  let query (a : IAppointment) :=
    dateBetween dateStart dateEnd a && notCancelled a
    && (if JS.truthy existingAppointmentId
        then negb (bool_decide (Some (_id a) = existingAppointmentId))
        else true) in
  let appointments := List.filter query st in
  existsb (appointmentOverlaps startMinutes endMinutes) appointments.

Record Availability : Type := {
  available : bool;
  conflictExists : bool;
  message : option string
}.

(** appointment.service.ts, [verifyAppointmentAvailability]. *)
Definition verifyAppointmentAvailability (date : Z) (time : string) (duration : Z)
    (st : Store) : Availability :=
  let dateStart := Date.startOfDay date in
  let dateEnd := Date.endOfDay date in
  let existingAppointments :=
    List.filter (fun a => dateBetween dateStart dateEnd a && notCancelled a) st in
  let startMinutes := JS.minutesOf time in
  let endMinutes := JS.add startMinutes (JS.Num duration) in
  if existsb (appointmentOverlaps startMinutes endMinutes) existingAppointments
  then {| available := false; conflictExists := true;
          message := Some "El horario seleccionado ya está reservado" |}
  else {| available := true; conflictExists := false; message := None |}.

(** ** Slot relocation search (appointment.service.ts, [findNextAvailableSlot]) *)

(** The values a counter takes in [for (m = from; m < to; m += 30)] and in the
    slot loops [while (currentSlot < end) { ...; currentSlot += 30 min }]. *)
Fixpoint steps30 (fuel : nat) (from to : Z) : list Z :=
  match fuel with
  | O => []
  | S f => if from <? to then from :: steps30 f (from + 30) to else []
  end.

(** The loop started on parsed numbers; it does not run on [NaN].  The fuel
    [to - from] is never used up, see [steps30_fuel]. *)
Definition every30 (from to : JS.num) : list Z :=
  match from, to with
  | JS.Num a, JS.Num b => steps30 (Z.to_nat (b - a)) a b
  | _, _ => []
  end.

Record Slot : Type := {
  slot_date : Z;
  slot_time : string
}.

(** What one turn of the day loop ends in. *)
Inductive DayOutcome : Type :=
| Found (s : Slot)     (* [return { date: currentDate, time }] *)
| NextDay              (* [continue], or the candidates ran out *)
| Thrown.              (* a TypeError, caught by the enclosing [try] *)

Definition lookupSpecialDay (schedule : Schedule.ISchedule) (currentDate : Z) : option Schedule.SpecialDay :=
  let dateString := Date.format_yyyy_MM_dd currentDate in
  List.find (fun day => String.eqb (Date.format_yyyy_MM_dd (Schedule.date day)) dateString)
            (Schedule.specialDays schedule).

(** The slot starts of one half of the day, [opening] included, every 30
    minutes while before [closing]. *)
Definition halfDayTimes (opening closing : option string) : list string :=
  if JS.truthy opening && JS.truthy closing then
    let startHalf := Date.parse_HHmm (default "" opening) in
    let endHalf := Date.parse_HHmm (default "" closing) in
    map Date.format_HHmm (every30 startHalf endHalf)
  else [].

Definition availableTimes (daySchedule : Schedule.DailySchedule) : list string :=
  (halfDayTimes (Schedule.openingAM daySchedule) (Schedule.closingAM daySchedule)
   ++ halfDayTimes (Schedule.openingPM daySchedule) (Schedule.closingPM daySchedule))%list.

(** The sub-slots an existing appointment marks as taken. *)
Definition footprint (app : IAppointment) : list string :=
  let startMinutesTotal := JS.minutesOf (time app) in
  let endMinutesTotal := JS.add startMinutesTotal (JS.Num (totalDuration app)) in
  map JS.hhmm (every30 startMinutesTotal endMinutesTotal).

Definition bookedTimes (existingAppointments : list IAppointment) : gset string :=
  list_to_set (existingAppointments ≫= footprint).

Definition has (booked : gset string) (timeSlot : string) : bool :=
  bool_decide (timeSlot ∈ booked).

Definition validTimes (dayOffset : Z) (currentDate : Z) (currentTime : JS.num)
    (times : list string) (booked : gset string) : list string :=
  if dayOffset =? 0 then
    List.filter (fun time =>
                   let '(h, m) := JS.splitHM time in
                   let timeDate := Date.setHours currentDate h m in
                   JS.gtb timeDate currentTime && negb (has booked time))
                times
  else List.filter (fun time => negb (has booked time)) times.

(** One half of the test "does the service end before closing". *)
Definition endsBefore (opening closing : option string) (currentDate : Z) (endTime : JS.num) : bool :=
  if JS.truthy opening && JS.truthy closing then
    let closingT := Date.parse_HHmm (default "" closing) in
    let closingDate := Date.setHours currentDate (Date.getHours closingT) (Date.getMinutes closingT) in
    JS.leb endTime closingDate
  else false.

Definition fits (daySchedule : Schedule.DailySchedule) (currentDate : Z) (endTime : JS.num) : bool :=
  if endsBefore (Schedule.openingAM daySchedule) (Schedule.closingAM daySchedule) currentDate endTime
  then true
  else endsBefore (Schedule.openingPM daySchedule) (Schedule.closingPM daySchedule) currentDate endTime.

(** The check of the later sub-slots of the candidate; the first one is
    skipped ([continue]) because [validTimes] has tested it. *)
Definition allSlotsAvailable (hours minutes : JS.num) (duration : Z) (booked : gset string) : bool :=
  let startMinutesTotal := JS.add (JS.mul hours (JS.Num 60)) minutes in
  let endMinutesTotal := JS.add startMinutesTotal (JS.Num duration) in
  forallb (fun mins =>
             if bool_decide (JS.Num mins = startMinutesTotal) then true
             else negb (has booked (JS.hhmm mins)))
          (every30 startMinutesTotal endMinutesTotal).

Definition accepts (daySchedule : Schedule.DailySchedule) (currentDate : Z) (duration : Z)
    (booked : gset string) (time : string) : bool :=
  let '(hours, minutes) := JS.splitHM time in
  let startTime := Date.setHours currentDate hours minutes in
  let endTime := Date.addMinutes startTime duration in
  fits daySchedule currentDate endTime && allSlotsAvailable hours minutes duration booked.

(** The first part of the body of the day loop: the [DailySchedule] the search
    goes on with for [currentDate], or the way the turn ends before that. *)
Definition chooseSchedule (schedule : Schedule.ISchedule) (currentDate : Z)
    : DayOutcome + Schedule.DailySchedule :=
  let specialDay := lookupSpecialDay schedule currentDate in
  if match specialDay with Some sd => Schedule.closed (Schedule.schedule sd) | None => false end
  then inl NextDay
  else
    let dayName := JS.toLowerCase (Date.format_EEEE currentDate) in
    match specialDay with
    | Some sd => inr (Schedule.schedule sd)
    | None =>
        match Schedule.regularHours_get (Schedule.regularHours schedule) dayName with
        | None => inl Thrown              (* [daySchedule.closed] of [undefined] *)
        | Some daySchedule =>
            if Schedule.closed daySchedule then inl NextDay else inr daySchedule
        end
    end.

(** [Appointment.find({ date: { $gte: dateStart, $lte: dateEnd },
    status: { $nin: ['cancelled'] } })] for the day of [currentDate]. *)
Definition existingOn (currentDate : Z) (st : Store) : list IAppointment :=
  List.filter (fun a => dateBetween (Date.startOfDay currentDate) (Date.endOfDay currentDate) a
                        && notCancelled a) st.

(** The body of [for (let dayOffset = 0; dayOffset <= maxDays; dayOffset++)]. *)
Definition searchDay (schedule : Schedule.ISchedule) (st : Store) (startDateObj : Z)
    (currentTime : JS.num) (duration : Z) (dayOffset : Z) : DayOutcome :=
  let currentDate := Date.addDays startDateObj dayOffset in
  match chooseSchedule schedule currentDate with
  | inl outcome => outcome
  | inr daySchedule =>
      let booked := bookedTimes (existingOn currentDate st) in
      let valid := validTimes dayOffset currentDate currentTime (availableTimes daySchedule) booked in
      match List.find (accepts daySchedule currentDate duration booked) valid with
      | Some time => Found {| slot_date := currentDate; slot_time := time |}
      | None => NextDay
      end
  end.

Record Search : Type := {
  result : option Slot;       (* the value returned; [None] is [null] *)
  examined : list Z           (* the day offsets whose loop body ran *)
}.

(** The day loop; [turns] is the number of turns still allowed by
    [dayOffset <= maxDays]. *)
Fixpoint searchDays (schedule : Schedule.ISchedule) (st : Store) (startDateObj : Z)
    (currentTime : JS.num) (duration : Z) (turns : nat) (dayOffset : Z) : Search :=
  match turns with
  | O => {| result := None; examined := [] |}
  | S n =>
      match searchDay schedule st startDateObj currentTime duration dayOffset with
      | Found s => {| result := Some s; examined := [dayOffset] |}
      | Thrown => {| result := None; examined := [dayOffset] |}
      | NextDay =>
          let rest := searchDays schedule st startDateObj currentTime duration n (dayOffset + 1) in
          {| result := result rest; examined := dayOffset :: examined rest |}
      end
  end.

Definition runSearch (schedule : option Schedule.ISchedule) (originalDate : Z)
    (originalTime : string) (duration : Z) (maxDays : Z) (st : Store) : Search :=
  let startDateObj := originalDate in
  let '(origHours, origMinutes) := JS.splitHM originalTime in
  let currentTime := Date.addMinutes (Date.setHours startDateObj origHours origMinutes) 30 in
  match schedule with
  | None => {| result := None; examined := [] |}
  | Some schedule =>
      searchDays schedule st startDateObj currentTime duration (Z.to_nat (maxDays + 1)) 0
  end.

Definition findNextAvailableSlot (schedule : option Schedule.ISchedule) (originalDate : Z)
    (originalTime : string) (duration : Z) (maxDays : Z) (st : Store) : option Slot :=
  result (runSearch schedule originalDate originalTime duration maxDays st).

(** ** Date bounds (utils/dateUtils.ts and the controllers) *)

Definition MAX_BOOKING_MONTHS : Z := 2.
Definition CANCELLATION_PERIOD_HOURS : Z := 24.
Definition SLOT_DURATION : Z := 30.

(** dateUtils.ts, [isDateInRange]; [today] is the clock as it is read. *)
Definition isDateInRange (now : Z) (appointmentDate : Z) (maxMonths : Z) : bool :=
  let today := now in
  let maxDate := Date.addMonths today maxMonths in
  (today <=? appointmentDate) && (appointmentDate <=? maxDate).

Inductive DateCheck : Type :=
| DateInPast          (* the 400 of [appointmentDate < today] *)
| DateOutOfRange      (* the 400 of [!isDateInRange(...)] *)
| DateAccepted.

(** The two date tests that open [createAppointment] and follow the status
    guard in [rescheduleAppointment]. *)
Definition checkDate (now : Z) (appointmentDate : Z) : DateCheck :=
  let today := Date.startOfDay now in
  if appointmentDate <? today then DateInPast
  else if negb (isDateInRange now appointmentDate MAX_BOOKING_MONTHS) then DateOutOfRange
  else DateAccepted.

(** ** Business hours (availability.controller.ts, appointment.controller.ts) *)

(** [date.toISOString().split('T')[0]]: the calendar day in UTC. *)
Definition isoDate (w : World) (t : Z) : string :=
  Date.format_yyyy_MM_dd (t - utcOffset w).

(** [normalizeDayName]: the date is re-read as Madrid wall-clock time, then
    its weekday is taken in the Madrid zone once more, in Spanish, lowercase
    and without accents. *)
Definition normalizeDayName (w : World) (t : Z) : string :=
  let adjustedDate := t + madridOffset w in
  nth (Z.to_nat (Date.getDay (adjustedDate + madridOffset w)))
      ["domingo"; "lunes"; "martes"; "miercoles"; "jueves"; "viernes"; "sabado"]
      "".

(** [addSlots] inside [generateTimeSlots]: [while (current <= endTime - SLOT_DURATION)]. *)
Definition addSlots (start end_ : string) : list string :=
  let startTime := JS.minutesOf start in
  let endTime := JS.minutesOf end_ in
  map JS.hhmm (every30 startTime (JS.add endTime (JS.Num (1 - SLOT_DURATION)))).

Definition generateTimeSlots (daySchedule : option Schedule.DailySchedule) : list string :=
  match daySchedule with
  | None => []
  | Some ds =>
      if Schedule.closed ds then []
      else
        ((if JS.truthy (Schedule.openingAM ds) && JS.truthy (Schedule.closingAM ds)
          then addSlots (default "" (Schedule.openingAM ds)) (default "" (Schedule.closingAM ds))
          else [])
         ++
         (if JS.truthy (Schedule.openingPM ds) && JS.truthy (Schedule.closingPM ds)
          then addSlots (default "" (Schedule.openingPM ds)) (default "" (Schedule.closingPM ds))
          else []))%list
  end.

Record BusinessAvailability : Type := {
  business_available : bool;
  business_message : option string
}.

Definition unavailable (m : string) : BusinessAvailability :=
  {| business_available := false; business_message := Some m |}.

Definition showNum (n : JS.num) : string :=
  match n with JS.Num z => pretty z | JS.NaN => "NaN" end.

(** One half of the closing test of [checkBusinessAvailability]: the pair is
    the new ([fits], [remainingTime]). *)
Definition closingTest (opening closing : option string) (startMinutes endMinutes : JS.num)
    (acc : bool * JS.num) : bool * JS.num :=
  if JS.truthy opening && JS.truthy closing then
    let closeTimeInMinutes := JS.minutesOf (default "" closing) in
    if JS.ltb startMinutes closeTimeInMinutes then
      if JS.leb endMinutes closeTimeInMinutes then (true, snd acc)
      else (fst acc, JS.add closeTimeInMinutes (JS.mul (JS.Num (-1)) startMinutes))
    else acc
  else acc.

(** appointment.controller.ts, [checkBusinessAvailability]. *)
Definition checkBusinessAvailability (w : World) (date : Z) (time : string) (duration : Z)
    : BusinessAvailability :=
  match theSchedule w with
  | None => unavailable "No se encontró configuración de horarios"
  | Some schedule =>
      let dateString := isoDate w date in
      let specialDay :=
        List.find (fun day => String.eqb (isoDate w (Schedule.date day)) dateString)
                  (Schedule.specialDays schedule) in
      if match specialDay with Some sd => Schedule.closed (Schedule.schedule sd) | None => false end
      then unavailable "El local está cerrado en esta fecha"
      else
        let daySchedule :=
          match specialDay with
          | Some sd => Some (Schedule.schedule sd)
          | None => Schedule.regularHours_get (Schedule.regularHours schedule) (normalizeDayName w date)
          end in
        match daySchedule with
        | None => unavailable "El local está cerrado este día de la semana"
        | Some ds =>
            if Schedule.closed ds then unavailable "El local está cerrado este día de la semana"
            else if negb (bool_decide (time ∈ generateTimeSlots (Some ds)))
            then unavailable "El horario seleccionado está fuera de las horas de operación"
            else
              let startMinutes := JS.minutesOf time in
              let endMinutes := JS.add startMinutes (JS.Num duration) in
              let am := closingTest (Schedule.openingAM ds) (Schedule.closingAM ds)
                                    startMinutes endMinutes (false, JS.Num 0) in
              let pm := if fst am then am
                        else closingTest (Schedule.openingPM ds) (Schedule.closingPM ds)
                                         startMinutes endMinutes am in
              if fst pm then {| business_available := true; business_message := None |}
              else unavailable ("El servicio dura " ++ pretty duration
                                ++ " minutos, pero solo quedan " ++ showNum (snd pm)
                                ++ " minutos hasta el cierre")
        end
  end.

(** ** Appointment lifecycle (appointment.controller.ts, appointment.service.ts) *)

Inductive Body : Type :=
| ErrorBody (error : string)                    (* [{ error }] *)
| ConcurrentBody (error : string)               (* [{ error, concurrent: true }] *)
| CreatedBody (appointment : IAppointment)      (* [{ success, appointment }] *)
| RelocatedBody (appointment : IAppointment)    (* [{ success, rescheduled: true, message, appointment }] *)
| CancelledBody (lateCancellation : bool)       (* [{ success, message, lateCancellation }] *)
| RescheduledBody (appointment : IAppointment)  (* [{ success, message, appointment }] *)
| MessageBody (message : string)                (* [{ message }] *)
| NotifiedBody (affectedAppointments : nat).    (* [{ success, message, affectedAppointments }] *)

Record Response : Type := {
  statusCode : Z;
  body : Body
}.

Definition respond (code : Z) (b : Body) : Response :=
  {| statusCode := code; body := b |}.

(** [Service.find({ _id: { $in: services } })]. *)
Definition findServices (w : World) (services : list ObjectId) : list IService :=
  List.filter (fun s => bool_decide (service_id s ∈ services)) (catalog w).

Definition sumDurations (servicesData : list IService) : Z :=
  foldl (fun sum service => sum + duration service) 0 servicesData.

(** appointment.service.ts, [handleAppointmentConflict]: the relocated
    appointment, or [None] for [null], and the collection as the session
    then sees it. *)
Definition handleAppointmentConflict (w : World) (date : Z) (time : string)
    (userId : ObjectId) (services : list ObjectId) (duration : Z) (st : Store)
    : option IAppointment * Store :=
  match findNextAvailableSlot (theSchedule w) date time duration 7 st with
  | None => (None, st)
  | Some nextSlot =>
      let newAppointment :=
        {| _id := nextId w; user := userId; services := services;
           date := slot_date nextSlot; time := slot_time nextSlot;
           totalDuration := duration; status := confirmed;
           notes := "Cita reprogramada automáticamente por conflicto de horario";
           cancellationReason := None; cancelledAt := None;
           reminderSent := false; reminderSentAt := None;
           createdAt := now w; updatedAt := None; version := 0 |} in
      match saveNew (now w) newAppointment st with
      | inl _ => (None, st)
      | inr st' =>
          let sent :=
            match findUserById userId (users w) with
            | Some user => if negb (String.eqb (email user) "") then delivers w (email user) else true
            | None => true
            end in
          if sent then (Some (set_saved newAppointment (now w)), st') else (None, st')
      end
  end.

(** The owner-or-admin test of [cancelAppointment] and
    [rescheduleAppointment]:
    [appointment.user.toString() !== req.user?.id && req.user?.role !== 'admin']. *)
Definition notPermitted (appointment : IAppointment) (reqUser : option Principal) : bool :=
  negb (bool_decide (Some (user appointment) = id <$> reqUser))
  && negb (bool_decide (principal_role <$> reqUser = Some "admin")).

(** [createAppointment]; [services], [date], [time] and [notes] are the fields
    of the request body, [date] already read by [new Date(date)]. *)
Definition createAppointment (w : World) (reqUser : option Principal)
    (services : list ObjectId) (date : Z) (time : string) (notes : option string)
    (st : Store) : Response * Store :=
  match reqUser with
  | None => (respond 401 (ErrorBody "Usuario no autenticado"), st)
  | Some requester =>
      let appointmentDate := date in
      match checkDate (now w) appointmentDate with
      | DateInPast => (respond 400 (ErrorBody "No se pueden crear citas en días pasados"), st)
      | DateOutOfRange =>
          (respond 400 (ErrorBody "Solo puedes reservar con máximo 2 meses de anticipación"), st)
      | DateAccepted =>
          if bool_decide (services = []) then
            (respond 400 (ErrorBody "Debes seleccionar al menos un servicio"), st)
          else
            let servicesData := findServices w services in
            if negb (length servicesData =? length services)%nat then
              (respond 400 (ErrorBody "Uno o más servicios seleccionados no existen"), st)
            else
              let totalDuration := sumDurations servicesData in
              let businessAvailability := checkBusinessAvailability w appointmentDate time totalDuration in
              if negb (business_available businessAvailability) then
                (respond 400 (ErrorBody (default "" (business_message businessAvailability))), st)
              else
                let relocate (failure : string) :=
                  match handleAppointmentConflict w appointmentDate time (id requester)
                                                  services totalDuration st with
                  | (Some alternativeAppointment, st') =>
                      (respond 200 (RelocatedBody alternativeAppointment), st')
                  | (None, _) => (respond 409 (ConcurrentBody failure), st)
                  end in
                let appointmentAvailability :=
                  verifyAppointmentAvailability appointmentDate time totalDuration st in
                if negb (available appointmentAvailability) then
                  if conflictExists appointmentAvailability then
                    relocate "El horario seleccionado ya ha sido reservado y no se pudo encontrar un horario alternativo. Por favor, selecciona otro horario."
                  else
                    (respond 400 (ErrorBody (JS.orElse (message appointmentAvailability)
                                              "No se puede crear la cita en este horario")), st)
                else
                  let newAppointment :=
                    {| _id := nextId w; user := id requester; services := services;
                       date := appointmentDate; time := time;
                       totalDuration := totalDuration; status := pending;
                       notes := JS.orElse notes "";
                       cancellationReason := None; cancelledAt := None;
                       reminderSent := false; reminderSentAt := None;
                       createdAt := now w; updatedAt := None; version := 0 |} in
                  match saveNew (now w) newAppointment st with
                  | inr st' =>
                      (* the confirmation mail is sent inside its own try/catch *)
                      (respond 201 (CreatedBody (set_saved newAppointment (now w))), st')
                  | inl DuplicateKey =>
                      relocate "El horario seleccionado ya ha sido reservado. Por favor, selecciona otro horario."
                  | inl _ => (respond 500 (ErrorBody "Error al crear la cita"), st)
                  end
      end
  end.

(** [cancelAppointment]; [i] is [req.params.id], [reason] is [req.body.reason]. *)
Definition cancelAppointment (w : World) (reqUser : option Principal)
    (i : ObjectId) (reason : option string) (st : Store) : Response * Store :=
  match findById i st with
  | None => (respond 404 (ErrorBody "Cita no encontrada"), st)
  | Some appointment =>
      if notPermitted appointment reqUser then
        (respond 403 (ErrorBody "No tienes permiso para cancelar esta cita"), st)
      else
        let parts := JS.split ":" (time appointment) in
        let appointmentDateTime :=
          Date.setHours00 (date appointment) (JS.parseInt (parts !! 0%nat)) (JS.parseInt (parts !! 1%nat)) in
        let lateCancellation :=
          JS.ltb (JS.add appointmentDateTime (JS.Num (- now w)))
                 (JS.Num (CANCELLATION_PERIOD_HOURS * Date.msPerHour)) in
        let cancelledAppointment :=
          set_cancelled appointment (JS.orElse reason "Cancelado por el usuario") (now w) in
        match save (now w) cancelledAppointment st with
        | inl _ => (respond 500 (ErrorBody "Error al cancelar la cita"), st)
        | inr st' =>
            (* the cancellation mail is sent inside its own try/catch *)
            (respond 200 (CancelledBody lateCancellation), st')
        end
  end.

(** [rescheduleAppointment]; [date], [time] and [services] are the optional
    fields of the request body. *)
Definition rescheduleAppointment (w : World) (reqUser : option Principal)
    (i : ObjectId) (date : option Z) (time : option string)
    (services : option (list ObjectId)) (st : Store) : Response * Store :=
  match findById i st with
  | None => (respond 404 (ErrorBody "Cita no encontrada"), st)
  | Some appointment =>
      if notPermitted appointment reqUser then
        (respond 403 (ErrorBody "No tienes permiso para modificar esta cita"), st)
      else if bool_decide (status appointment = cancelled) then
        (respond 400 (ErrorBody "No puedes reprogramar una cita cancelada"), st)
      else
        let newDate := default (Appointment.date appointment) date in
        let newTime := JS.orElse time (Appointment.time appointment) in
        match checkDate (now w) newDate with
        | DateInPast =>
            (respond 400 (ErrorBody "No puedes reprogramar para una fecha pasada"), st)
        | DateOutOfRange =>
            (respond 400 (ErrorBody "Solo puedes reservar con máximo 2 meses de anticipación"), st)
        | DateAccepted =>
            let servicesData := findServices w (default [] services) in
            if match services with
               | Some l => negb (length servicesData =? length l)%nat
               | None => false
               end
            then (respond 400 (ErrorBody "Uno o más servicios seleccionados no existen"), st)
            else
              let updatedServices := default (Appointment.services appointment) services in
              let totalDuration :=
                match services with
                | Some _ => sumDurations servicesData
                | None => Appointment.totalDuration appointment
                end in
              let businessAvailability := checkBusinessAvailability w newDate newTime totalDuration in
              if negb (business_available businessAvailability) then
                (respond 400 (ErrorBody (default "" (business_message businessAvailability))), st)
              else if checkTimeConflict newDate newTime totalDuration (Some (_id appointment)) st then
                (respond 409 (ErrorBody "El horario seleccionado ya está reservado. Por favor, elige otra hora."), st)
              else
                let moved := set_slot appointment newDate newTime updatedServices totalDuration (now w) in
                match save (now w) moved st with
                | inr st' =>
                    (* the rescheduling mail is sent inside its own try/catch *)
                    (respond 200 (RescheduledBody (preSave (now w) appointment moved)), st')
                | inl DuplicateKey =>
                    match reqUser with
                    | None => (respond 500 (ErrorBody "Error al reprogramar la cita"), st)
                    | Some requester =>
                        match handleAppointmentConflict w newDate newTime (id requester)
                                                        updatedServices totalDuration st with
                        | (Some alternativeAppointment, st') =>
                            (* the hook of the refused save has already run on the document *)
                            let original :=
                              set_cancelled (preSave (now w) appointment moved)
                                            "Cancelada automáticamente por reprogramación" (now w) in
                            match save (now w) original st' with
                            | inr st'' => (respond 200 (RelocatedBody alternativeAppointment), st'')
                            | inl _ => (respond 500 (ErrorBody "Error al reprogramar la cita"), st)
                            end
                        | (None, _) =>
                            (respond 409 (ConcurrentBody "El horario seleccionado ya ha sido reservado. Por favor, selecciona otro horario."), st)
                        end
                    end
                | inl _ => (respond 500 (ErrorBody "Error al reprogramar la cita"), st)
                end
        end
  end.

(** ** Schedule change notification ([notifyScheduleChange]) *)

Definition newline : string := String (ascii_of_nat 10) EmptyString.

(** The notes written by the callback:
    [`${appointment.notes || ''}\nCancelado por el local: ${reason || 'Cambio de horario'}`]. *)
Definition closureNotes (appointment : IAppointment) (reason : option string) : string :=
  notes appointment ++ newline ++ "Cancelado por el local: "
  ++ JS.orElse reason "Cambio de horario".

(** The callback run for one affected appointment: nothing happens when the
    user has no address, when the mail does not go out, or when the save
    fails; the [catch] swallows the error. *)
Definition notifyOne (w : World) (reason : option string) (appointment : IAppointment)
    (st : Store) : Store :=
  match findUserById (user appointment) (users w) with
  | None => st
  | Some affectedUser =>
      if String.eqb (email affectedUser) "" then st
      else if negb (delivers w (email affectedUser)) then st
      else
        let marked := set_needsRescheduling appointment (closureNotes appointment reason) in
        match save (now w) marked st with
        | inr st' => st'
        | inl _ => st
        end
  end.

(** The query of [notifyScheduleChange]:
    [{ date: { $gte: changeDate, $lt: nextDay }, status: { $ne: 'cancelled' } }]. *)
Definition affectedBy (changeDate nextDay : Z) (a : IAppointment) : bool :=
  (changeDate <=? Appointment.date a) && (Appointment.date a <? nextDay) && notCancelled a.

Definition notifyScheduleChange (w : World) (date : option Z) (reason : option string)
    (st : Store) : Response * Store :=
  match date with
  | None => (respond 400 (ErrorBody "Se requiere la fecha del cambio de horario"), st)
  | Some d =>
      let changeDate := Date.startOfDay d in
      let nextDay := Date.addDays changeDate 1 in
      let affectedAppointments := List.filter (affectedBy changeDate nextDay) st in
      if bool_decide (affectedAppointments = []) then
        (respond 200 (MessageBody "No hay citas programadas para esta fecha"), st)
      else
        (respond 200 (NotifiedBody (length affectedAppointments)),
         foldl (fun acc appointment => notifyOne w reason appointment acc) st affectedAppointments)
  end.

(** ** Methods of the appointment document (models/Appointment.ts) *)

(** The virtual [dateTime]: [null] ([None]) when the time is empty, else the
    date with its clock set by [setHours(hours, minutes, 0, 0)]. *)
Definition dateTime (a : IAppointment) : option JS.num :=
  if String.eqb (time a) "" then None
  else
    let '(hours, minutes) := JS.splitHM (time a) in
    Some (Date.setHours00 (date a) hours minutes).

(** The method [isUpcoming(hoursThreshold = 24)].  The code divides the
    difference in milliseconds by the milliseconds of an hour and compares the
    quotient with 0 and with the threshold; for a whole number of hours that
    is the comparison of the difference itself with 0 and with the threshold
    in milliseconds. *)
Definition isUpcoming (now : Z) (a : IAppointment) (hoursThreshold : Z) : bool :=
  match dateTime a with
  | None => false
  | Some appointmentDate =>
      let difference := JS.add appointmentDate (JS.Num (- now)) in
      JS.gtb difference (JS.Num 0)
      && JS.leb difference (JS.Num (hoursThreshold * Date.msPerHour))
  end.

(** The method [hasPassed()]. *)
Definition hasPassed (now : Z) (a : IAppointment) : bool :=
  match dateTime a with
  | None => false
  | Some appointmentDate => JS.ltb appointmentDate (JS.Num now)
  end.

(** ** Schedule change propagation (services/schedule.service.ts) *)

Record ScheduleChange : Type := {
  change_success : bool;
  change_affected : nat;
  change_message : string
}.

(** [{ status: { $nin: ['cancelled', 'completed'] } }]. *)
Definition notTerminal (a : IAppointment) : bool :=
  negb (bool_decide (status a = cancelled)) && negb (bool_decide (status a = completed)).

(** The loop over the affected appointments: each is cancelled and saved; a
    save that fails throws out of the loop.  The mail of each turn is sent
    inside its own try/catch. *)
Fixpoint cancelEach (w : World) (cancellationReason : string)
    (affectedAppointments : list IAppointment) (st : Store) : SaveError + Store :=
  match affectedAppointments with
  | [] => inr st
  | appointment :: rest =>
      match save (now w) (set_cancelled appointment cancellationReason (now w)) st with
      | inl e => inl e
      | inr st' => cancelEach w cancellationReason rest st'
      end
  end.

(** [scheduleService.processScheduleChange]: the value returned, or the error
    thrown again after the transaction was aborted, and the collection. *)
Definition processScheduleChange (w : World) (date : Z) (isClosed : bool)
    (reason : option string) (st : Store) : (SaveError + ScheduleChange) * Store :=
  let dayStart := Date.startOfDay date in
  let dayEnd := Date.endOfDay date in
  if negb isClosed then
    (inr {| change_success := true; change_affected := 0;
            change_message := "No hay cambios que afecten a citas existentes" |}, st)
  else
    let affectedAppointments :=
      List.filter (fun a => dateBetween dayStart dayEnd a && notTerminal a) st in
    if bool_decide (affectedAppointments = []) then
      (inr {| change_success := true; change_affected := 0;
              change_message := "No hay citas afectadas por este cambio" |}, st)
    else
      let cancellationReason := JS.orElse reason "Cambio en el horario de la peluquería" in
      match cancelEach w cancellationReason affectedAppointments st with
      | inl e => (inl e, st)
      | inr st' =>
          (inr {| change_success := true;
                  change_affected := length affectedAppointments;
                  change_message :=
                    "Se han cancelado " ++ pretty (length affectedAppointments)
                    ++ " citas afectadas por el cambio de horario" |}, st')
      end.

(** ** Reminders and completion (services/notification.service.ts) *)

(** [{ status: { $in: ['pending', 'confirmed'] } }]. *)
Definition pendingOrConfirmed (a : IAppointment) : bool :=
  bool_decide (status a = pending) || bool_decide (status a = confirmed).

Definition set_reminder (a : IAppointment) (sent : bool) (sentAt : option Z) : IAppointment :=
  {| _id := _id a; user := user a; services := services a; date := date a;
     time := time a; totalDuration := totalDuration a;
     status := status a; notes := notes a;
     cancellationReason := cancellationReason a; cancelledAt := cancelledAt a;
     reminderSent := sent; reminderSentAt := sentAt;
     createdAt := createdAt a; updatedAt := updatedAt a; version := version a |}.

Definition set_completed (a : IAppointment) (at_ : Z) : IAppointment :=
  {| _id := _id a; user := user a; services := services a; date := date a;
     time := time a; totalDuration := totalDuration a;
     status := completed; notes := notes a;
     cancellationReason := cancellationReason a; cancelledAt := cancelledAt a;
     reminderSent := reminderSent a; reminderSentAt := reminderSentAt a;
     createdAt := createdAt a; updatedAt := Some at_; version := version a |}.

(** What a run of the reminder job leaves behind: the count it reports, the
    appointments whose reminder mail went out, and the collection. *)
Record ReminderRun : Type := {
  sentCount : nat;
  mailed : list ObjectId;
  remindedStore : Store
}.

(** One turn of the loop of [sendAppointmentReminders].  A missing user makes
    [user.email] throw, a missing address is skipped, a failing mail or save
    throws; each of these leaves the turn through the [catch] or [continue]
    with nothing counted. *)
Definition remindOne (w : World) (appointment : IAppointment) (run : ReminderRun) : ReminderRun :=
  match findUserById (user appointment) (users w) with
  | None => run
  | Some reminded =>
      if String.eqb (email reminded) "" then run
      else if negb (delivers w (email reminded)) then run
      else
        let outbox := (mailed run ++ [_id appointment])%list in
        match save (now w) (set_reminder appointment true (Some (now w))) (remindedStore run) with
        | inl _ => {| sentCount := sentCount run; mailed := outbox;
                      remindedStore := remindedStore run |}
        | inr st' => {| sentCount := S (sentCount run); mailed := outbox;
                        remindedStore := st' |}
        end
  end.

(** The query of [sendAppointmentReminders]: tomorrow's appointments that are
    pending or confirmed and have no reminder yet. *)
Definition dueForReminder (w : World) (a : IAppointment) : bool :=
  let tomorrow := Date.addDays (now w) 1 in
  dateBetween (Date.startOfDay tomorrow) (Date.endOfDay tomorrow) a
  && pendingOrConfirmed a && negb (reminderSent a).

(** [notificationService.sendAppointmentReminders]; it always reports
    [success: true] here, its outer [catch] guarding the query only. *)
Definition sendAppointmentReminders (w : World) (st : Store) : ReminderRun :=
  let appointments := List.filter (dueForReminder w) st in
  foldl (fun run appointment => remindOne w appointment run)
        {| sentCount := 0; mailed := []; remindedStore := st |} appointments.

(** The query of [markCompletedAppointments]: dated up to the end of
    yesterday, pending or confirmed. *)
Definition overdue (w : World) (a : IAppointment) : bool :=
  let yesterday := Date.addDays (now w) (-1) in
  (date a <=? Date.endOfDay yesterday) && pendingOrConfirmed a.

(** The write of [updateOne({ status: 'completed' })] and of one document of
    [updateMany]: no validator and no save hook runs, the timestamp is set,
    the unique index may refuse the write ([None]). *)
Definition writeCompleted (now : Z) (a : IAppointment) (st : Store) : option Store :=
  let done := set_completed a now in
  let others := List.filter (fun b => negb (bool_decide (_id b = _id a))) st in
  if negb (date_time_status_unique others done) then None
  else Some (map (fun b => if bool_decide (_id b = _id a) then done else b) st).

(** [Appointment.updateMany(filter, { $set: { status: 'completed', updatedAt } })]
    on the matched documents in turn.  A refused write ends the command with
    an error ([None]) and leaves the earlier writes in place. *)
Fixpoint completeEach (w : World) (matched : list IAppointment) (st : Store)
    (modifiedCount : nat) : option nat * Store :=
  match matched with
  | [] => (Some modifiedCount, st)
  | a :: rest =>
      match writeCompleted (now w) a st with
      | None => (None, st)
      | Some st' => completeEach w rest st' (S modifiedCount)
      end
  end.

Record Completion : Type := {
  completion_success : bool;
  completion_count : nat
}.

(** [notificationService.markCompletedAppointments]. *)
Definition markCompletedAppointments (w : World) (st : Store) : Completion * Store :=
  match completeEach w (List.filter (overdue w) st) st 0 with
  | (Some n, st') => ({| completion_success := true; completion_count := n |}, st')
  | (None, st') => ({| completion_success := false; completion_count := 0 |}, st')
  end.

(** [notificationService.identifyAffectedAppointments]. *)
Definition identifyAffectedAppointments (date : Z) (st : Store) : list IAppointment :=
  List.filter (fun a => dateBetween (Date.startOfDay date) (Date.endOfDay date) a
                        && pendingOrConfirmed a) st.

(** ** Reminder and completion endpoints *)

(** The JSON answers [{ success, message }] of these endpoints with their
    HTTP status. *)
Record Reply : Type := {
  reply_status : Z;
  reply_success : bool;
  reply_message : string
}.

Definition dquote : string := String (ascii_of_nat 34) EmptyString.

Definition reply (code : Z) (ok : bool) (m : string) : Reply :=
  {| reply_status := code; reply_success := ok; reply_message := m |}.

(** [toggleAppointmentReminder]; [enabled] is [req.body.enabled], [None] when
    it is not a boolean. *)
Definition toggleAppointmentReminder (w : World) (reqUser : option Principal)
    (i : ObjectId) (enabled : option bool) (st : Store) : Reply * Store :=
  match enabled with
  | None => (reply 400 false ("El parámetro " ++ dquote ++ "enabled" ++ dquote
                              ++ " debe ser un valor booleano"), st)
  | Some on =>
      match findById i st with
      | None => (reply 404 false "Cita no encontrada", st)
      | Some appointment =>
          if negb (bool_decide (Some (user appointment) = id <$> reqUser)) then
            (reply 403 false "No tienes permiso para modificar esta cita", st)
          else
            let toggled :=
              set_reminder appointment (negb on) (if on then None else Some (now w)) in
            match save (now w) toggled st with
            | inl _ => (reply 500 false "Error interno del servidor", st)
            | inr st' =>
                (reply 200 true (if on then "Recordatorios activados para esta cita"
                                 else "Recordatorios desactivados para esta cita"), st')
            end
      end
  end.

(** [req.user?.role !== 'admin' && req.user?.role !== 'superadmin'] negated,
    and [['admin', 'superadmin'].includes(req.user?.role || '')]. *)
Definition isAdminOrSuperAdmin (reqUser : option Principal) : bool :=
  match reqUser with
  | Some p => String.eqb (principal_role p) "admin" || String.eqb (principal_role p) "superadmin"
  | None => false
  end.

(** [sendManualReminder].  A missing user makes [user.email] throw inside the
    inner [try], as a failing mail or save does. *)
Definition sendManualReminder (w : World) (reqUser : option Principal)
    (i : ObjectId) (st : Store) : Reply * Store :=
  if negb (isAdminOrSuperAdmin reqUser) then
    (reply 403 false "No tienes permiso para realizar esta acción", st)
  else
    match findById i st with
    | None => (reply 404 false "Cita no encontrada", st)
    | Some appointment =>
        if bool_decide (status appointment = cancelled) then
          (reply 400 false "No se puede enviar recordatorio para una cita cancelada", st)
        else if date appointment <? now w then
          (reply 400 false "No se puede enviar recordatorio para una cita pasada", st)
        else
          let failed := (reply 500 false "Error al enviar el recordatorio por correo", st) in
          match findUserById (user appointment) (users w) with
          | None => failed
          | Some reminded =>
              if String.eqb (email reminded) "" then
                (reply 400 false "El usuario no tiene un correo electrónico registrado", st)
              else if negb (delivers w (email reminded)) then failed
              else
                match save (now w) (set_reminder appointment true (Some (now w))) st with
                | inl _ => failed
                | inr st' => (reply 200 true "Recordatorio enviado con éxito", st')
                end
          end
    end.

Inductive CompletionReply : Type :=
| CompletionRefused (code : Z) (error : string)        (* [{ error }] *)
| CompletionDone (appointment : option IAppointment).  (* 200, with the document as read again;
                                                          the cart items are left out *)

(** [completeAppointment]; [isValidObjectId] is [mongoose.isValidObjectId]. *)
Definition completeAppointment (isValidObjectId : ObjectId -> bool) (w : World)
    (reqUser : option Principal) (i : ObjectId) (st : Store) : CompletionReply * Store :=
  if negb (isAdminOrSuperAdmin reqUser) then
    (CompletionRefused 403 "Acceso denegado. Se requiere rol de administrador.", st)
  else if negb (isValidObjectId i) then
    (CompletionRefused 400 "ID de cita inválido", st)
  else
    match findById i st with
    | None => (CompletionRefused 404 "Cita no encontrada", st)
    | Some appointment =>
        match writeCompleted (now w) appointment st with
        | None => (CompletionRefused 500 "Error al marcar la cita como completada", st)
        | Some st' => (CompletionDone (findById i st'), st')
        end
    end.

(** ** Middleware and routes (middleware/auth.middleware.ts, routes) *)

(** What a middleware does with a request: it calls [next()], or it answers
    with a status and [{ message }]. *)
Inductive Gate : Type :=
| Next
| Halt (code : Z) (message : string).

Definition isAppointmentOwner (reqUser : option Principal) (appointmentId : ObjectId)
    (st : Store) : Gate :=
  match findById appointmentId st with
  | None => Halt 404 "Cita no encontrada"
  | Some appointment =>
      let isOwner := bool_decide (Some (user appointment) = id <$> reqUser) in
      if negb isOwner && negb (isAdminOrSuperAdmin reqUser)
      then Halt 403 "No tienes permiso para realizar esta acción sobre esta cita"
      else Next
  end.

(** A handler mounted behind a middleware. *)
Definition behind (gate : Gate) (handler : Store -> Response * Store) (st : Store)
    : Response * Store :=
  match gate with
  | Next => handler st
  | Halt code m => (respond code (MessageBody m), st)
  end.

(** [router.put('/appointments/:id/cancel', authMiddleware, isAppointmentOwner, cancelAppointment)],
    for a request that [authMiddleware] has let through. *)
Definition cancelRoute (w : World) (reqUser : option Principal) (i : ObjectId)
    (reason : option string) (st : Store) : Response * Store :=
  behind (isAppointmentOwner reqUser i st) (cancelAppointment w reqUser i reason) st.

(** [router.put('/appointments/:id/reschedule', authMiddleware, isAppointmentOwner, rescheduleAppointment)]. *)
Definition rescheduleRoute (w : World) (reqUser : option Principal) (i : ObjectId)
    (date : option Z) (time : option string) (services : option (list ObjectId))
    (st : Store) : Response * Store :=
  behind (isAppointmentOwner reqUser i st) (rescheduleAppointment w reqUser i date time services) st.

(** ** The availability calendar (availability.controller.ts) *)

(** [new Date(date.toLocaleString('en-US', { timeZone: 'Europe/Madrid' }))]:
    the Madrid wall clock, to the second, read back as a local time. *)
Definition madridWallClock (w : World) (date : Z) : Z :=
  let shifted := date + madridOffset w in
  shifted - shifted mod 1000.

Definition findSpecialDay (w : World) (schedule : Schedule.ISchedule) (dateString : string)
    : option Schedule.SpecialDay :=
  List.find (fun specialDay => String.eqb (isoDate w (Schedule.date specialDay)) dateString)
            (Schedule.specialDays schedule).

(** [isDayClosed]. *)
Definition isDayClosed (w : World) (date : Z) (schedule : Schedule.ISchedule) : bool :=
  let localDate := madridWallClock w date in
  let dateString := isoDate w localDate in
  match findSpecialDay w schedule dateString with
  | Some specialDay => Schedule.closed (Schedule.schedule specialDay)
  | None =>
      let dayName := normalizeDayName w localDate in
      match Schedule.regularHours_get (Schedule.regularHours schedule) dayName with
      | Some daySchedule => Schedule.closed daySchedule
      | None => false
      end
  end.

(** [getScheduleForDate]. *)
Definition getScheduleForDate (w : World) (date : Z) (schedule : Schedule.ISchedule)
    : option Schedule.DailySchedule :=
  let localDate := madridWallClock w date in
  let dateString := isoDate w localDate in
  match findSpecialDay w schedule dateString with
  | Some specialDay => Some (Schedule.schedule specialDay)
  | None =>
      let dayName := normalizeDayName w localDate in
      Schedule.regularHours_get (Schedule.regularHours schedule) dayName
  end.

(** The loop [for (let d = new Date(spainToday); d <= endDate;
    d.setDate(d.getDate() + 1))] of [getDateRange]. *)
Fixpoint datesUpTo (fuel : nat) (d endDate : Z) : list Z :=
  match fuel with
  | O => []
  | S f => if d <=? endDate then d :: datesUpTo f (Date.addDays d 1) endDate else []
  end.

(** [getDateRange(months)]: the days from today's midnight, moved on by the
    120 minutes of [spainOffset], to the same day [months] months later and
    one more day.  The fuel is the number of turns of the loop. *)
Definition getDateRange (w : World) (months : Z) : list Z :=
  let today := Date.startOfDay (now w) in
  let spainOffset := 120 in
  let spainToday := today + spainOffset * 60 * 1000 in
  let endDate := Date.addDays (Date.addMonths spainToday months) 1 in
  datesUpTo (Z.to_nat ((endDate - spainToday) / Date.msPerDay + 1)) spainToday endDate.

(** The query of [getFullAvailability]: from today's midnight to the clock
    reading two months on, not cancelled. *)
Definition inCalendarRange (w : World) (a : IAppointment) : bool :=
  (Date.startOfDay (now w) <=? date a)
  && (date a <=? Date.addMonths (now w) MAX_BOOKING_MONTHS)
  && notCancelled a.

(** [appointments.reduce(...)]: for each ISO day, the set of the start times
    of its appointments. *)
Definition bookedSlots (w : World) (appointments : list IAppointment)
    : gmap string (gset string) :=
  foldl (fun map appointment =>
           let dateKey := isoDate w (date appointment) in
           <[dateKey := default ∅ (map !! dateKey) ∪ {[time appointment]}]> map)
        ∅ appointments.

Record SlotEntry : Type := {
  entry_time : string;
  entry_available : bool
}.

Record DayAvailability : Type := {
  day_date : string;
  isOpen : bool;
  day_message : string;
  day_slots : list SlotEntry
}.

(** The callback of [allDates.map] in [getFullAvailability]. *)
Definition dayAvailability (w : World) (schedule : Schedule.ISchedule)
    (booked : gmap string (gset string)) (date : Z) : DayAvailability :=
  let localDate := madridWallClock w date in
  let dateKey := isoDate w localDate in
  let closed := isDayClosed w localDate schedule in
  let slots :=
    if negb closed then generateTimeSlots (getScheduleForDate w localDate schedule) else [] in
  let open := negb closed && (0 <? length slots)%nat in
  {| day_date := dateKey;
     isOpen := open;
     day_message := if open then "Disponible" else "Cerrado";
     day_slots :=
       map (fun slot =>
              {| entry_time := slot;
                 entry_available :=
                   negb (match booked !! dateKey with
                         | Some times => bool_decide (slot ∈ times)
                         | None => false
                         end) |})
           slots |}.

(** [new Date(s)] for a date-only text [yyyy-MM-dd], as [toISOString] prints
    it: the midnight of that day in UTC; an invalid Date for a text of
    another shape. *)
Definition parseISODate (w : World) (s : string) : JS.num :=
  match JS.split "-" s with
  | [yyyy; MM; dd] =>
      match JS.Number yyyy, JS.Number MM, JS.Number dd with
      | JS.Num y, JS.Num m, JS.Num d =>
          if (String.length yyyy =? 4)%nat && (String.length MM =? 2)%nat
             && (String.length dd =? 2)%nat
             && (1 <=? m) && (m <=? 12) && (1 <=? d) && (d <=? 31)
          then JS.Num (Date.days_from_civil y m d * Date.msPerDay + utcOffset w)
          else JS.NaN
      | _, _, _ => JS.NaN
      end
  | _ => JS.NaN
  end.

Inductive CalendarReply : Type :=
| CalendarError (code : Z) (error : string)          (* [{ error }] *)
| Calendar (availability : list DayAvailability).

(** [getFullAvailability]. *)
Definition getFullAvailability (w : World) (st : Store) : CalendarReply :=
  let allDates := getDateRange w MAX_BOOKING_MONTHS in
  let appointments := List.filter (inCalendarRange w) st in
  match theSchedule w with
  | None => CalendarError 404 "Horario no encontrado"
  | Some schedule =>
      let booked := bookedSlots w appointments in
      let availability := map (dayAvailability w schedule booked) allDates in
      Calendar (List.filter
                  (fun day => JS.geb (parseISODate w (day_date day))
                                     (JS.Num (Date.startOfDay (now w))))
                  availability)
  end.

(** ** Updating the schedule (schedule.controller.ts, [updateSchedule]) *)

(** A special day of the request body: [{ date, schedule, reason? }], the
    date already read by [new Date(newDay.date)]. *)
Record SpecialDayUpdate : Type := {
  update_date : Z;
  update_schedule : Schedule.DailySchedule;
  update_reason : option string
}.

Record ProcessedDay : Type := {
  processed_date : string;
  processed_affected : nat;
  processed_message : string
}.

Inductive ScheduleReply : Type :=
| ScheduleRefused (code : Z) (message : string)       (* [{ success: false, message }] *)
| ScheduleUpdated (schedule : Schedule.ISchedule)     (* 200, the schedule as written *)
                  (processedDays : list ProcessedDay).

(** The test that puts a day on [daysToProcess]: the day is new, or its
    [closed] flag differs from the stored one. *)
Definition needsProcessing (w : World) (existingSpecialDays : list Schedule.SpecialDay)
    (newDay : SpecialDayUpdate) : bool :=
  match List.find (fun d => String.eqb (isoDate w (Schedule.date d))
                                       (isoDate w (update_date newDay)))
                  existingSpecialDays with
  | None => true
  | Some existingDay =>
      negb (Bool.eqb (Schedule.closed (Schedule.schedule existingDay))
                     (Schedule.closed (update_schedule newDay)))
  end.

(** [previousSchedule?.specialDays || []]. *)
Definition existingSpecialDays (w : World) : list Schedule.SpecialDay :=
  match theSchedule w with
  | Some previousSchedule => Schedule.specialDays previousSchedule
  | None => []
  end.

(** One entry of [processedSpecialDays]: an open day gets its morning hours
    ("00:00" where none is given) and keeps afternoon hours that are not
    empty. *)
Definition processedSpecialDay (day : SpecialDayUpdate) : Schedule.SpecialDay :=
  let given := update_schedule day in
  {| Schedule.date := update_date day;
     Schedule.schedule :=
       if Schedule.closed given then given
       else
         {| Schedule.closed := false;
            Schedule.openingAM := Some (JS.orElse (Schedule.openingAM given) "00:00");
            Schedule.closingAM := Some (JS.orElse (Schedule.closingAM given) "00:00");
            Schedule.openingPM :=
              if JS.truthy (Schedule.openingPM given) then Schedule.openingPM given else None;
            Schedule.closingPM :=
              if JS.truthy (Schedule.closingPM given) then Schedule.closingPM given else None |} |}.

(** One turn of the loop over [daysToProcess]; an error thrown by
    [processScheduleChange] is caught and the loop goes on. *)
Definition processDay (w : World) (acc : list ProcessedDay * Store) (day : SpecialDayUpdate)
    : list ProcessedDay * Store :=
  if Schedule.closed (update_schedule day) then
    let reason := JS.orElse (update_reason day) "Cambio en el horario de la peluquería" in
    match processScheduleChange w (update_date day) true (Some reason) (snd acc) with
    | (inr result, st') =>
        ((fst acc ++ [ {| processed_date := isoDate w (update_date day);
                          processed_affected := change_affected result;
                          processed_message := change_message result |} ])%list, st')
    | (inl _, _) => acc
    end
  else acc.

(** [updateSchedule] on a request body of the shape of the schema;
    [theSchedule w] is the schedule stored before. *)
Definition updateSchedule (w : World) (reqUser : option Principal)
    (regularHours : Schedule.RegularHours) (specialDays : list SpecialDayUpdate)
    (st : Store) : ScheduleReply * Store :=
  if negb (isAdminOrSuperAdmin reqUser) then
    (ScheduleRefused 403 "No tienes permiso para actualizar el horario", st)
  else
    let daysToProcess :=
      List.filter (needsProcessing w (existingSpecialDays w)) specialDays in
    let updatedSchedule :=
      {| Schedule.regularHours := regularHours;
         Schedule.specialDays := map processedSpecialDay specialDays |} in
    let processed := foldl (processDay w) ([], st) daysToProcess in
    (ScheduleUpdated updatedSchedule (fst processed), snd processed).

(** ** Notions in which the properties are stated *)

(** Two Dates lie on the same calendar day. *)
Definition sameDay (d1 d2 : Z) : Prop := d1 / Date.msPerDay = d2 / Date.msPerDay.

(** What the schema's validators guarantee of a stored appointment. *)
Definition schemaValid (a : IAppointment) : Prop :=
  time_match (time a) = true /\ 1 <= totalDuration a <= 480.

(** The appointment [a] is live on the day of [dateC] and its interval
    [[s, s + dur)] meets the candidate interval [[t, t + d)]. *)
Definition clashes (dateC t d : Z) (a : IAppointment) : Prop :=
  sameDay (date a) dateC /\ status a <> cancelled /\
  exists s, JS.minutesOf (time a) = JS.Num s /\
            0 < totalDuration a /\ t < s + totalDuration a /\ t + d > s.

(** The interval [[t, t + duration)], in minutes of the day, lies inside the
    morning interval or inside the afternoon interval of [ds]. *)
Definition insideHalf (opening closing : option string) (t duration : Z) : bool :=
  JS.truthy opening && JS.truthy closing
  && JS.leb (Date.parse_HHmm (default "" opening)) (JS.Num t)
  && JS.leb (JS.Num (t + duration)) (Date.parse_HHmm (default "" closing)).

Definition fitsSingleInterval (ds : Schedule.DailySchedule) (t duration : Z) : bool :=
  insideHalf (Schedule.openingAM ds) (Schedule.closingAM ds) t duration
  || insideHalf (Schedule.openingPM ds) (Schedule.closingPM ds) t duration.



(** The documents of a collection have pairwise different [_id]s. *)
Definition uniqueIds (st : Store) : Prop := NoDup (map _id st).

(** No other live appointment of the collection starts at the date and time
    of [a]. *)
Definition aloneInSlot (st : Store) (a : IAppointment) : Prop :=
  forall b, b ∈ st -> _id b <> _id a -> status b <> cancelled ->
            ~ (date b = date a /\ time b = time a).

(** Two documents at the same place of two versions of the collection agree
    on identity, date and time, and on being cancelled. *)
Definition sameSlot (b c : IAppointment) : Prop :=
  _id c = _id b /\ date c = date b /\ time c = time b
  /\ (status c = cancelled <-> status b = cancelled).

(** The user of the appointment can be reached: the account exists, has an
    address, and the mail to it goes out. *)
Definition reachable (w : World) (a : IAppointment) : Prop :=
  exists u, findUserById (user a) (users w) = Some u
            /\ email u <> "" /\ delivers w (email u) = true.

(** The user of the appointment cannot be reached. *)
Definition unreachable (w : World) (a : IAppointment) : Prop :=
  forall u, findUserById (user a) (users w) = Some u ->
            email u = "" \/ delivers w (email u) = false.



(** The appointment as [processScheduleChange] leaves it when the day of
    [date] closes: a document of that day that is neither cancelled nor
    completed is cancelled with the reason and saved, any other is as before. *)
Definition closedOut (w : World) (date : Z) (reason : option string) (b : IAppointment)
    : IAppointment :=
  if dateBetween (Date.startOfDay date) (Date.endOfDay date) b && notTerminal b
  then set_saved (set_cancelled b (JS.orElse reason "Cambio en el horario de la peluquería")
                                (now w)) (now w)
  else b.

(** The guarantee of the index [date_time_status_unique]: two documents with
    different [_id]s, the first not cancelled, that agree on date and time
    differ in status. *)
Definition indexed (st : Store) : Prop :=
  forall a b, a ∈ st -> b ∈ st -> _id a <> _id b -> status a <> cancelled ->
              date a = date b -> time a = time b -> status a <> status b.

(** The reminder mail for the appointment goes out: its user exists, has an
    address, and the transport delivers to it. *)
Definition canMail (w : World) (a : IAppointment) : bool :=
  match findUserById (user a) (users w) with
  | Some u => negb (String.eqb (email u) "") && delivers w (email u)
  | None => false
  end.

(** The appointment as a reminder that went out leaves it. *)
Definition reminded (w : World) (b : IAppointment) : IAppointment :=
  set_saved (set_reminder b true (Some (now w))) (now w).

(** The collection is well kept: its documents have pairwise different
    [_id]s and respect the unique index. *)
Definition wellKept (st : Store) : Prop := uniqueIds st /\ indexed st.

(** How [updateSchedule] may leave a document [b]: as it was, or, when one of
    the closed [days] is the day of [b] and [b] was neither cancelled nor
    completed, cancelled with the reason of that day. *)
Definition closedBy (w : World) (days : list SpecialDayUpdate) (b b' : IAppointment) : Prop :=
  b' = b
  \/ exists day,
       day ∈ days /\ Schedule.closed (update_schedule day) = true
       /\ sameDay (date b) (update_date day)
       /\ status b <> cancelled /\ status b <> completed
       /\ b' = set_saved (set_cancelled b (JS.orElse (update_reason day)
                                             "Cambio en el horario de la peluquería")
                                        (now w)) (now w).

(** ** Scenarios *)

Module Scenario.

Definition appointment (i u : ObjectId) (d : Z) (t : string) (dur : Z) (s : Status) : IAppointment :=
  {| _id := i; user := u; services := ["haircut"]; date := d; time := t;
     totalDuration := dur; status := s; notes := "";
     cancellationReason := None; cancelledAt := None;
     reminderSent := false; reminderSentAt := None;
     createdAt := Date.at_ 2024 6 1 12 0; updatedAt := None; version := 1 |}.

Definition closedDay : Schedule.DailySchedule :=
  {| Schedule.closed := true; Schedule.openingAM := None; Schedule.closingAM := None;
     Schedule.openingPM := None; Schedule.closingPM := None |}.

(** Open 09:00-13:00. *)
Definition morning : Schedule.DailySchedule :=
  {| Schedule.closed := false; Schedule.openingAM := Some "09:00"; Schedule.closingAM := Some "13:00";
     Schedule.openingPM := None; Schedule.closingPM := None |}.

(** Open 09:00-13:00 and 16:00-20:00. *)
Definition splitDay : Schedule.DailySchedule :=
  {| Schedule.closed := false; Schedule.openingAM := Some "09:00"; Schedule.closingAM := Some "13:00";
     Schedule.openingPM := Some "16:00"; Schedule.closingPM := Some "20:00" |}.

Definition everyDay (ds : Schedule.DailySchedule) : Schedule.RegularHours :=
  {| Schedule.lunes := ds; Schedule.martes := ds; Schedule.miercoles := ds;
     Schedule.jueves := ds; Schedule.viernes := ds; Schedule.sabado := ds;
     Schedule.domingo := ds |}.

Definition special (d : Z) (ds : Schedule.DailySchedule) : Schedule.SpecialDay :=
  {| Schedule.date := d; Schedule.schedule := ds |}.

(** Monday 2024-06-10, 00:00. *)
Definition june10 : Z := Date.at_ 2024 6 10 0 0.

(** The weekly hours are 09:00-13:00 on every day, with no special day. *)
Definition weeklyMorning : Schedule.ISchedule :=
  {| Schedule.regularHours := everyDay morning; Schedule.specialDays := [] |}.

(** 2024-06-10 is a special day open 09:00-13:00. *)
Definition specialMorning : Schedule.ISchedule :=
  {| Schedule.regularHours := everyDay morning;
     Schedule.specialDays := [special june10 morning] |}.

(** 2024-06-10 is a special day open 09:00-13:00 and 16:00-20:00. *)
Definition specialSplit : Schedule.ISchedule :=
  {| Schedule.regularHours := everyDay splitDay;
     Schedule.specialDays := [special june10 splitDay] |}.



(** One appointment, 2024-06-10 at 10:00 for 60 minutes. *)
Definition oneAtTen : Store := [appointment "a1" "u1" june10 "10:00" 60 pending].


(** The people of the scenarios: two customers, an administrator and the
    super-administrator. *)
Definition alice : IUser :=
  {| user_id := "u1"; name := "Alice"; email := "alice@example.com"; role := "user" |}.
Definition bob : IUser :=
  {| user_id := "u2"; name := "Bob"; email := "bob@example.com"; role := "user" |}.
Definition admin : IUser :=
  {| user_id := "u8"; name := "Ada"; email := "ada@example.com"; role := "admin" |}.
Definition root : IUser :=
  {| user_id := "u9"; name := "Root"; email := "root@example.com"; role := "superadmin" |}.

Definition principalOf (u : IUser) : Principal :=
  {| id := user_id u; principal_role := role u; principal_email := email u |}.

(** The salon at time [clock], with the weekly hours 09:00-13:00 and a mail
    transport that behaves as [mail] says.  The server keeps UTC; Madrid is
    two hours ahead of it (summer time). *)
Definition salon (clock : Z) (mail : string -> bool) : World :=
  {| now := clock;
     users := [alice; bob; admin; root];
     catalog := [ {| service_id := "haircut"; service_name := "Corte"; duration := 30 |} ];
     theSchedule := Some weeklyMorning;
     delivers := mail;
     nextId := "a9";
     utcOffset := 0;
     madridOffset := 2 * Date.msPerHour |}.


(** An appointment that took place. *)
Definition served : IAppointment := appointment "a1" "u1" june10 "10:00" 60 completed.

(** Alice at 10:00 and Bob at 11:30 on 2024-06-10. *)
Definition twoBookings : Store :=
  [appointment "a1" "u1" june10 "10:00" 60 pending;
   appointment "a2" "u2" june10 "11:30" 30 confirmed].

(** A mail transport that fails for Bob's address only. *)
Definition notToBob (address : string) : bool :=
  negb (String.eqb address "bob@example.com").

(** Sunday 2024-06-09 at 12:00, and Monday 2024-06-10 at 15:00. *)
Definition dayBefore : Z := Date.at_ 2024 6 9 12 0.
Definition mondayAfternoon : Z := Date.at_ 2024 6 10 15 0.

End Scenario.

(** ** Further scenarios *)

Module Cases.

(** The salon of [Scenario.salon] with 2024-06-10 as a special day open
    09:00-13:00. *)
Definition specialSalon (clock : Z) (mail : string -> bool) : World :=
  {| now := clock;
     users := users (Scenario.salon clock mail);
     catalog := catalog (Scenario.salon clock mail);
     theSchedule := Some Scenario.specialMorning;
     delivers := mail;
     nextId := "a9";
     utcOffset := 0;
     madridOffset := 2 * Date.msPerHour |}.

(** The request to close 2024-06-10 as a holiday. *)
Definition holiday : SpecialDayUpdate :=
  {| update_date := Scenario.june10; update_schedule := Scenario.closedDay;
     update_reason := Some "Festivo" |}.

(** Wednesday 2024-06-12 at 09:00. *)
Definition june12 : Z := Date.at_ 2024 6 12 9 0.

End Cases.

(** * Properties *)

(** The tests of the code are booleans; this database turns them into the
    propositions they decide. *)
Create Rewrite HintDb tests.
#[local] Hint Rewrite andb_true_iff orb_true_iff negb_true_iff negb_false_iff
  Z.leb_le Z.ltb_lt Z.eqb_eq : tests.

(** ** The embedding on the examples of the specification *)

Example monday_2024_06_10 :
  Date.format_yyyy_MM_dd Scenario.june10 = "2024-06-10"
  /\ Date.format_EEEE Scenario.june10 = "Monday"
  /\ normalizeDayName (Scenario.salon Scenario.dayBefore (fun _ => true)) Scenario.june10
     = "lunes".
Proof. vm_compute. repeat split; reflexivity. Qed.

Example generateTimeSlots_morning :
  generateTimeSlots (Some Scenario.morning)
  = ["09:00"; "09:30"; "10:00"; "10:30"; "11:00"; "11:30"; "12:00"; "12:30"].
Proof. vm_compute. reflexivity. Qed.

Example generateTimeSlots_closed : generateTimeSlots (Some Scenario.closedDay) = [].
Proof. reflexivity. Qed.

Example footprint_of_an_hour :
  footprint (Scenario.appointment "a1" "u1" Scenario.june10 "10:00" 60 pending)
  = ["10:00"; "10:30"].
Proof. vm_compute. reflexivity. Qed.

(** The boundary example: 61 minutes asked for 12:00 against the closing
    13:00 are turned down, 60 minutes are let through. *)
Example business_hours_boundary :
  let w := Scenario.salon Scenario.dayBefore (fun _ => true) in
  checkBusinessAvailability w Scenario.june10 "12:00" 61
  = unavailable "El servicio dura 61 minutos, pero solo quedan 60 minutos hasta el cierre"
  /\ business_available (checkBusinessAvailability w Scenario.june10 "12:00" 60) = true.
Proof. vm_compute. split; reflexivity. Qed.

(** Cancelling the appointment of 10:00 frees the slot for the conflict
    check. *)
Example cancellation_reopens_slot :
  let w := Scenario.salon Scenario.dayBefore (fun _ => true) in
  let after := snd (cancelAppointment w (Some (Scenario.principalOf Scenario.alice)) "a1" None
                      Scenario.oneAtTen) in
  conflictExists (verifyAppointmentAvailability Scenario.june10 "10:00" 30 Scenario.oneAtTen)
  = true
  /\ available (verifyAppointmentAvailability Scenario.june10 "10:00" 30 after) = true.
Proof. vm_compute. split; reflexivity. Qed.

(** ** Reading times of day *)

Lemma digit_of_range c d : JS.digit_of c = Some d -> 0 <= d <= 9.
Proof.
  unfold JS.digit_of.
  destruct (_ && _) eqn:E; [|discriminate].
  intros [= <-].
  apply andb_true_iff in E as [?%Z.leb_le ?%Z.leb_le]. lia.
Qed.

Lemma digit_of_not_colon c d : JS.digit_of c = Some d -> Ascii.eqb c ":" = false.
Proof. destruct c as [[] [] [] [] [] [] [] []]; vm_compute; congruence. Qed.

(** A text that passes the schema's pattern reads as a minute of the day. *)
Lemma time_match_minutesOf s :
  time_match s = true -> exists m, JS.minutesOf s = JS.Num m /\ 0 <= m < 1440.
Proof.
  destruct s as [|h1 [|h0 [|c [|m1 [|m0 [|? ?]]]]]]; try discriminate.
  cbn [time_match].
  destruct (JS.digit_of h1) as [a|] eqn:E1; [|discriminate].
  destruct (JS.digit_of h0) as [b|] eqn:E0; [|discriminate].
  destruct (JS.digit_of m1) as [x|] eqn:E3; [|discriminate].
  destruct (JS.digit_of m0) as [y|] eqn:E4; [|discriminate].
  intros H.
  apply andb_true_iff in H as [H Hx].
  apply andb_true_iff in H as [Hc Hh].
  apply Ascii.eqb_eq in Hc. subst c.
  pose proof (digit_of_range _ _ E1). pose proof (digit_of_range _ _ E0).
  pose proof (digit_of_range _ _ E3). pose proof (digit_of_range _ _ E4).
  exists ((10 * (10 * 0 + a) + b) * 60 + (10 * (10 * 0 + x) + y)).
  split.
  - unfold JS.minutesOf, JS.splitHM. cbn [JS.split].
    rewrite (digit_of_not_colon _ _ E1), (digit_of_not_colon _ _ E0),
            (digit_of_not_colon _ _ E3), (digit_of_not_colon _ _ E4).
    cbn [Ascii.eqb Bool.eqb JS.split map].
    unfold JS.Number. cbn [JS.digits_from]. rewrite E1, E0, E3, E4.
    reflexivity.
  - apply Z.leb_le in Hx.
    assert (10 * a + b <= 23).
    { apply orb_true_iff in Hh as [Ha|Hab].
      - apply Z.leb_le in Ha. lia.
      - apply andb_true_iff in Hab as [Ha Hb].
        apply Z.eqb_eq in Ha. apply Z.leb_le in Hb. lia. }
    lia.
Qed.

(** ** Conflict detector *)

Lemma dateBetween_sameDay dateC a :
  dateBetween (Date.startOfDay dateC) (Date.endOfDay dateC) a = true <-> sameDay (date a) dateC.
Proof.
  unfold dateBetween, sameDay, Date.endOfDay, Date.startOfDay, Date.msPerDay.
  rewrite andb_true_iff, Z.leb_le, Z.leb_le.
  pose proof (Z.div_mod dateC 86400000 ltac:(lia)).
  pose proof (Z.mod_pos_bound dateC 86400000 ltac:(lia)).
  pose proof (Z.div_mod (date a) 86400000 ltac:(lia)).
  pose proof (Z.mod_pos_bound (date a) 86400000 ltac:(lia)).
  split.
  - intros [Hlo Hhi].
    symmetry. apply Z.div_unique with (r := date a - 86400000 * (dateC / 86400000)); lia.
  - intros Heq. rewrite Heq in *. lia.
Qed.

Lemma notCancelled_true a : notCancelled a = true <-> status a <> cancelled.
Proof.
  unfold notCancelled. rewrite negb_true_iff, bool_decide_eq_false. reflexivity.
Qed.

(** On intervals of positive length the three-clause test of the code is the
    half-open intersection test. *)
Lemma overlap_half_open t d s dur :
  0 < d -> 0 < dur ->
  overlap (JS.Num t) (JS.Num (t + d)) (JS.Num s) (JS.Num (s + dur)) = true
  <-> t < s + dur /\ t + d > s.
Proof.
  intros Hd Hdur. unfold overlap, JS.geb, JS.gtb, JS.leb, JS.ltb.
  autorewrite with tests. lia.
Qed.

Lemma appointmentOverlaps_clash t d a :
  0 < d -> schemaValid a ->
  appointmentOverlaps (JS.Num t) (JS.Num (t + d)) a = true
  <-> exists s, JS.minutesOf (time a) = JS.Num s /\
                0 < totalDuration a /\ t < s + totalDuration a /\ t + d > s.
Proof.
  intros Hd [Htime Hdur].
  destruct (time_match_minutesOf _ Htime) as (s & Hs & _).
  unfold appointmentOverlaps. rewrite Hs. cbn [JS.add].
  rewrite overlap_half_open by lia.
  split.
  - intros [? ?]. exists s. repeat split; (reflexivity || lia).
  - intros (s' & [= <-] & ? & ? & ?). lia.
Qed.

(** Intervals that only touch are not reported, whatever the durations. *)
Lemma overlap_touching t d s dur :
  0 < d -> 0 < dur -> t = s + dur \/ t + d = s ->
  overlap (JS.Num t) (JS.Num (t + d)) (JS.Num s) (JS.Num (s + dur)) = false.
Proof.
  intros Hd Hdur Htouch.
  apply not_true_is_false. rewrite overlap_half_open by lia. lia.
Qed.

(** C2. [checkTimeConflict] (with the appointment [excl] left out, as on a
    reschedule, or with nothing left out) and [verifyAppointmentAvailability]
    report a conflict for a candidate at minute [t] of duration [d > 0]
    exactly when some stored appointment of the same calendar day that is not
    cancelled (and is not the excluded one) has an interval [[s, s + dur)],
    [dur > 0], with [t < s + dur] and [t + d > s]; an appointment whose
    interval only touches the candidate's is not counted. *)
Theorem conflict_check_iff_overlap (st : Store) (dateC : Z) (time : string) (t d : Z) :
  JS.minutesOf time = JS.Num t ->
  0 < d ->
  Forall schemaValid st ->
  (forall excl, excl <> "" ->
     checkTimeConflict dateC time d (Some excl) st = true
     <-> exists a, a ∈ st /\ _id a <> excl /\ clashes dateC t d a)
  /\ (checkTimeConflict dateC time d None st = true
      <-> exists a, a ∈ st /\ clashes dateC t d a)
  /\ (conflictExists (verifyAppointmentAvailability dateC time d st) = true
      <-> exists a, a ∈ st /\ clashes dateC t d a)
  /\ (forall a s, a ∈ st -> JS.minutesOf (Appointment.time a) = JS.Num s ->
        t = s + totalDuration a \/ t + d = s ->
        appointmentOverlaps (JS.Num t) (JS.Num (t + d)) a = false).
Proof.
  intros Ht Hd Hvalid.
  rewrite Forall_forall in Hvalid.
  assert (Hex : forall (q : IAppointment -> bool) (P : IAppointment -> Prop),
             (forall a, a ∈ st -> q a = true <-> sameDay (date a) dateC /\ status a <> cancelled /\ P a) ->
             existsb (appointmentOverlaps (JS.Num t) (JS.Num (t + d))) (List.filter q st) = true
             <-> exists a, a ∈ st /\ P a /\ clashes dateC t d a).
  { intros q P Hq. rewrite existsb_exists. split.
    - intros (a & Hin & Hov).
      apply filter_In in Hin as [Hin Hqa].
      apply list_elem_of_In in Hin.
      apply (Hq a Hin) in Hqa as (Hday & Hst & HP).
      apply appointmentOverlaps_clash in Hov; [|lia|auto].
      exists a. unfold clashes. auto.
    - intros (a & Hin & HP & Hday & Hst & Hs).
      exists a. split.
      + apply filter_In. split; [apply list_elem_of_In; exact Hin|].
        apply (Hq a Hin). auto.
      + apply appointmentOverlaps_clash; [lia|auto|exact Hs]. }
  repeat split.
  - (* checkTimeConflict, one appointment excluded *)
    unfold checkTimeConflict. rewrite Ht. cbn [JS.add].
    rewrite (Hex _ (fun a => _id a <> excl)).
    + intros (a & ? & ? & ?); eauto.
    + intros a _. cbn [JS.truthy].
      destruct (String.eqb_spec excl "") as [->|_]; [contradiction|].
      cbn [negb]. rewrite !andb_true_iff, dateBetween_sameDay, notCancelled_true,
        negb_true_iff, bool_decide_eq_false.
      split; [intros [[? ?] Hne]|intros (? & ? & Hne)]; repeat split; auto.
      * intros Heq. apply Hne. rewrite Heq. reflexivity.
      * intros [= Heq]. auto.
  - unfold checkTimeConflict. rewrite Ht. cbn [JS.add].
    intros (a & ? & ? & ?). apply (Hex _ (fun a => _id a <> excl)); eauto.
    intros b _. cbn [JS.truthy].
    destruct (String.eqb_spec excl "") as [->|_]; [contradiction|].
    cbn [negb]. rewrite !andb_true_iff, dateBetween_sameDay, notCancelled_true,
      negb_true_iff, bool_decide_eq_false.
    split; [intros [[? ?] Hne]|intros (? & ? & Hne)]; repeat split; auto.
    + intros Heq. apply Hne. rewrite Heq. reflexivity.
    + intros [= Heq]. auto.
  - (* checkTimeConflict, nothing excluded *)
    unfold checkTimeConflict. rewrite Ht. cbn [JS.add JS.truthy].
    rewrite (Hex _ (fun _ => True)).
    + intros (a & ? & _ & ?); eauto.
    + intros a _. rewrite !andb_true_iff, dateBetween_sameDay, notCancelled_true. tauto.
  - unfold checkTimeConflict. rewrite Ht. cbn [JS.add JS.truthy].
    intros (a & ? & ?). apply (Hex _ (fun _ => True)); eauto.
    intros b _. rewrite !andb_true_iff, dateBetween_sameDay, notCancelled_true. tauto.
  - (* verifyAppointmentAvailability *)
    unfold verifyAppointmentAvailability. rewrite Ht. cbn [JS.add].
    destruct (existsb _ _) eqn:E; cbn [conflictExists]; [|discriminate].
    intros _. apply (Hex _ (fun _ => True)) in E.
    + destruct E as (a & ? & _ & ?); eauto.
    + intros a _. rewrite !andb_true_iff, dateBetween_sameDay, notCancelled_true. tauto.
  - unfold verifyAppointmentAvailability. rewrite Ht. cbn [JS.add].
    intros (a & ? & ?).
    assert (E : existsb (appointmentOverlaps (JS.Num t) (JS.Num (t + d)))
                  (List.filter (fun a => dateBetween (Date.startOfDay dateC) (Date.endOfDay dateC) a
                                         && notCancelled a) st) = true).
    { apply (Hex _ (fun _ => True)); eauto.
      intros b _. rewrite !andb_true_iff, dateBetween_sameDay, notCancelled_true. tauto. }
    rewrite E. reflexivity.
  - (* touching intervals *)
    intros a s Hin Hs Htouch.
    destruct (Hvalid a Hin) as [_ Hdur].
    unfold appointmentOverlaps. rewrite Hs. cbn [JS.add].
    apply overlap_touching; lia.
Qed.

Lemma conflict_check_iff_overlap_witness :
  (JS.minutesOf "10:30" = JS.Num 630 /\ 0 < 30 /\ Forall schemaValid Scenario.oneAtTen)
  /\ (checkTimeConflict Scenario.june10 "10:30" 30 None Scenario.oneAtTen = true
      <-> exists a, a ∈ Scenario.oneAtTen /\ clashes Scenario.june10 630 30 a).
Proof.
  assert (Hv : Forall schemaValid Scenario.oneAtTen).
  { repeat constructor; vm_compute; congruence. }
  split.
  - split; [reflexivity|]. split; [lia|exact Hv].
  - apply (conflict_check_iff_overlap Scenario.oneAtTen Scenario.june10 "10:30" 630 30
             eq_refl eq_refl Hv).
Defined.

(** ** Slot relocation search *)

(** The counting loops end because the counter reaches its bound: more fuel
    than [to - from] changes nothing. *)
Lemma steps30_fuel n : forall m from to,
  (Z.to_nat (to - from) <= n)%nat -> (n <= m)%nat ->
  steps30 m from to = steps30 n from to.
Proof.
  induction n as [|n IH]; intros m from to Hn Hm.
  - destruct m; cbn [steps30]; [reflexivity|].
    destruct (Z.ltb_spec from to); [lia|reflexivity].
  - destruct m as [|m]; [lia|]. cbn [steps30].
    destruct (Z.ltb_spec from to); [|reflexivity].
    f_equal. apply IH; lia.
Qed.

(** The values visited are [from], [from + 30], ... below [to]. *)
Lemma steps30_spec n : forall from to x,
  (Z.to_nat (to - from) <= n)%nat ->
  x ∈ steps30 n from to <-> (exists k, 0 <= k /\ x = from + 30 * k) /\ x < to.
Proof.
  induction n as [|n IH]; intros from to x Hn.
  - cbn [steps30]. rewrite elem_of_nil. split; [tauto|].
    intros [(k & ? & ->) ?]. lia.
  - cbn [steps30]. destruct (Z.ltb_spec from to) as [Hlt|Hge].
    + rewrite elem_of_cons, IH by lia. split.
      * intros [->|[(k & ? & ->) ?]].
        -- split; [exists 0; lia|lia].
        -- split; [exists (k + 1); lia|lia].
      * intros [(k & Hk & ->) ?].
        destruct (Z.eq_dec k 0) as [->|]; [left; lia|].
        right. split; [exists (k - 1); lia|lia].
    + rewrite elem_of_nil. split; [tauto|].
      intros [(k & ? & ->) ?]. lia.
Qed.

Lemma filter_none {A} (f : A -> bool) (l : list A) :
  (forall x, x ∈ l -> f x = false) -> List.filter f l = [].
Proof.
  induction l as [|x l IH]; intros H; [reflexivity|].
  cbn [List.filter]. rewrite (H x) by (left; reflexivity).
  apply IH. intros y Hy. apply H. right. exact Hy.
Qed.




(** *** What the search does guarantee *)

(** The key under which the search asks the weekly hours is an English
    weekday name, and no entry of the weekly hours has such a name. *)
Lemma weekly_hours_never_found rh t :
  Schedule.regularHours_get rh (JS.toLowerCase (Date.format_EEEE t)) = None.
Proof.
  unfold Date.format_EEEE, Date.getDay.
  pose proof (Z.mod_pos_bound (t / Date.msPerDay + 4) 7 eq_refl) as Hd.
  set (n := (t / Date.msPerDay + 4) mod 7) in *.
  assert (Hn : n = 0 \/ n = 1 \/ n = 2 \/ n = 3 \/ n = 4 \/ n = 5 \/ n = 6) by lia.
  destruct Hn as [->|[->|[->|[->|[->|[->| ->]]]]]]; reflexivity.
Qed.

(** Hence a day without a special-day entry ends the search with [null]. *)
Lemma search_without_special_day schedule st originalDate originalTime duration maxDays :
  0 <= maxDays ->
  lookupSpecialDay schedule originalDate = None ->
  findNextAvailableSlot (Some schedule) originalDate originalTime duration maxDays st = None.
Proof.
  intros Hmax Hnone. unfold findNextAvailableSlot, runSearch.
  destruct (JS.splitHM originalTime) as [origHours origMinutes].
  destruct (Z.to_nat (maxDays + 1)) as [|n] eqn:Hn; [lia|].
  cbn [searchDays]. unfold searchDay, chooseSchedule, Date.addDays.
  replace (originalDate + 0 * Date.msPerDay) with originalDate by lia.
  rewrite Hnone, weekly_hours_never_found. reflexivity.
Qed.

Lemma every30_spec a b x :
  x ∈ every30 (JS.Num a) (JS.Num b) <-> (exists k, 0 <= k /\ x = a + 30 * k) /\ x < b.
Proof. unfold every30. apply steps30_spec. lia. Qed.

(** Printing a minute of the day and reading it back. *)
Lemma hhmm_table :
  forallb (fun n => bool_decide (JS.splitHM (JS.hhmm (Z.of_nat n))
                                 = (JS.Num (Z.of_nat n / 60), JS.Num (Z.of_nat n mod 60)))
                    && bool_decide (Date.format_HHmm (Z.of_nat n) = JS.hhmm (Z.of_nat n)))
          (seq 0 1440) = true.
Proof. vm_compute. reflexivity. Qed.

Lemma hhmm_roundtrip m :
  0 <= m < 1440 ->
  JS.splitHM (JS.hhmm m) = (JS.Num (m / 60), JS.Num (m mod 60))
  /\ Date.format_HHmm m = JS.hhmm m
  /\ JS.minutesOf (JS.hhmm m) = JS.Num m.
Proof.
  intros Hm.
  pose proof hhmm_table as Htable. rewrite forallb_forall in Htable.
  specialize (Htable (Z.to_nat m)). rewrite Z2Nat.id in Htable by lia.
  destruct (andb_prop _ _ (Htable ltac:(apply in_seq; lia))) as [Hsplit Hformat].
  apply bool_decide_eq_true in Hsplit. apply bool_decide_eq_true in Hformat.
  repeat split; [exact Hsplit|exact Hformat|].
  unfold JS.minutesOf. rewrite Hsplit. cbn [JS.mul JS.add]. f_equal.
  pose proof (Z.div_mod m 60 ltac:(lia)). lia.
Qed.

Lemma twoDigits_range s z : Date.twoDigits s = Some z -> 0 <= z.
Proof.
  destruct s as [|a [|b [|? ?]]]; cbn [Date.twoDigits]; try discriminate.
  - intros H. apply digit_of_range in H. lia.
  - destruct (JS.digit_of a) as [x|] eqn:Ea; [|discriminate].
    destruct (JS.digit_of b) as [y|] eqn:Eb; [|discriminate].
    intros [= <-]. apply digit_of_range in Ea. apply digit_of_range in Eb. lia.
Qed.

Lemma parse_HHmm_range s m : Date.parse_HHmm s = JS.Num m -> 0 <= m < 1440.
Proof.
  unfold Date.parse_HHmm.
  destruct (JS.split ":" s) as [|h [|mm [|? ?]]]; try discriminate.
  destruct (Date.twoDigits h) as [x|] eqn:Eh; [|discriminate].
  destruct (Date.twoDigits mm) as [y|] eqn:Em; [|discriminate].
  destruct ((x <? 24) && (y <? 60)) eqn:E; [|discriminate].
  intros [= <-]. apply andb_prop in E as [Hx Hy].
  apply Z.ltb_lt in Hx. apply Z.ltb_lt in Hy.
  apply twoDigits_range in Eh. apply twoDigits_range in Em. lia.
Qed.

(** A slot start offered for a day is the print of a minute of the day. *)
Lemma availableTimes_minutes ds time :
  time ∈ availableTimes ds -> exists m, 0 <= m < 1440 /\ time = JS.hhmm m.
Proof.
  assert (Hhalf : forall opening closing,
             time ∈ halfDayTimes opening closing -> exists m, 0 <= m < 1440 /\ time = JS.hhmm m).
  { intros opening closing. unfold halfDayTimes.
    destruct (JS.truthy opening && JS.truthy closing); [|intros H; apply elem_of_nil in H; tauto].
    destruct (Date.parse_HHmm (default "" opening)) as [a|] eqn:Ea;
      [|intros H; apply elem_of_nil in H; tauto].
    destruct (Date.parse_HHmm (default "" closing)) as [b|] eqn:Eb;
      [|intros H; apply elem_of_nil in H; tauto].
    intros H. apply list_elem_of_In, in_map_iff in H as (m & <- & Hm).
    apply list_elem_of_In, every30_spec in Hm as [(k & Hk & ->) Hlt].
    apply parse_HHmm_range in Ea. apply parse_HHmm_range in Eb.
    exists (a + 30 * k). split; [lia|]. apply hhmm_roundtrip. lia. }
  unfold availableTimes. intros H. apply elem_of_app in H as [H|H]; eapply Hhalf; exact H.
Qed.

Lemma validTimes_elem dayOffset currentDate currentTime times booked time :
  In time (validTimes dayOffset currentDate currentTime times booked) ->
  time ∈ times /\ has booked time = false.
Proof.
  unfold validTimes. destruct (dayOffset =? 0); intros H; apply filter_In in H as [Hin H].
  - destruct (JS.splitHM time). apply andb_prop in H as [_ H].
    apply negb_true_iff in H. split; [apply list_elem_of_In; exact Hin|exact H].
  - apply negb_true_iff in H. split; [apply list_elem_of_In; exact Hin|exact H].
Qed.

(** The marks of a live appointment of the day are in the set of booked times. *)
Lemma bookedTimes_footprint currentDate st a s x :
  a ∈ st -> sameDay (date a) currentDate -> status a <> cancelled ->
  JS.minutesOf (time a) = JS.Num s ->
  x ∈ every30 (JS.Num s) (JS.Num (s + totalDuration a)) ->
  has (bookedTimes (existingOn currentDate st)) (JS.hhmm x) = true.
Proof.
  intros Ha Hday Hlive Hs Hx. unfold has, bookedTimes.
  apply bool_decide_eq_true, elem_of_list_to_set, list_elem_of_bind.
  exists a. split.
  - unfold footprint. rewrite Hs. cbn [JS.add].
    apply list_elem_of_In, in_map, list_elem_of_In. exact Hx.
  - unfold existingOn. apply list_elem_of_In, filter_In.
    split; [apply list_elem_of_In; exact Ha|].
    apply andb_true_iff. split; [apply dateBetween_sameDay|apply notCancelled_true]; assumption.
Qed.

Lemma chooseSchedule_not_found schedule currentDate slot :
  chooseSchedule schedule currentDate <> inl (Found slot).
Proof.
  unfold chooseSchedule.
  destruct (lookupSpecialDay schedule currentDate) as [sd|].
  - destruct (Schedule.closed (Schedule.schedule sd)); discriminate.
  - destruct (Schedule.regularHours_get _ _) as [ds|]; [|discriminate].
    destruct (Schedule.closed ds); discriminate.
Qed.

Lemma searchDays_found schedule st startDateObj currentTime duration turns slot :
  forall dayOffset,
    result (searchDays schedule st startDateObj currentTime duration turns dayOffset) = Some slot ->
    exists k, searchDay schedule st startDateObj currentTime duration k = Found slot.
Proof.
  induction turns as [|n IH]; intros dayOffset; cbn [searchDays]; [discriminate|].
  destruct (searchDay _ _ _ _ _ dayOffset) as [s0| |] eqn:E; cbn [result].
  - intros [= <-]. exists dayOffset. exact E.
  - apply IH.
  - discriminate.
Qed.

(** The footprint does its work on a common grid: the slot returned meets no
    live appointment of its day whose start differs from the slot's start by a
    multiple of 30 minutes. *)
Lemma relocation_avoids_aligned_appointments schedule originalDate originalTime duration
    maxDays st slot :
  findNextAvailableSlot (Some schedule) originalDate originalTime duration maxDays st = Some slot ->
  exists t,
    JS.minutesOf (slot_time slot) = JS.Num t /\ 0 <= t < 1440
    /\ forall a s, a ∈ st -> JS.minutesOf (time a) = JS.Num s -> (t - s) mod 30 = 0 ->
                   ~ clashes (slot_date slot) t duration a.
Proof.
  unfold findNextAvailableSlot, runSearch.
  destruct (JS.splitHM originalTime) as [origHours origMinutes].
  intros Hfound. apply searchDays_found in Hfound as (k & Hday).
  unfold searchDay in Hday.
  destruct (chooseSchedule schedule _) as [o|ds] eqn:Hchoice;
    [subst o; apply chooseSchedule_not_found in Hchoice; contradiction|].
  set (currentDate := Date.addDays originalDate k) in *.
  set (booked := bookedTimes (existingOn currentDate st)) in *.
  destruct (List.find _ _) as [time|] eqn:Hfind; [|discriminate].
  injection Hday as <-. cbn [slot_time slot_date].
  apply find_some in Hfind as [Hvalid Haccepts].
  apply validTimes_elem in Hvalid as [Htime Hfree].
  destruct (availableTimes_minutes _ _ Htime) as (t & Ht & ->).
  destruct (hhmm_roundtrip t Ht) as (Hsplit & _ & Hminutes).
  exists t. split; [exact Hminutes|]. split; [exact Ht|].
  intros a s Ha Hs Hgrid (Hsame & Hlive & s' & Hs' & Hdur & Hlo & Hhi).
  rewrite Hs in Hs'. injection Hs' as <-.
  pose proof (Z.div_mod (t - s) 30 ltac:(lia)) as Hk.
  destruct (Z_le_gt_dec s t) as [Hle|Hgt].
  - (* the appointment starts first: it has marked the start of the slot *)
    assert (Hmark : has booked (JS.hhmm t) = true).
    { apply (bookedTimes_footprint currentDate st a s); auto.
      apply every30_spec. split; [exists ((t - s) / 30); split; [apply Z.div_pos|]; lia|lia]. }
    congruence.
  - (* the slot starts first: its sub-slot check meets the start of the appointment *)
    unfold accepts in Haccepts. rewrite Hsplit in Haccepts.
    apply andb_prop in Haccepts as [_ Hsub].
    unfold allSlotsAvailable in Hsub. cbn [JS.mul JS.add] in Hsub.
    replace (t / 60 * 60 + t mod 60) with t in Hsub
      by (pose proof (Z.div_mod t 60 ltac:(lia)); lia).
    rewrite forallb_forall in Hsub.
    assert (Hin : In s (every30 (JS.Num t) (JS.Num (t + duration)))).
    { apply list_elem_of_In, every30_spec. split; [|lia].
      exists (- ((t - s) / 30)). split; [|lia].
      assert ((t - s) / 30 <= 0) by (apply Z.div_le_upper_bound; lia). lia. }
    specialize (Hsub s Hin).
    rewrite bool_decide_eq_false_2 in Hsub by (intros [= ?]; lia).
    apply negb_true_iff in Hsub.
    assert (Hmark : has booked (JS.hhmm s) = true).
    { apply (bookedTimes_footprint currentDate st a s); auto.
      apply every30_spec. split; [exists 0; lia|lia]. }
    congruence.
Qed.

(** C3 (the code departs from the claim).  On a day open 09:00-13:00 and
    16:00-20:00 with one appointment from 11:00 to 12:30, a request for 11:00
    of 60 minutes is relocated to 12:30: the slot returned runs from 12:30 to
    13:30 and so lies in neither the morning nor the afternoon interval. *)
Theorem relocation_leaves_half_day :
  let st := [Scenario.appointment "a1" "u1" Scenario.june10 "11:00" 90 pending] in
  findNextAvailableSlot (Some Scenario.specialSplit) Scenario.june10 "11:00" 60 7 st
  = Some {| slot_date := Scenario.june10; slot_time := "12:30" |}
  /\ chooseSchedule Scenario.specialSplit Scenario.june10 = inr Scenario.splitDay
  /\ JS.minutesOf "12:30" = JS.Num 750
  /\ fitsSingleInterval Scenario.splitDay 750 60 = false.
Proof. vm_compute. repeat split; reflexivity. Qed.

(** The footprint is kept on a 30-minute grid that starts at each
    appointment's own start: an appointment at 10:15 marks "10:15" only, and
    the slot 10:30 is handed out although 10:15-10:45 is taken. *)
Lemma relocation_overlaps_unaligned_appointment :
  let busy := Scenario.appointment "a1" "u1" Scenario.june10 "10:15" 30 pending in
  let st := [busy; Scenario.appointment "a2" "u2" Scenario.june10 "09:30" 30 confirmed] in
  findNextAvailableSlot (Some Scenario.specialMorning) Scenario.june10 "09:30" 30 7 st
  = Some {| slot_date := Scenario.june10; slot_time := "10:30" |}
  /\ clashes Scenario.june10 630 30 busy.
Proof.
  split; [vm_compute; reflexivity|].
  split; [reflexivity|]. split; [discriminate|].
  exists 615. repeat split; (reflexivity || cbn; lia).
Qed.

(** C4 (the code departs from the claim).  2024-06-10 is a Monday whose
    weekly entry [lunes] is open 09:00-13:00, there is no special day, and
    one appointment occupies 10:00-11:00.  The search asks the weekly hours
    for the key "monday", finds nothing, and the property read on the missing
    entry throws; the function returns [null], not 2024-06-10 "11:00". *)
Theorem relocation_scenario_weekly_hours :
  Schedule.lunes (Schedule.regularHours Scenario.weeklyMorning) = Scenario.morning
  /\ JS.toLowerCase (Date.format_EEEE Scenario.june10) = "monday"
  /\ Schedule.regularHours_get (Schedule.regularHours Scenario.weeklyMorning) "monday" = None
  /\ chooseSchedule Scenario.weeklyMorning Scenario.june10 = inl Thrown
  /\ findNextAvailableSlot (Some Scenario.weeklyMorning) Scenario.june10 "10:00" 30 7
       Scenario.oneAtTen = None.
Proof. vm_compute. repeat split; reflexivity. Qed.

(** With the same hours given by a special day for 2024-06-10 the search
    does return 2024-06-10 "11:00". *)
Lemma relocation_scenario_special_day :
  findNextAvailableSlot (Some Scenario.specialMorning) Scenario.june10 "10:00" 30 7
    Scenario.oneAtTen
  = Some {| slot_date := Scenario.june10; slot_time := "11:00" |}.
Proof. vm_compute. reflexivity. Qed.






(** ** Date bounds *)

(** After midnight the horizon test refuses today's date: it compares the
    date with the clock as read, not with today's midnight. *)
Lemma isDateInRange_today now maxMonths :
  now mod Date.msPerDay <> 0 -> isDateInRange now (Date.startOfDay now) maxMonths = false.
Proof.
  intros Hnow. unfold isDateInRange, Date.startOfDay.
  pose proof (Z.mod_pos_bound now Date.msPerDay eq_refl).
  destruct (Z.leb_spec now (now - now mod Date.msPerDay)); [lia|reflexivity].
Qed.

(** What the two date tests let through: the dates from the clock reading
    itself up to the same reading two months on. *)
Lemma checkDate_accepted now appointmentDate :
  checkDate now appointmentDate = DateAccepted
  <-> now <= appointmentDate <= Date.addMonths now MAX_BOOKING_MONTHS.
Proof.
  unfold checkDate, isDateInRange, Date.startOfDay.
  generalize (Date.addMonths now MAX_BOOKING_MONTHS). intros maxDate.
  pose proof (Z.mod_pos_bound now Date.msPerDay eq_refl).
  destruct (Z.ltb_spec appointmentDate (now - now mod Date.msPerDay)).
  - split; [discriminate|lia].
  - destruct (Z.leb_spec now appointmentDate); destruct (Z.leb_spec appointmentDate maxDate);
      cbn [andb negb]; split; intros Hacc; try discriminate; try reflexivity; lia.
Qed.

(** C6 (the code departs from the claim).  At 15:00 on 2024-06-10 a request
    for the date 2024-06-10 (today at midnight) passes the past-date test and
    is then refused by [isDateInRange]; [createAppointment] answers 400 with
    the message of the two-month horizon. *)
Theorem same_day_booking_rejected :
  let w := Scenario.salon Scenario.mondayAfternoon (fun _ => true) in
  Date.startOfDay (now w) = Scenario.june10
  /\ (Scenario.june10 <? Date.startOfDay (now w)) = false
  /\ isDateInRange (now w) Scenario.june10 MAX_BOOKING_MONTHS = false
  /\ checkDate (now w) Scenario.june10 = DateOutOfRange
  /\ createAppointment w (Some (Scenario.principalOf Scenario.alice))
       ["haircut"] Scenario.june10 "09:00" None []
     = (respond 400 (ErrorBody "Solo puedes reservar con máximo 2 meses de anticipación"), []).
Proof. vm_compute. repeat split; reflexivity. Qed.

(** ** Cancellation *)

Lemma findById_id i st a : findById i st = Some a -> _id a = i.
Proof.
  unfold findById. intros H. apply find_some in H as [_ H].
  apply bool_decide_eq_true in H. exact H.
Qed.

Lemma findById_elem_of i st a : findById i st = Some a -> a ∈ st.
Proof.
  unfold findById. intros H. apply find_some in H as [H _].
  apply list_elem_of_In. exact H.
Qed.

Lemma preSave_id now loaded a : _id (preSave now loaded a) = _id a.
Proof. unfold preSave. destruct (bool_decide _); reflexivity. Qed.

(** What a successful [save] of a loaded document does to the collection. *)
Lemma save_inr now a st st' :
  save now a st = inr st' ->
  st' = map (fun b => if bool_decide (_id b = _id a) then preSave now b a else b) st.
Proof.
  unfold save. destruct (negb (validate now a)); [discriminate|].
  destruct (negb (date_time_status_unique _ a)); [discriminate|].
  intros [= <-]. reflexivity.
Qed.

Lemma save_lookup now a st st' j :
  save now a st = inr st' ->
  findById j st'
  = if bool_decide (j = _id a) then (fun b => preSave now b a) <$> findById j st
    else findById j st.
Proof.
  intros H. apply save_inr in H. subst st'.
  induction st as [|b st IH]; unfold findById in *; cbn [map List.find].
  - destruct (bool_decide (j = _id a)); reflexivity.
  - destruct (bool_decide_reflect (_id b = _id a)) as [Hb|Hb].
    + rewrite preSave_id. destruct (bool_decide_reflect (_id a = j)) as [Hj|Hj].
      * rewrite (bool_decide_eq_true_2 (_id b = j)) by congruence.
        rewrite bool_decide_eq_true_2 by congruence. reflexivity.
      * rewrite (bool_decide_eq_false_2 (_id b = j)) by congruence. exact IH.
    + destruct (bool_decide_reflect (_id b = j)) as [Hj|Hj].
      * rewrite bool_decide_eq_false_2 by congruence. reflexivity.
      * exact IH.
Qed.

Lemma save_length now a st st' : save now a st = inr st' -> length st' = length st.
Proof. intros H. apply save_inr in H. subst st'. apply length_map. Qed.

(** After a successful save of the cancelled document [Hsave], the documents
    with another [_id] are found as before. *)
Ltac other_documents Hsave :=
  let j := fresh "j" in
  let Hj := fresh "Hj" in
  intros j Hj; rewrite (save_lookup _ _ _ _ j Hsave); cbn [_id set_cancelled];
  rewrite bool_decide_eq_false_2 by congruence; reflexivity.

(** C7 (the code departs from the claim).  The super-administrator, who does
    not own the appointment, asks to cancel it: the test of the controller
    knows the role 'admin' only, answers 403 and leaves the collection as it
    was. *)
Theorem superadmin_cannot_cancel :
  let w := Scenario.salon Scenario.dayBefore (fun _ => true) in
  principal_role (Scenario.principalOf Scenario.root) = "superadmin"
  /\ cancelAppointment w (Some (Scenario.principalOf Scenario.root)) "a1" None Scenario.oneAtTen
     = (respond 403 (ErrorBody "No tienes permiso para cancelar esta cita"), Scenario.oneAtTen)
  /\ statusCode (fst (cancelAppointment w (Some (Scenario.principalOf Scenario.admin)) "a1" None
                        Scenario.oneAtTen)) = 200
  /\ statusCode (fst (cancelAppointment w (Some (Scenario.principalOf Scenario.alice)) "a1" None
                        Scenario.oneAtTen)) = 200
  /\ statusCode (fst (cancelAppointment w (Some (Scenario.principalOf Scenario.bob)) "a1" None
                        Scenario.oneAtTen)) = 403.
Proof. vm_compute. repeat split; reflexivity. Qed.

(** The test of the controller, in general: it lets the owner and the role
    'admin' through and nobody else. *)
Lemma notPermitted_spec appointment reqUser :
  notPermitted appointment reqUser = false
  <-> exists p, reqUser = Some p /\ (id p = user appointment \/ principal_role p = "admin").
Proof.
  unfold notPermitted. rewrite andb_false_iff, !negb_false_iff, !bool_decide_eq_true.
  destruct reqUser as [p|]; cbn.
  - split.
    + intros [[= H]|[= H]]; exists p; auto.
    + intros (q & [= <-] & [H|H]); [left|right]; congruence.
  - split; [intros [H|H]; discriminate|intros (q & H & _); discriminate].
Qed.

(** C10.  A successful cancellation rewrites the status, the cancellation
    reason and the cancellation time of the appointment; its user, services,
    date, time, duration, notes and reminder flag are as before, and so is
    every other document of the collection. *)
Theorem cancelAppointment_frame (w : World) (reqUser : option Principal) (i : ObjectId)
    (reason : option string) (st st' : Store) (r : Response) :
  cancelAppointment w reqUser i reason st = (r, st') ->
  statusCode r = 200 ->
  exists a a',
    findById i st = Some a /\ findById i st' = Some a'
    /\ status a' = cancelled
    /\ cancellationReason a' = Some (JS.orElse reason "Cancelado por el usuario")
    /\ cancelledAt a' = Some (now w)
    /\ _id a' = _id a /\ user a' = user a /\ services a' = services a
    /\ date a' = date a /\ time a' = time a /\ totalDuration a' = totalDuration a
    /\ notes a' = notes a /\ reminderSent a' = reminderSent a
    /\ reminderSentAt a' = reminderSentAt a /\ createdAt a' = createdAt a
    /\ (forall j, j <> i -> findById j st' = findById j st)
    /\ length st' = length st.
Proof.
  unfold cancelAppointment. intros Hrun Hcode.
  destruct (findById i st) as [a|] eqn:Hfind; [|injection Hrun as <- <-; discriminate].
  destruct (notPermitted a reqUser); [injection Hrun as <- <-; discriminate|].
  destruct (save _ _ st) as [e|st1] eqn:Hsave; injection Hrun as <- <-; [discriminate|].
  pose proof (findById_id _ _ _ Hfind) as Hid.
  exists a, (preSave (now w) a (set_cancelled a (JS.orElse reason "Cancelado por el usuario") (now w))).
  split; [reflexivity|]. split.
  - rewrite (save_lookup _ _ _ _ i Hsave). cbn [_id set_cancelled].
    rewrite bool_decide_eq_true_2 by congruence. rewrite Hfind. reflexivity.
  - unfold preSave. destruct (bool_decide _); cbn; repeat split;
      try reflexivity; try (apply (save_length _ _ _ _ Hsave)); other_documents Hsave.
Qed.

Lemma cancelAppointment_frame_witness :
  let w := Scenario.salon Scenario.dayBefore (fun _ => true) in
  let run := cancelAppointment w (Some (Scenario.principalOf Scenario.alice)) "a1"
               (Some "Viaje") Scenario.oneAtTen in
  (run = (fst run, snd run) /\ statusCode (fst run) = 200)
  /\ exists a a',
       findById "a1" Scenario.oneAtTen = Some a /\ findById "a1" (snd run) = Some a'
       /\ status a' = cancelled
       /\ cancellationReason a' = Some (JS.orElse (Some "Viaje") "Cancelado por el usuario")
       /\ cancelledAt a' = Some (now w)
       /\ _id a' = _id a /\ user a' = user a /\ services a' = services a
       /\ date a' = date a /\ time a' = time a /\ totalDuration a' = totalDuration a
       /\ notes a' = notes a /\ reminderSent a' = reminderSent a
       /\ reminderSentAt a' = reminderSentAt a /\ createdAt a' = createdAt a
       /\ (forall j, j <> "a1" -> findById j (snd run) = findById j Scenario.oneAtTen)
       /\ length (snd run) = length Scenario.oneAtTen.
Proof.
  intros w run.
  assert (Hrun : run = (fst run, snd run)) by (vm_compute; reflexivity).
  assert (Hcode : statusCode (fst run) = 200) by (vm_compute; reflexivity).
  split; [split; [exact Hrun|exact Hcode]|].
  exact (cancelAppointment_frame w (Some (Scenario.principalOf Scenario.alice)) "a1"
           (Some "Viaje") Scenario.oneAtTen (snd run) (fst run) Hrun Hcode).
Defined.

(** ** The unique index *)

(** C1 (the code departs from the claim).  The key of the index
    [date_time_status_unique] contains the status: an appointment held with
    status 'pending' does not stop the write of a 'confirmed' one (the status
    given to a relocated appointment) for the same date and time.  Afterwards
    two appointments that are not cancelled share the pair (date, time). *)
Theorem unique_index_admits_shared_slot :
  let held := Scenario.appointment "a1" "u1" Scenario.june10 "10:00" 30 pending in
  let relocated := Scenario.appointment "a2" "u2" Scenario.june10 "10:00" 30 confirmed in
  date_time_status_unique [held] relocated = true
  /\ saveNew Scenario.dayBefore relocated [held]
     = inr [held; set_saved relocated Scenario.dayBefore]
  /\ _id held <> _id relocated
  /\ status held <> cancelled /\ status relocated <> cancelled
  /\ date held = date relocated /\ time held = time relocated.
Proof. vm_compute. repeat split; congruence. Qed.

(** In general the index lets a new document through as soon as no stored
    document has its status, whatever the dates and times. *)
Lemma unique_index_ignores_other_status now a st :
  validate now a = true ->
  (forall b, b ∈ st -> _id b <> _id a /\ status b <> status a) ->
  saveNew now a st = inr (st ++ [set_saved a now])%list.
Proof.
  intros Hv Hother. unfold saveNew. rewrite Hv. cbn [negb].
  assert (Hid : existsb (fun b => bool_decide (_id b = _id a)) st = false).
  { apply not_true_is_false. rewrite existsb_exists.
    intros (b & Hb & Heq). apply bool_decide_eq_true in Heq.
    apply list_elem_of_In in Hb. destruct (Hother b Hb) as [Hne _]. contradiction. }
  assert (Hkey : existsb (fun b => notCancelled b && sameIndexKey a b) st = false).
  { apply not_true_is_false. rewrite existsb_exists.
    intros (b & Hb & Hkey). apply andb_prop in Hkey as [_ Hkey].
    unfold sameIndexKey in Hkey. apply andb_prop in Hkey as [_ Hst].
    apply bool_decide_eq_true in Hst.
    apply list_elem_of_In in Hb. destruct (Hother b Hb) as [_ Hne]. congruence. }
  rewrite Hid. unfold date_time_status_unique. rewrite Hkey, andb_false_r. reflexivity.
Qed.

(** What the index does refuse: a second live document with the same date,
    time and status. *)
Lemma unique_index_refuses_same_key now a b st :
  b ∈ st -> status a <> cancelled ->
  date a = date b -> time a = time b -> status a = status b ->
  validate now a = true -> (forall c, c ∈ st -> _id c <> _id a) ->
  saveNew now a st = inl DuplicateKey.
Proof.
  intros Hb Ha Hd Ht Hs Hv Hfresh. unfold saveNew. rewrite Hv. cbn [negb].
  assert (Hid : existsb (fun c => bool_decide (_id c = _id a)) st = false).
  { apply not_true_is_false. rewrite existsb_exists.
    intros (c & Hc & Heq). apply bool_decide_eq_true in Heq.
    apply (Hfresh c); [apply list_elem_of_In; exact Hc|exact Heq]. }
  rewrite Hid.
  assert (Hdup : date_time_status_unique st a = false).
  { unfold date_time_status_unique. apply negb_false_iff, andb_true_iff. split.
    - apply notCancelled_true. exact Ha.
    - apply existsb_exists. exists b. split; [apply list_elem_of_In; exact Hb|].
      apply andb_true_iff. split; [apply notCancelled_true; congruence|].
      unfold sameIndexKey. rewrite !bool_decide_eq_true_2 by assumption. reflexivity. }
  rewrite Hdup. reflexivity.
Qed.

(** ** Terminal states *)




(** ** Schedule change notification *)

Lemma affectedBy_sameDay d a :
  affectedBy (Date.startOfDay d) (Date.addDays (Date.startOfDay d) 1) a = true
  <-> sameDay (date a) d /\ status a <> cancelled.
Proof.
  unfold affectedBy. rewrite andb_true_iff, notCancelled_true.
  rewrite <- (dateBetween_sameDay d a).
  unfold dateBetween, Date.endOfDay, Date.addDays, Date.msPerDay.
  rewrite !andb_true_iff, !Z.leb_le, Z.ltb_lt.
  split; intros [[? ?] ?]; repeat split; (assumption || lia).
Qed.

Lemma uniqueIds_eq st a b :
  uniqueIds st -> a ∈ st -> b ∈ st -> _id a = _id b -> a = b.
Proof.
  unfold uniqueIds. induction st as [|x st IH]; cbn [map]; intros Hnd Ha Hb Heq.
  - apply elem_of_nil in Ha. contradiction.
  - apply NoDup_cons in Hnd as [Hx Hnd].
    assert (Hfresh : forall y, y ∈ st -> _id y <> _id x).
    { intros y Hy Hyx. apply Hx. rewrite <- Hyx.
      apply list_elem_of_In, in_map, list_elem_of_In. exact Hy. }
    apply elem_of_cons in Ha as [->|Ha]; apply elem_of_cons in Hb as [->|Hb].
    + reflexivity.
    + exfalso. apply (Hfresh b Hb). congruence.
    + exfalso. apply (Hfresh a Ha). congruence.
    + apply IH; assumption.
Qed.

Lemma findById_unique st a : uniqueIds st -> a ∈ st -> findById (_id a) st = Some a.
Proof.
  intros Hu Ha. destruct (findById (_id a) st) as [b|] eqn:Hfind.
  - f_equal. apply (uniqueIds_eq st); auto.
    + apply (findById_elem_of _ _ _ Hfind).
    + apply (findById_id _ _ _ Hfind).
  - unfold findById in Hfind.
    apply list_elem_of_In in Ha.
    apply (find_none _ _ Hfind a) in Ha.
    apply bool_decide_eq_false in Ha. contradiction.
Qed.

Lemma uniqueIds_filter (p : IAppointment -> bool) st :
  uniqueIds st -> NoDup (map _id (List.filter p st)).
Proof.
  unfold uniqueIds. induction st as [|x st IH]; cbn [map List.filter]; intros Hnd.
  - constructor.
  - apply NoDup_cons in Hnd as [Hx Hnd]. destruct (p x); cbn [map]; [|auto].
    apply NoDup_cons. split; [|auto].
    intros Hin. apply Hx.
    apply list_elem_of_In, in_map_iff in Hin as (y & Hy & Hin).
    apply filter_In in Hin as [Hin _].
    apply list_elem_of_In, in_map_iff. exists y. auto.
Qed.

Lemma sameSlot_elem_of l cur c :
  Forall2 sameSlot l cur -> c ∈ cur -> exists b, b ∈ l /\ sameSlot b c.
Proof.
  intros Hrel. induction Hrel as [|b c' l k Hbc Hrel IH]; intros Hc.
  - apply elem_of_nil in Hc. contradiction.
  - apply elem_of_cons in Hc as [->|Hc].
    + exists b. split; [left|exact Hbc].
    + destruct (IH Hc) as (b' & ? & ?). exists b'. split; [right; assumption|assumption].
Qed.

Section Callbacks.

(** The callbacks of one call: the world, the reason given in the request,
    and the collection [st] the call starts from, whose documents have
    different [_id]s. *)
Context (w : World) (reason : option string) (st : Store).
Hypothesis Hunique : uniqueIds st.

Let marked (x : IAppointment) : IAppointment :=
  set_needsRescheduling x (closureNotes x reason).

Let run (cur : Store) (l : list IAppointment) : Store :=
  foldl (fun acc x => notifyOne w reason x acc) cur l.

(** One callback either changes nothing or is a successful save of the
    marked document. *)
Lemma notifyOne_cases x cur :
  notifyOne w reason x cur = cur
  \/ save (now w) (marked x) cur = inr (notifyOne w reason x cur).
Proof.
  unfold notifyOne, marked. destruct (findUserById _ _) as [u|]; [|left; reflexivity].
  destruct (String.eqb _ _); [left; reflexivity|].
  destruct (negb _); [left; reflexivity|].
  destruct (save _ _ cur); [left|right]; reflexivity.
Qed.

Lemma notifyOne_other x cur j :
  _id x <> j -> findById j (notifyOne w reason x cur) = findById j cur.
Proof.
  intros Hj. destruct (notifyOne_cases x cur) as [->|Hsave]; [reflexivity|].
  rewrite (save_lookup _ _ _ _ j Hsave). cbn [_id marked set_needsRescheduling].
  rewrite bool_decide_eq_false_2 by congruence. reflexivity.
Qed.

Lemma sameSlot_rewrite x (g : IAppointment -> IAppointment) :
  x ∈ st ->
  (forall c, sameSlot x c -> sameSlot x (g c)) ->
  forall l k, (forall b, b ∈ l -> b ∈ st) -> Forall2 sameSlot l k ->
    Forall2 sameSlot l (map (fun c => if bool_decide (_id c = _id x) then g c else c) k).
Proof.
  intros Hx Hg l k Hsub Hrel.
  induction Hrel as [|b c l k Hbc Hrel IH]; cbn [map]; constructor.
  - destruct (bool_decide_reflect (_id c = _id x)) as [Hcx|Hcx]; [|exact Hbc].
    assert (b = x) as ->.
    { apply (uniqueIds_eq st); auto; [apply Hsub; left|].
      destruct Hbc as [Hid _]. congruence. }
    apply Hg. exact Hbc.
  - apply IH. intros y Hy. apply Hsub. right. exact Hy.
Qed.

(** The callbacks keep every document at its place, date and time, and keep
    apart the cancelled from the live ones. *)
Lemma notifyOne_sameSlot x cur :
  x ∈ st -> status x <> cancelled ->
  Forall2 sameSlot st cur -> Forall2 sameSlot st (notifyOne w reason x cur).
Proof.
  intros Hx Hlive Hrel.
  destruct (notifyOne_cases x cur) as [->|Hsave]; [exact Hrel|].
  apply save_inr in Hsave. rewrite Hsave. cbn [_id marked set_needsRescheduling].
  apply (sameSlot_rewrite x); auto.
  intros c _. unfold preSave, sameSlot.
  destruct (bool_decide _); cbn; repeat split; (congruence || tauto).
Qed.

Lemma run_other j l :
  forall cur, (forall x, x ∈ l -> _id x <> j) -> findById j (run cur l) = findById j cur.
Proof.
  unfold run. induction l as [|x l IH]; intros cur Hl; cbn [foldl]; [reflexivity|].
  rewrite IH by (intros y Hy; apply Hl; right; exact Hy).
  apply notifyOne_other. apply Hl. left.
Qed.

(** The document [j] stays when the callbacks for it, if any, do nothing. *)
Lemma run_keeps j l :
  forall cur,
    (forall x, x ∈ l -> _id x = j -> forall cur', notifyOne w reason x cur' = cur') ->
    findById j (run cur l) = findById j cur.
Proof.
  unfold run. induction l as [|x l IH]; intros cur Hl; cbn [foldl]; [reflexivity|].
  rewrite IH by (intros y Hy; apply Hl; right; exact Hy).
  destruct (decide (_id x = j)) as [Hx|Hx].
  - rewrite (Hl x) by (left || exact Hx). reflexivity.
  - apply notifyOne_other. exact Hx.
Qed.

(** From here on [a] is an appointment of [st] whose user can be reached,
    which passes validation and is the only live one in its slot. *)
Variable a : IAppointment.
Hypothesis Hmember : a ∈ st.
Hypothesis Hreach : reachable w a.
Hypothesis Hvalid : validate (now w) a = true.
Hypothesis Halone : aloneInSlot st a.

(** The index lets the marked document through. *)
Lemma marked_unique cur :
  Forall2 sameSlot st cur ->
  date_time_status_unique
    (List.filter (fun b => negb (bool_decide (_id b = _id (marked a)))) cur) (marked a) = true.
Proof.
  intros Hrel.
  unfold date_time_status_unique. apply negb_true_iff, andb_false_iff. right.
  apply not_true_is_false. rewrite existsb_exists.
  intros (c & Hc & Hkey).
  apply filter_In in Hc as [Hc Hcid].
  apply negb_true_iff, bool_decide_eq_false in Hcid.
  apply andb_true_iff in Hkey as [Hlive Hkey].
  apply notCancelled_true in Hlive.
  unfold sameIndexKey in Hkey.
  apply andb_true_iff in Hkey as [Hkey _].
  apply andb_true_iff in Hkey as [Hd Ht].
  apply bool_decide_eq_true in Hd. apply bool_decide_eq_true in Ht.
  apply list_elem_of_In in Hc.
  destruct (sameSlot_elem_of _ _ _ Hrel Hc) as (b & Hb & Hbid & Hbd & Hbt & Hbc).
  apply (Halone b Hb).
  - cbn in Hcid. congruence.
  - tauto.
  - cbn in Hd, Ht. split; congruence.
Qed.

(** The callback of [a] stores the marked document. *)
Lemma notifyOne_turn cur :
  Forall2 sameSlot st cur -> findById (_id a) cur = Some a ->
  findById (_id a) (notifyOne w reason a cur) = Some (preSave (now w) a (marked a)).
Proof.
  intros Hrel Hfind.
  destruct Hreach as (u & Hu & Hmail & Hsend).
  assert (Hsave : exists st1, save (now w) (marked a) cur = inr st1).
  { unfold save.
    assert (Hv : validate (now w) (marked a) = true) by exact Hvalid.
    rewrite Hv, (marked_unique cur Hrel). cbn [negb]. eexists. reflexivity. }
  destruct Hsave as (st1 & Hsave).
  unfold notifyOne. rewrite Hu.
  rewrite (proj2 (String.eqb_neq _ _) Hmail), Hsend. cbn [negb].
  fold (marked a). rewrite Hsave.
  rewrite (save_lookup _ _ _ _ (_id a) Hsave).
  rewrite bool_decide_eq_true_2 by reflexivity. rewrite Hfind. reflexivity.
Qed.

(** So does the whole run, when [a] is among the appointments it visits. *)
Lemma run_marks l :
  forall cur,
    (forall x, x ∈ l -> x ∈ st /\ status x <> cancelled) ->
    NoDup (map _id l) -> a ∈ l ->
    Forall2 sameSlot st cur -> findById (_id a) cur = Some a ->
    findById (_id a) (run cur l) = Some (preSave (now w) a (marked a)).
Proof.
  induction l as [|x l IH]; intros cur Hl Hnd Hal Hrel Hfind.
  - apply elem_of_nil in Hal. contradiction.
  - cbn [map] in Hnd. apply NoDup_cons in Hnd as [Hx Hnd].
    destruct (Hl x) as [Hxst Hxlive]; [left|].
    change (run cur (x :: l)) with (run (notifyOne w reason x cur) l).
    destruct (decide (_id x = _id a)) as [Hxa|Hxa].
    + assert (x = a) as -> by (apply (uniqueIds_eq st); auto).
      rewrite run_other.
      * apply notifyOne_turn; assumption.
      * intros y Hy Hya. apply Hx. rewrite <- Hya.
        apply list_elem_of_In, in_map, list_elem_of_In. exact Hy.
    + apply IH.
      * intros y Hy. apply Hl. right. exact Hy.
      * exact Hnd.
      * apply elem_of_cons in Hal as [->|Hal]; [contradiction|exact Hal].
      * apply notifyOne_sameSlot; assumption.
      * rewrite notifyOne_other by exact Hxa. exact Hfind.
Qed.

End Callbacks.

(** C8, as stated, fails: after the notification the appointment of the day
    has the status 'needsRescheduling', not 'cancelled', and no cancellation
    reason; an appointment whose mail cannot be sent keeps its status; and a
    completed appointment of the day is selected and marked as well. *)
Lemma notifyScheduleChange_counterexample :
  let w := Scenario.salon Scenario.dayBefore Scenario.notToBob in
  let after := snd (notifyScheduleChange w (Some Scenario.june10) (Some "Obras")
                      Scenario.twoBookings) in
  let afterServed := snd (notifyScheduleChange w (Some Scenario.june10) (Some "Obras")
                            [Scenario.served]) in
  (status <$> findById "a1" Scenario.twoBookings) = Some pending
  /\ (status <$> findById "a1" after) = Some needsRescheduling
  /\ (cancellationReason <$> findById "a1" after) = Some None
  /\ (status <$> findById "a2" Scenario.twoBookings) = Some confirmed
  /\ delivers w "bob@example.com" = false
  /\ (status <$> findById "a2" after) = Some confirmed
  /\ (status <$> findById "a1" afterServed) = Some needsRescheduling.
Proof. vm_compute. repeat split; reflexivity. Qed.

(** C8, amended.  For a given date [notifyScheduleChange] acts on the
    appointments of that date that are not cancelled.  A non-terminal one
    whose user can be reached by mail (the document passing validation and
    being the only live one at its date and time) gets the status
    'needsRescheduling' and the system's note appended to its notes, its
    other booking data staying as they were.  An appointment of another
    date, a cancelled one, and one whose user cannot be reached are left
    unchanged: a failed notification holds back the change of its own
    appointment only. *)
Theorem notifyScheduleChange_marks (w : World) (d : Z) (reason : option string)
    (st : Store) (a : IAppointment) :
  uniqueIds st -> a ∈ st ->
  (sameDay (date a) d -> status a <> cancelled -> status a <> completed ->
   reachable w a -> validate (now w) a = true -> aloneInSlot st a ->
   exists a',
     findById (_id a) (snd (notifyScheduleChange w (Some d) reason st)) = Some a'
     /\ status a' = needsRescheduling
     /\ notes a' = closureNotes a reason
     /\ user a' = user a /\ services a' = services a /\ date a' = date a
     /\ time a' = time a /\ totalDuration a' = totalDuration a
     /\ cancellationReason a' = cancellationReason a /\ cancelledAt a' = cancelledAt a)
  /\ (~ sameDay (date a) d \/ status a = cancelled \/ unreachable w a ->
      findById (_id a) (snd (notifyScheduleChange w (Some d) reason st)) = Some a).
Proof.
  intros Hu Ha.
  set (l := List.filter (affectedBy (Date.startOfDay d) (Date.addDays (Date.startOfDay d) 1)) st).
  assert (Hrun : snd (notifyScheduleChange w (Some d) reason st)
                 = foldl (fun acc x => notifyOne w reason x acc) st l).
  { unfold notifyScheduleChange. fold l.
    destruct (bool_decide_reflect (l = [])) as [->|_]; reflexivity. }
  rewrite Hrun.
  assert (Hl : forall x, x ∈ l -> x ∈ st /\ sameDay (date x) d /\ status x <> cancelled).
  { intros x Hx. apply list_elem_of_In, filter_In in Hx as [Hx Hsel].
    split; [apply list_elem_of_In; exact Hx|]. apply affectedBy_sameDay. exact Hsel. }
  split.
  - intros Hday Hlive _ Hreach Hvalid Halone.
    exists (preSave (now w) a (set_needsRescheduling a (closureNotes a reason))).
    split.
    + apply (run_marks w reason st Hu a); auto.
      * intros x Hx. destruct (Hl x Hx) as (? & _ & ?). auto.
      * apply uniqueIds_filter. exact Hu.
      * apply list_elem_of_In, filter_In. split; [apply list_elem_of_In; exact Ha|].
        apply affectedBy_sameDay. auto.
      * apply Forall_Forall2_diag, Forall_forall. intros x _. repeat split; tauto.
      * apply findById_unique; assumption.
    + unfold preSave. destruct (bool_decide _); cbn; repeat split; reflexivity.
  - intros Hskip.
    rewrite run_keeps; [apply findById_unique; assumption|].
    intros x Hx Hxa cur'. destruct (Hl x Hx) as (Hxst & Hxday & Hxlive).
    assert (x = a) as -> by (apply (uniqueIds_eq st); auto).
    destruct Hskip as [Hday|[Hdead|Hnomail]]; [contradiction|contradiction|].
    unfold notifyOne. destruct (findUserById _ _) as [u|] eqn:Hfu; [|reflexivity].
    destruct (Hnomail u Hfu) as [Hempty|Hfail].
    + rewrite Hempty. reflexivity.
    + rewrite Hfail. destruct (String.eqb _ _); reflexivity.
Qed.

Lemma notifyScheduleChange_marks_witness :
  let w := Scenario.salon Scenario.dayBefore Scenario.notToBob in
  let a := Scenario.appointment "a1" "u1" Scenario.june10 "10:00" 60 pending in
  (uniqueIds Scenario.twoBookings /\ a ∈ Scenario.twoBookings
   /\ sameDay (date a) Scenario.june10 /\ status a <> cancelled /\ status a <> completed
   /\ reachable w a /\ validate (now w) a = true /\ aloneInSlot Scenario.twoBookings a)
  /\ exists a',
       findById (_id a) (snd (notifyScheduleChange w (Some Scenario.june10) (Some "Obras")
                                Scenario.twoBookings)) = Some a'
       /\ status a' = needsRescheduling
       /\ notes a' = closureNotes a (Some "Obras")
       /\ user a' = user a /\ services a' = services a /\ date a' = date a
       /\ time a' = time a /\ totalDuration a' = totalDuration a
       /\ cancellationReason a' = cancellationReason a /\ cancelledAt a' = cancelledAt a.
Proof.
  intros w a.
  assert (Hu : uniqueIds Scenario.twoBookings).
  { unfold uniqueIds. cbn [map Scenario.twoBookings Scenario.appointment _id].
    apply NoDup_cons; split; [|apply NoDup_singleton].
    intros Hin. apply elem_of_cons in Hin as [Hin|Hin]; [discriminate|].
    apply elem_of_nil in Hin. contradiction. }
  assert (Ha : a ∈ Scenario.twoBookings) by (left).
  assert (Hday : sameDay (date a) Scenario.june10) by reflexivity.
  assert (Hlive : status a <> cancelled) by discriminate.
  assert (Hopen : status a <> completed) by discriminate.
  assert (Hreach : reachable w a).
  { exists Scenario.alice. repeat split; (reflexivity || discriminate). }
  assert (Hvalid : validate (now w) a = true) by reflexivity.
  assert (Halone : aloneInSlot Scenario.twoBookings a).
  { intros b Hb Hid _ [_ Htime].
    apply elem_of_cons in Hb as [->|Hb]; [contradiction|].
    apply elem_of_cons in Hb as [->|Hb]; [discriminate|].
    apply elem_of_nil in Hb. contradiction. }
  split; [repeat split; assumption|].
  exact (proj1 (notifyScheduleChange_marks w Scenario.june10 (Some "Obras")
                  Scenario.twoBookings a Hu Ha)
           Hday Hlive Hopen Hreach Hvalid Halone).
Defined.

(** * Further properties of the code *)

(** ** Shared facts about the storage rules *)

Lemma validate_spec now a :
  validate now a = true
  <-> Date.startOfDay now <= date a /\ time_match (time a) = true
      /\ 1 <= totalDuration a <= 480.
Proof. unfold validate. autorewrite with tests. tauto. Qed.

Lemma save_validate now a st st' : save now a st = inr st' -> validate now a = true.
Proof. unfold save. destruct (validate now a); [reflexivity|discriminate]. Qed.

Lemma preSave_cases now loaded a :
  preSave now loaded a = a \/ preSave now loaded a = set_saved a now.
Proof. unfold preSave. destruct (bool_decide _); auto. Qed.

Lemma status_preSave now loaded a : status (preSave now loaded a) = status a.
Proof. unfold preSave. destruct (bool_decide _); reflexivity. Qed.

(** What a successful [save] of a new document does, and what it has checked. *)
Lemma saveNew_inr now a st st' :
  saveNew now a st = inr st' ->
  st' = (st ++ [set_saved a now])%list
  /\ validate now a = true
  /\ (forall b, b ∈ st -> _id b <> _id a)
  /\ date_time_status_unique st a = true.
Proof.
  unfold saveNew.
  destruct (validate now a) eqn:Hv; [|discriminate]. cbn [negb].
  destruct (existsb _ st) eqn:Hid; [discriminate|].
  destruct (date_time_status_unique st a) eqn:Hkey; [|discriminate]. cbn [negb].
  intros [= <-]. repeat split.
  intros b Hb Heq.
  assert (existsb (fun b => bool_decide (_id b = _id a)) st = true); [|congruence].
  apply existsb_exists. exists b. split; [apply list_elem_of_In; exact Hb|].
  apply bool_decide_eq_true. exact Heq.
Qed.

(** The two ways in which the code reads the hour and the minute of a stored
    time agree on a text that passes the schema's pattern. *)
Lemma time_match_parts s :
  time_match s = true ->
  exists h m,
    JS.splitHM s = (JS.Num h, JS.Num m)
    /\ JS.parseInt (JS.split ":" s !! 0%nat) = JS.Num h
    /\ JS.parseInt (JS.split ":" s !! 1%nat) = JS.Num m
    /\ 0 <= h < 24 /\ 0 <= m < 60.
Proof.
  destruct s as [|h1 [|h0 [|c [|m1 [|m0 [|? ?]]]]]]; try discriminate.
  cbn [time_match].
  destruct (JS.digit_of h1) as [a|] eqn:E1; [|discriminate].
  destruct (JS.digit_of h0) as [b|] eqn:E0; [|discriminate].
  destruct (JS.digit_of m1) as [x|] eqn:E3; [|discriminate].
  destruct (JS.digit_of m0) as [y|] eqn:E4; [|discriminate].
  intros H.
  apply andb_true_iff in H as [H Hx].
  apply andb_true_iff in H as [Hc Hh].
  apply Ascii.eqb_eq in Hc. subst c.
  pose proof (digit_of_range _ _ E1). pose proof (digit_of_range _ _ E0).
  pose proof (digit_of_range _ _ E3). pose proof (digit_of_range _ _ E4).
  exists (10 * (10 * 0 + a) + b), (10 * (10 * 0 + x) + y).
  unfold JS.splitHM. cbn [JS.split].
  rewrite (digit_of_not_colon _ _ E1), (digit_of_not_colon _ _ E0),
          (digit_of_not_colon _ _ E3), (digit_of_not_colon _ _ E4).
  cbn [Ascii.eqb Bool.eqb JS.split map lookup list_lookup JS.parseInt].
  unfold JS.Number. cbn [JS.digits_from JS.leading_digits]. rewrite E1, E0, E3, E4.
  cbn [JS.leading_digits default].
  split; [reflexivity|]. split; [f_equal; lia|]. split; [f_equal; lia|].
  apply Z.leb_le in Hx.
  assert (10 * a + b <= 23).
  { apply orb_true_iff in Hh as [Ha|Hab].
    - apply Z.leb_le in Ha. lia.
    - apply andb_true_iff in Hab as [Ha Hb].
      apply Z.eqb_eq in Ha. apply Z.leb_le in Hb. lia. }
  lia.
Qed.

Lemma filter_elem_of {A} (p : A -> bool) (st : list A) a :
  a ∈ List.filter p st <-> a ∈ st /\ p a = true.
Proof. rewrite list_elem_of_In, filter_In, <- list_elem_of_In. reflexivity. Qed.

Lemma notTerminal_spec a :
  notTerminal a = true <-> status a <> cancelled /\ status a <> completed.
Proof.
  unfold notTerminal. rewrite andb_true_iff, !negb_true_iff, !bool_decide_eq_false. reflexivity.
Qed.

Lemma pendingOrConfirmed_spec a :
  pendingOrConfirmed a = true <-> status a = pending \/ status a = confirmed.
Proof.
  unfold pendingOrConfirmed. rewrite orb_true_iff, !bool_decide_eq_true. reflexivity.
Qed.

Lemma uniqueIds_check st : bool_decide (NoDup (map _id st)) = true -> uniqueIds st.
Proof. apply bool_decide_eq_true_1. Qed.

(** With pairwise different [_id]s, the write of a document replaces that
    document alone. *)
Lemma replace_by_id (g : IAppointment -> IAppointment) st a :
  uniqueIds st -> a ∈ st ->
  map (fun b => if bool_decide (_id b = _id a) then g b else b) st
  = map (fun b => if bool_decide (b = a) then g a else b) st.
Proof.
  intros Hu Ha. apply map_ext_in. intros b Hb. apply list_elem_of_In in Hb.
  destruct (bool_decide_reflect (_id b = _id a)) as [Hid|Hid].
  - assert (b = a) as -> by (apply (uniqueIds_eq st); auto).
    rewrite bool_decide_eq_true_2 by reflexivity. reflexivity.
  - rewrite bool_decide_eq_false_2 by congruence. reflexivity.
Qed.

(** Replacing the documents of a list one after the other. *)
Lemma replace_compose (A : IAppointment -> IAppointment) l a st :
  (forall b, _id (A b) = _id b) ->
  uniqueIds st -> a ∈ st -> _id a ∉ map _id l ->
  map (fun b => if bool_decide (b ∈ l) then A b else b)
      (map (fun b => if bool_decide (b = a) then A a else b) st)
  = map (fun b => if bool_decide (b ∈ a :: l) then A b else b) st.
Proof.
  intros HA Hu Ha Hfresh. rewrite map_map. apply map_ext_in. intros b Hb.
  assert (Hnotin : forall x, _id x = _id a -> x ∉ l).
  { intros x Hx Hin. apply Hfresh. rewrite <- Hx.
    apply list_elem_of_In, in_map, list_elem_of_In. exact Hin. }
  destruct (bool_decide_reflect (b = a)) as [->|Hne].
  - rewrite bool_decide_eq_false_2 by (apply Hnotin, HA).
    rewrite bool_decide_eq_true_2 by left. reflexivity.
  - destruct (bool_decide_reflect (b ∈ l)) as [Hin|Hout].
    + rewrite bool_decide_eq_true_2 by (right; exact Hin). reflexivity.
    + rewrite bool_decide_eq_false_2; [reflexivity|].
      intros Hin. apply elem_of_cons in Hin as [?|?]; contradiction.
Qed.

Lemma uniqueIds_map (f : IAppointment -> IAppointment) st :
  (forall b, _id (f b) = _id b) -> uniqueIds st -> uniqueIds (map f st).
Proof.
  intros Hf. unfold uniqueIds. rewrite map_map.
  rewrite (map_ext (fun b => _id (f b)) _id Hf). auto.
Qed.

Lemma elem_of_replace (A : IAppointment -> IAppointment) st a b :
  b ∈ st -> b <> a -> b ∈ map (fun b => if bool_decide (b = a) then A a else b) st.
Proof.
  intros Hb Hne. apply list_elem_of_In, in_map_iff. exists b.
  rewrite bool_decide_eq_false_2 by exact Hne.
  split; [reflexivity|apply list_elem_of_In; exact Hb].
Qed.

Lemma map_filter_replace (p : IAppointment -> bool) (A : IAppointment -> IAppointment) st :
  map (fun b => if bool_decide (b ∈ List.filter p st) then A b else b) st
  = map (fun b => if p b then A b else b) st.
Proof.
  apply map_ext_in. intros b Hb. apply list_elem_of_In in Hb.
  destruct (p b) eqn:Hp.
  - rewrite bool_decide_eq_true_2 by (apply filter_elem_of; auto). reflexivity.
  - rewrite bool_decide_eq_false_2; [reflexivity|].
    intros Hin. apply filter_elem_of in Hin as [_ Hin]. congruence.
Qed.

Lemma conflictExists_existsb date time duration st :
  conflictExists (verifyAppointmentAvailability date time duration st)
  = existsb (appointmentOverlaps (JS.minutesOf time) (JS.add (JS.minutesOf time) (JS.Num duration)))
            (existingOn date st).
Proof.
  unfold verifyAppointmentAvailability, existingOn.
  destruct (existsb _ _); reflexivity.
Qed.

Lemma existingOn_spec date st b :
  b ∈ existingOn date st <-> b ∈ st /\ sameDay (Appointment.date b) date /\ status b <> cancelled.
Proof.
  unfold existingOn. rewrite list_elem_of_In, filter_In, <- list_elem_of_In.
  rewrite andb_true_iff, dateBetween_sameDay, notCancelled_true. tauto.
Qed.

(** ** Business hours *)







(** ** What a relocation search returns *)






(** ** Creating, moving and cancelling an appointment *)

(** The relocated appointment that [handleAppointmentConflict] hands back. *)
Lemma handleAppointmentConflict_some w date time userId services duration st a st' :
  handleAppointmentConflict w date time userId services duration st = (Some a, st') ->
  st' = (st ++ [a])%list
  /\ _id a = nextId w /\ (forall b, b ∈ st -> _id b <> nextId w)
  /\ user a = userId /\ Appointment.services a = services
  /\ totalDuration a = duration /\ status a = confirmed
  /\ exists slot, findNextAvailableSlot (theSchedule w) date time duration 7 st = Some slot
                  /\ Appointment.date a = slot_date slot /\ Appointment.time a = slot_time slot.
Proof.
  unfold handleAppointmentConflict.
  destruct (findNextAvailableSlot _ _ _ _ _ _) as [slot|]; [|discriminate].
  destruct (saveNew _ _ st) as [e|st1] eqn:Hsave; [discriminate|].
  apply saveNew_inr in Hsave as (-> & _ & Hfresh & _).
  destruct (match findUserById userId (users w) with Some _ => _ | None => _ end);
    [|discriminate].
  intros [= <- <-]. cbn. repeat split; try reflexivity.
  - exact Hfresh.
  - exists slot. auto.
Qed.

(** X4.  [createAppointment] never changes a stored document.  Unless
    it answers 200 or 201 the collection is as before; with 201 exactly one
    document is appended, pending, for the requested date and time; with 200
    exactly one is appended, confirmed (the relocated appointment).  In both
    cases the new document belongs to the requester, carries the requested
    services and has an [_id] that no stored document had. *)
Theorem createAppointment_effect (w : World) (reqUser : option Principal)
    (services : list ObjectId) (date : Z) (time : string) (notes : option string)
    (st st' : Store) (r : Response) :
  createAppointment w reqUser services date time notes st = (r, st') ->
  (st' = st /\ statusCode r <> 200 /\ statusCode r <> 201)
  \/ exists requester a,
       reqUser = Some requester
       /\ st' = (st ++ [a])%list
       /\ _id a = nextId w /\ (forall b, b ∈ st -> _id b <> nextId w)
       /\ user a = id requester /\ Appointment.services a = services
       /\ ((statusCode r = 201 /\ body r = CreatedBody a /\ status a = pending
            /\ Appointment.date a = date /\ Appointment.time a = time)
           \/ (statusCode r = 200 /\ body r = RelocatedBody a /\ status a = confirmed)).
Proof.
  assert (Hrelocate : forall failure duration,
    match handleAppointmentConflict w date time
            (match reqUser with Some p => id p | None => "" end) services duration st with
    | (Some alternativeAppointment, st1) => (respond 200 (RelocatedBody alternativeAppointment), st1)
    | (None, _) => (respond 409 (ConcurrentBody failure), st)
    end = (r, st') ->
    reqUser <> None ->
    (st' = st /\ statusCode r <> 200 /\ statusCode r <> 201)
    \/ exists requester a,
         reqUser = Some requester
         /\ st' = (st ++ [a])%list
         /\ _id a = nextId w /\ (forall b, b ∈ st -> _id b <> nextId w)
         /\ user a = id requester /\ Appointment.services a = services
         /\ ((statusCode r = 201 /\ body r = CreatedBody a /\ status a = pending
              /\ Appointment.date a = date /\ Appointment.time a = time)
             \/ (statusCode r = 200 /\ body r = RelocatedBody a /\ status a = confirmed))).
  { intros failure duration H Hsome.
    destruct reqUser as [requester|]; [|contradiction].
    destruct (handleAppointmentConflict _ _ _ _ _ _ _) as [[a|] st1] eqn:Hh.
    - injection H as <- <-.
      apply handleAppointmentConflict_some in Hh
        as (-> & Hid & Hfresh & Huser & Hserv & _ & Hst & _).
      right. exists requester, a. split; [reflexivity|]. split; [reflexivity|].
      split; [exact Hid|]. split; [exact Hfresh|]. split; [exact Huser|].
      split; [exact Hserv|]. right. repeat split. exact Hst.
    - injection H as <- <-. left. repeat split; discriminate. }
  unfold createAppointment. intros Hrun.
  destruct reqUser as [requester|];
    [|injection Hrun as <- <-; left; repeat split; discriminate].
  destruct (checkDate (now w) date);
    try (injection Hrun as <- <-; left; repeat split; discriminate).
  destruct (bool_decide (services = []));
    [injection Hrun as <- <-; left; repeat split; discriminate|].
  destruct (negb (length (findServices w services) =? length services)%nat);
    [injection Hrun as <- <-; left; repeat split; discriminate|].
  destruct (negb (business_available _));
    [injection Hrun as <- <-; left; repeat split; discriminate|].
  destruct (negb (available _)).
  - destruct (conflictExists _).
    + apply (Hrelocate _ _ Hrun). discriminate.
    + injection Hrun as <- <-; left; repeat split; discriminate.
  - destruct (saveNew _ _ st) as [[| |]|st1] eqn:Hsave.
    + injection Hrun as <- <-; left; repeat split; discriminate.
    + apply (Hrelocate _ _ Hrun). discriminate.
    + injection Hrun as <- <-; left; repeat split; discriminate.
    + injection Hrun as <- <-.
      apply saveNew_inr in Hsave as (-> & _ & Hfresh & _).
      right. eexists requester, _. split; [reflexivity|]. split; [reflexivity|].
      cbn. split; [reflexivity|]. split; [exact Hfresh|].
      split; [reflexivity|]. split; [reflexivity|]. left. repeat split.
Qed.

Lemma createAppointment_effect_witness :
  let w := Scenario.salon Scenario.dayBefore (fun _ => true) in
  let run := createAppointment w (Some (Scenario.principalOf Scenario.bob)) ["haircut"]
               Scenario.june10 "09:00" None Scenario.oneAtTen in
  run = (fst run, snd run)
  /\ ((snd run = Scenario.oneAtTen /\ statusCode (fst run) <> 200 /\ statusCode (fst run) <> 201)
      \/ exists requester a,
           Some (Scenario.principalOf Scenario.bob) = Some requester
           /\ snd run = (Scenario.oneAtTen ++ [a])%list
           /\ _id a = nextId w /\ (forall b, b ∈ Scenario.oneAtTen -> _id b <> nextId w)
           /\ user a = id requester /\ Appointment.services a = ["haircut"]
           /\ ((statusCode (fst run) = 201 /\ body (fst run) = CreatedBody a
                /\ status a = pending
                /\ Appointment.date a = Scenario.june10 /\ Appointment.time a = "09:00")
               \/ (statusCode (fst run) = 200 /\ body (fst run) = RelocatedBody a
                   /\ status a = confirmed))).
Proof.
  intros w run.
  assert (Hrun : run = (fst run, snd run)) by (vm_compute; reflexivity).
  split; [exact Hrun|].
  exact (createAppointment_effect w (Some (Scenario.principalOf Scenario.bob)) ["haircut"]
           Scenario.june10 "09:00" None Scenario.oneAtTen (snd run) (fst run) Hrun).
Defined.

(** X5.  An appointment that [createAppointment] answers with 201 has
    a time that reads as a minute [t] of the day, the summed duration of its
    services, between 1 and 480 minutes, and a date between the clock reading
    and the same reading two months on; the business hours accept it; and no
    stored appointment that passes the schema's validators is live on its day
    with an interval that meets [[t, t + duration)]. *)
Theorem created_appointment_is_free (w : World) (reqUser : option Principal)
    (services : list ObjectId) (date : Z) (time : string) (notes : option string)
    (st st' : Store) (r : Response) :
  createAppointment w reqUser services date time notes st = (r, st') ->
  statusCode r = 201 ->
  exists a t,
    body r = CreatedBody a
    /\ JS.minutesOf time = JS.Num t /\ 0 <= t < 1440
    /\ totalDuration a = sumDurations (findServices w services)
    /\ 1 <= totalDuration a <= 480
    /\ now w <= date <= Date.addMonths (now w) MAX_BOOKING_MONTHS
    /\ business_available (checkBusinessAvailability w date time (totalDuration a)) = true
    /\ forall b, b ∈ st -> schemaValid b -> ~ clashes date t (totalDuration a) b.
Proof.
  unfold createAppointment. intros Hrun Hcode.
  destruct reqUser as [requester|]; [|injection Hrun as <- <-; discriminate].
  destruct (checkDate (now w) date) eqn:Hdate;
    try (injection Hrun as <- <-; discriminate).
  destruct (bool_decide (services = [])); [injection Hrun as <- <-; discriminate|].
  destruct (negb (length (findServices w services) =? length services)%nat);
    [injection Hrun as <- <-; discriminate|].
  set (duration := sumDurations (findServices w services)) in *.
  destruct (business_available _) eqn:Hbusiness; [|injection Hrun as <- <-; discriminate].
  cbn [negb] in Hrun.
  assert (Hrelocate : forall failure,
    match handleAppointmentConflict w date time (id requester) services duration st with
    | (Some alternativeAppointment, st1) => (respond 200 (RelocatedBody alternativeAppointment), st1)
    | (None, _) => (respond 409 (ConcurrentBody failure), st)
    end = (r, st') -> False).
  { intros failure H. destruct (handleAppointmentConflict _ _ _ _ _ _ _) as [[a|] st1];
      injection H as <- <-; discriminate. }
  destruct (available _) eqn:Havailable; cbn [negb] in Hrun.
  2:{ destruct (conflictExists _); [destruct (Hrelocate _ Hrun)|].
      injection Hrun as <- <-; discriminate. }
  destruct (saveNew _ _ st) as [[| |]|st1] eqn:Hsave;
    try (injection Hrun as <- <-; discriminate); [destruct (Hrelocate _ Hrun)|].
  injection Hrun as <- <-.
  apply saveNew_inr in Hsave as (_ & Hv & _ & _).
  apply validate_spec in Hv as (_ & Htime & Hdur). cbn in Htime, Hdur.
  destruct (time_match_minutesOf _ Htime) as (t & Ht & Hrange).
  apply checkDate_accepted in Hdate.
  eexists _, t. split; [reflexivity|]. cbn [totalDuration set_saved].
  split; [exact Ht|]. split; [exact Hrange|]. split; [reflexivity|]. split; [exact Hdur|].
  split; [exact Hdate|]. split; [exact Hbusiness|].
  intros b Hb Hvalid (Hday & Hlive & Hclash).
  unfold verifyAppointmentAvailability in Havailable. rewrite Ht in Havailable.
  cbn [JS.add] in Havailable.
  destruct (existsb _ _) eqn:Hex; [discriminate|].
  assert (existsb (appointmentOverlaps (JS.Num t) (JS.Num (t + duration)))
            (List.filter (fun a => dateBetween (Date.startOfDay date) (Date.endOfDay date) a
                                   && notCancelled a) st) = true); [|congruence].
  apply existsb_exists. exists b. split.
  - apply filter_In. split; [apply list_elem_of_In; exact Hb|].
    apply andb_true_iff. split; [apply dateBetween_sameDay|apply notCancelled_true]; assumption.
  - apply appointmentOverlaps_clash; [lia|exact Hvalid|exact Hclash].
Qed.

Lemma created_appointment_is_free_witness :
  let w := Scenario.salon Scenario.dayBefore (fun _ => true) in
  let run := createAppointment w (Some (Scenario.principalOf Scenario.bob)) ["haircut"]
               Scenario.june10 "09:00" None Scenario.oneAtTen in
  (run = (fst run, snd run) /\ statusCode (fst run) = 201)
  /\ exists a t,
       body (fst run) = CreatedBody a
       /\ JS.minutesOf "09:00" = JS.Num t /\ 0 <= t < 1440
       /\ totalDuration a = sumDurations (findServices w ["haircut"])
       /\ 1 <= totalDuration a <= 480
       /\ now w <= Scenario.june10 <= Date.addMonths (now w) MAX_BOOKING_MONTHS
       /\ business_available (checkBusinessAvailability w Scenario.june10 "09:00" (totalDuration a)) = true
       /\ forall b, b ∈ Scenario.oneAtTen -> schemaValid b -> ~ clashes Scenario.june10 t (totalDuration a) b.
Proof.
  intros w run.
  assert (Hrun : run = (fst run, snd run)) by (vm_compute; reflexivity).
  assert (Hcode : statusCode (fst run) = 201) by (vm_compute; reflexivity).
  split; [split; [exact Hrun|exact Hcode]|].
  exact (created_appointment_is_free w (Some (Scenario.principalOf Scenario.bob)) ["haircut"]
           Scenario.june10 "09:00" None Scenario.oneAtTen (snd run) (fst run) Hrun Hcode).
Defined.

(** X6.  When [createAppointment] answers with a relocated
    appointment, the answer is 200 and the business hours had accepted the
    requested slot, which was taken: the conflict detector reported an
    overlap, or a pending appointment held exactly that date and time and the
    unique index refused the write.  The new appointment is confirmed, belongs
    to the requester, lasts as long as the requested services, and lies at the
    slot that [findNextAvailableSlot] returns for the request with a horizon
    of 7 days; it is the one document appended to the collection. *)
Theorem relocated_appointment_slot (w : World) (reqUser : option Principal)
    (services : list ObjectId) (date : Z) (time : string) (notes : option string)
    (st st' : Store) (r : Response) (a : IAppointment) :
  createAppointment w reqUser services date time notes st = (r, st') ->
  body r = RelocatedBody a ->
  exists requester slot,
    reqUser = Some requester
    /\ statusCode r = 200
    /\ business_available
         (checkBusinessAvailability w date time (sumDurations (findServices w services))) = true
    /\ (conflictExists
          (verifyAppointmentAvailability date time (sumDurations (findServices w services)) st)
        = true
        \/ exists b, b ∈ st /\ status b = pending
                     /\ Appointment.date b = date /\ Appointment.time b = time)
    /\ findNextAvailableSlot (theSchedule w) date time
         (sumDurations (findServices w services)) 7 st = Some slot
    /\ Appointment.date a = slot_date slot /\ Appointment.time a = slot_time slot
    /\ totalDuration a = sumDurations (findServices w services)
    /\ status a = confirmed /\ user a = id requester
    /\ st' = (st ++ [a])%list.
Proof.
  unfold createAppointment. intros Hrun Hbody.
  destruct reqUser as [requester|]; [|injection Hrun as <- <-; discriminate].
  destruct (checkDate (now w) date); try (injection Hrun as <- <-; discriminate).
  destruct (bool_decide (services = [])); [injection Hrun as <- <-; discriminate|].
  destruct (negb (length (findServices w services) =? length services)%nat);
    [injection Hrun as <- <-; discriminate|].
  set (duration := sumDurations (findServices w services)) in *.
  destruct (business_available _) eqn:Hbusiness; [|injection Hrun as <- <-; discriminate].
  cbn [negb] in Hrun.
  assert (Hrelocate : forall failure,
    match handleAppointmentConflict w date time (id requester) services duration st with
    | (Some alternativeAppointment, st1) => (respond 200 (RelocatedBody alternativeAppointment), st1)
    | (None, _) => (respond 409 (ConcurrentBody failure), st)
    end = (r, st') ->
    exists slot,
      statusCode r = 200
      /\ findNextAvailableSlot (theSchedule w) date time duration 7 st = Some slot
      /\ Appointment.date a = slot_date slot /\ Appointment.time a = slot_time slot
      /\ totalDuration a = duration /\ status a = confirmed /\ user a = id requester
      /\ st' = (st ++ [a])%list).
  { intros failure H.
    destruct (handleAppointmentConflict _ _ _ _ _ _ _) as [[alt|] st1] eqn:Hh;
      injection H as <- <-; [|discriminate].
    cbn [body] in Hbody. injection Hbody as ->.
    apply handleAppointmentConflict_some in Hh
      as (-> & _ & _ & Huser & _ & Hdur & Hst & slot & Hslot & Hd & Ht).
    exists slot. repeat split; auto. }
  destruct (available _) eqn:Havailable; cbn [negb] in Hrun.
  - destruct (saveNew _ _ st) as [[| |]|st1] eqn:Hsave;
      try (injection Hrun as <- <-; discriminate).
    destruct (Hrelocate _ Hrun) as (slot & Hcode & Hrest).
    exists requester, slot. split; [reflexivity|]. split; [exact Hcode|].
    split; [reflexivity|]. split; [|exact Hrest].
    right. revert Hsave. unfold saveNew.
    destruct (negb (validate _ _)); [discriminate|].
    destruct (existsb _ st); [discriminate|].
    destruct (date_time_status_unique st _) eqn:Hkey; [discriminate|]. intros _.
    unfold date_time_status_unique in Hkey. apply negb_false_iff, andb_prop in Hkey as [_ Hkey].
    apply existsb_exists in Hkey as (b & Hb & Hk). apply andb_prop in Hk as [_ Hk].
    unfold sameIndexKey in Hk. cbn [Appointment.date Appointment.time status] in Hk.
    apply andb_prop in Hk as [Hk Hs]. apply andb_prop in Hk as [Hd Ht].
    apply bool_decide_eq_true in Hd, Ht, Hs.
    exists b. split; [apply list_elem_of_In; exact Hb|]. auto.
  - destruct (conflictExists _) eqn:Hconflict; [|injection Hrun as <- <-; discriminate].
    destruct (Hrelocate _ Hrun) as (slot & Hcode & Hrest).
    exists requester, slot. split; [reflexivity|]. split; [exact Hcode|].
    split; [reflexivity|]. split; [left; reflexivity|exact Hrest].
Qed.

Lemma relocated_appointment_slot_witness :
  let w := Cases.specialSalon Scenario.dayBefore (fun _ => true) in
  let run := createAppointment w (Some (Scenario.principalOf Scenario.bob)) ["haircut"]
               Scenario.june10 "10:00" None Scenario.oneAtTen in
  let a := {| _id := "a9"; user := "u2"; services := ["haircut"]; date := Scenario.june10;
              time := "11:00"; totalDuration := 30; status := confirmed;
              notes := "Cita reprogramada automáticamente por conflicto de horario";
              cancellationReason := None; cancelledAt := None;
              reminderSent := false; reminderSentAt := None;
              createdAt := Scenario.dayBefore; updatedAt := Some Scenario.dayBefore;
              version := 1 |} in
  (run = (fst run, snd run) /\ body (fst run) = RelocatedBody a)
  /\ exists requester slot,
    Some (Scenario.principalOf Scenario.bob) = Some requester
    /\ statusCode (fst run) = 200
    /\ business_available
         (checkBusinessAvailability w Scenario.june10 "10:00"
            (sumDurations (findServices w ["haircut"]))) = true
    /\ (conflictExists
          (verifyAppointmentAvailability Scenario.june10 "10:00"
             (sumDurations (findServices w ["haircut"])) Scenario.oneAtTen)
        = true
        \/ exists b, b ∈ Scenario.oneAtTen /\ status b = pending
                     /\ Appointment.date b = Scenario.june10 /\ Appointment.time b = "10:00")
    /\ findNextAvailableSlot (theSchedule w) Scenario.june10 "10:00"
         (sumDurations (findServices w ["haircut"])) 7 Scenario.oneAtTen = Some slot
    /\ Appointment.date a = slot_date slot /\ Appointment.time a = slot_time slot
    /\ totalDuration a = sumDurations (findServices w ["haircut"])
    /\ status a = confirmed /\ user a = id requester
    /\ snd run = (Scenario.oneAtTen ++ [a])%list.
Proof.
  intros w run a.
  assert (Hrun : run = (fst run, snd run)) by (vm_compute; reflexivity).
  assert (Hbody : body (fst run) = RelocatedBody a) by (vm_compute; reflexivity).
  split; [split; [exact Hrun|exact Hbody]|].
  exact (relocated_appointment_slot w (Some (Scenario.principalOf Scenario.bob)) ["haircut"]
           Scenario.june10 "10:00" None Scenario.oneAtTen (snd run) (fst run) a Hrun Hbody).
Defined.

(** X7.  When [rescheduleAppointment] answers with the moved appointment
    itself, the requester was permitted and the appointment was not
    cancelled; the document keeps its [_id], user and status and takes the
    new date and time (the old ones where the request gave none); the
    business hours accept the new slot; every other document and the size of
    the collection are as before; and no other stored appointment that
    passes the schema's validators is live on the new day with an interval
    that meets the new one. *)
Theorem rescheduled_appointment_is_free (w : World) (reqUser : option Principal)
    (i : ObjectId) (date : option Z) (time : option string)
    (services : option (list ObjectId)) (st st' : Store) (r : Response) (m : IAppointment) :
  rescheduleAppointment w reqUser i date time services st = (r, st') ->
  body r = RescheduledBody m ->
  exists a t,
    findById i st = Some a /\ findById i st' = Some m
    /\ notPermitted a reqUser = false /\ status a <> cancelled
    /\ _id m = i /\ user m = user a /\ status m = status a
    /\ Appointment.date m = default (Appointment.date a) date
    /\ Appointment.time m = JS.orElse time (Appointment.time a)
    /\ JS.minutesOf (Appointment.time m) = JS.Num t
    /\ 1 <= totalDuration m <= 480
    /\ business_available
         (checkBusinessAvailability w (Appointment.date m) (Appointment.time m) (totalDuration m))
       = true
    /\ (forall j, j <> i -> findById j st' = findById j st)
    /\ length st' = length st
    /\ forall b, b ∈ st -> _id b <> i -> schemaValid b ->
                 ~ clashes (Appointment.date m) t (totalDuration m) b.
Proof.
  unfold rescheduleAppointment. intros Hrun Hbody.
  destruct (findById i st) as [a|] eqn:Hfind;
    [|injection Hrun as <- <-; discriminate].
  pose proof (findById_id _ _ _ Hfind) as Hid.
  destruct (notPermitted a reqUser) eqn:Hperm; [injection Hrun as <- <-; discriminate|].
  destruct (bool_decide_reflect (status a = cancelled)) as [|Hlive];
    [injection Hrun as <- <-; discriminate|].
  destruct (checkDate _ _); try (injection Hrun as <- <-; discriminate).
  destruct (match services with Some l => _ | None => false end);
    [injection Hrun as <- <-; discriminate|].
  set (newDate := default (Appointment.date a) date) in *.
  set (newTime := JS.orElse time (Appointment.time a)) in *.
  set (duration := match services with Some _ => _ | None => _ end) in *.
  destruct (business_available _) eqn:Hbusiness; [|injection Hrun as <- <-; discriminate].
  cbn [negb] in Hrun.
  destruct (checkTimeConflict _ _ _ _ _) eqn:Hconflict;
    [injection Hrun as <- <-; discriminate|].
  set (moved := set_slot a newDate newTime _ duration (now w)) in *.
  destruct (save _ moved st) as [[| |]|st1] eqn:Hsave.
  - injection Hrun as <- <-; discriminate.
  - destruct reqUser as [requester|]; [|injection Hrun as <- <-; discriminate].
    destruct (handleAppointmentConflict _ _ _ _ _ _ _) as [[alt|] st1].
    + destruct (save _ _ st1); injection Hrun as <- <-; discriminate.
    + injection Hrun as <- <-; discriminate.
  - injection Hrun as <- <-; discriminate.
  - injection Hrun as <- <-. cbn [body] in Hbody. injection Hbody as <-.
    pose proof (save_validate _ _ _ _ Hsave) as Hv.
    apply validate_spec in Hv as (_ & Htime & Hdur). cbn in Htime, Hdur.
    destruct (time_match_minutesOf _ Htime) as (t & Ht & _).
    assert (Hfields : forall x, x = moved \/ x = set_saved moved (now w) ->
              _id x = i /\ user x = user a /\ status x = status a
              /\ Appointment.date x = newDate /\ Appointment.time x = newTime
              /\ totalDuration x = duration).
    { intros x [->| ->]; subst moved; cbn; repeat split; reflexivity || exact Hid. }
    destruct (Hfields _ (preSave_cases (now w) a moved))
      as (Hmid & Hmuser & Hmstatus & Hmdate & Hmtime & Hmdur).
    exists a, t. rewrite Hmdate, Hmtime, Hmdur.
    split; [reflexivity|]. split.
    { rewrite (save_lookup _ _ _ _ i Hsave). cbn [_id moved set_slot].
      rewrite bool_decide_eq_true_2 by congruence. rewrite Hfind. reflexivity. }
    split; [exact Hperm|]. split; [exact Hlive|]. split; [exact Hmid|].
    split; [exact Hmuser|]. split; [exact Hmstatus|].
    split; [reflexivity|]. split; [reflexivity|].
    split; [exact Ht|]. split; [exact Hdur|]. split; [exact Hbusiness|].
    split.
    { intros j Hj. rewrite (save_lookup _ _ _ _ j Hsave). cbn [_id moved set_slot].
      rewrite bool_decide_eq_false_2 by congruence. reflexivity. }
    split; [apply (save_length _ _ _ _ Hsave)|].
    intros b Hb Hbi Hvalid (Hday & Hblive & Hclash).
    unfold checkTimeConflict in Hconflict. rewrite Ht in Hconflict.
    cbn [JS.add] in Hconflict.
    match type of Hconflict with existsb ?f ?l = false =>
      assert (Hex : existsb f l = true); [|congruence] end.
    apply existsb_exists. exists b. split.
    + apply filter_In. split; [apply list_elem_of_In; exact Hb|].
      apply andb_true_iff. split.
      * apply andb_true_iff. split; [apply dateBetween_sameDay|apply notCancelled_true]; assumption.
      * destruct (JS.truthy _); [|reflexivity].
        apply negb_true_iff, bool_decide_eq_false. intros [= Heq]. congruence.
    + apply appointmentOverlaps_clash; [lia|exact Hvalid|exact Hclash].
Qed.

Lemma rescheduled_appointment_is_free_witness :
  let w := Scenario.salon Scenario.dayBefore (fun _ => true) in
  let run := rescheduleAppointment w (Some (Scenario.principalOf Scenario.alice)) "a1"
               None (Some "09:00") None Scenario.twoBookings in
  let a0 := Scenario.appointment "a1" "u1" Scenario.june10 "10:00" 60 pending in
  let m := set_saved (set_slot a0 Scenario.june10 "09:00" ["haircut"] 60 (now w)) (now w) in
  (run = (fst run, snd run) /\ body (fst run) = RescheduledBody m)
  /\ exists a t,
    findById "a1" Scenario.twoBookings = Some a /\ findById "a1" (snd run) = Some m
    /\ notPermitted a (Some (Scenario.principalOf Scenario.alice)) = false
    /\ status a <> cancelled
    /\ _id m = "a1" /\ user m = user a /\ status m = status a
    /\ Appointment.date m = default (Appointment.date a) None
    /\ Appointment.time m = JS.orElse (Some "09:00") (Appointment.time a)
    /\ JS.minutesOf (Appointment.time m) = JS.Num t
    /\ 1 <= totalDuration m <= 480
    /\ business_available
         (checkBusinessAvailability w (Appointment.date m) (Appointment.time m) (totalDuration m))
       = true
    /\ (forall j, j <> "a1" -> findById j (snd run) = findById j Scenario.twoBookings)
    /\ length (snd run) = length Scenario.twoBookings
    /\ forall b, b ∈ Scenario.twoBookings -> _id b <> "a1" -> schemaValid b ->
                 ~ clashes (Appointment.date m) t (totalDuration m) b.
Proof.
  intros w run a0 m.
  assert (Hrun : run = (fst run, snd run)) by (vm_compute; reflexivity).
  assert (Hbody : body (fst run) = RescheduledBody m) by (vm_compute; reflexivity).
  split; [split; [exact Hrun|exact Hbody]|].
  exact (rescheduled_appointment_is_free w (Some (Scenario.principalOf Scenario.alice)) "a1"
           None (Some "09:00") None Scenario.twoBookings (snd run) (fst run) m Hrun Hbody).
Defined.

(** X8.  After a successful [cancelAppointment] of the appointment [i],
    [verifyAppointmentAvailability] reports a conflict for a candidate at
    minute [t] of duration [d > 0] exactly when another stored appointment,
    with an [_id] other than [i], is live on the candidate's day with an
    interval that meets [[t, t + d)]: the cancelled appointment holds its
    slot no longer and nothing else has changed for the detector (all stored
    appointments passing the schema's validators). *)
Theorem cancellation_frees_the_slot (w : World) (reqUser : option Principal)
    (i : ObjectId) (reason : option string) (st st' : Store) (r : Response)
    (dateC : Z) (time : string) (t d : Z) :
  cancelAppointment w reqUser i reason st = (r, st') ->
  statusCode r = 200 ->
  Forall schemaValid st ->
  JS.minutesOf time = JS.Num t -> 0 < d ->
  conflictExists (verifyAppointmentAvailability dateC time d st') = true
  <-> exists b, b ∈ st /\ _id b <> i /\ clashes dateC t d b.
Proof.
  unfold cancelAppointment. intros Hrun Hcode Hvalid Ht Hd.
  destruct (findById i st) as [a|] eqn:Hfind; [|injection Hrun as <- <-; discriminate].
  destruct (notPermitted a reqUser); [injection Hrun as <- <-; discriminate|].
  destruct (save _ _ st) as [e|st1] eqn:Hsave; injection Hrun as <- <-; [discriminate|].
  pose proof (findById_id _ _ _ Hfind) as Hid.
  apply save_inr in Hsave. cbn [_id set_cancelled] in Hsave. rewrite Hid in Hsave.
  rewrite conflictExists_existsb, Ht. cbn [JS.add].
  rewrite Forall_forall in Hvalid.
  rewrite existsb_exists. split.
  - intros (b' & Hb' & Hov).
    apply list_elem_of_In, existingOn_spec in Hb' as (Hb' & Hday & Hlive).
    subst st1. apply list_elem_of_In, in_map_iff in Hb' as (b & Hb & Hin).
    apply list_elem_of_In in Hin.
    destruct (bool_decide_reflect (_id b = i)) as [Hbi|Hbi].
    + subst b'. rewrite status_preSave in Hlive. cbn in Hlive. contradiction.
    + subst b'. exists b. split; [exact Hin|]. split; [exact Hbi|].
      split; [exact Hday|]. split; [exact Hlive|].
      apply appointmentOverlaps_clash; auto.
  - intros (b & Hb & Hbi & Hday & Hlive & Hclash).
    exists b. split.
    + apply list_elem_of_In, existingOn_spec. split; [|auto].
      subst st1. apply list_elem_of_In, in_map_iff. exists b.
      rewrite bool_decide_eq_false_2 by exact Hbi.
      split; [reflexivity|apply list_elem_of_In; exact Hb].
    + apply appointmentOverlaps_clash; auto.
Qed.

Lemma cancellation_frees_the_slot_witness :
  let w := Scenario.salon Scenario.dayBefore (fun _ => true) in
  let run := cancelAppointment w (Some (Scenario.principalOf Scenario.alice)) "a1"
               None Scenario.twoBookings in
  (run = (fst run, snd run) /\ statusCode (fst run) = 200
   /\ Forall schemaValid Scenario.twoBookings
   /\ JS.minutesOf "10:00" = JS.Num 600 /\ 0 < 60)
  /\ (conflictExists (verifyAppointmentAvailability Scenario.june10 "10:00" 60 (snd run)) = true
      <-> exists b, b ∈ Scenario.twoBookings /\ _id b <> "a1" /\ clashes Scenario.june10 600 60 b).
Proof.
  intros w run.
  assert (Hrun : run = (fst run, snd run)) by (vm_compute; reflexivity).
  assert (Hcode : statusCode (fst run) = 200) by (vm_compute; reflexivity).
  assert (Hvalid : Forall schemaValid Scenario.twoBookings).
  { repeat constructor; vm_compute; congruence. }
  assert (Ht : JS.minutesOf "10:00" = JS.Num 600) by (vm_compute; reflexivity).
  assert (Hd : 0 < 60) by lia.
  split; [repeat split; assumption|].
  exact (cancellation_frees_the_slot w (Some (Scenario.principalOf Scenario.alice)) "a1"
           None Scenario.twoBookings (snd run) (fst run) Scenario.june10 "10:00" 600 60
           Hrun Hcode Hvalid Ht Hd).
Defined.

(** X9.  A successful [cancelAppointment] was asked for an appointment
    dated today or later, and its [lateCancellation] flag is set exactly when
    the appointment starts less than 24 hours after the clock reading (which
    includes an appointment of today that has already begun). *)
Theorem cancelAppointment_late_flag (w : World) (reqUser : option Principal)
    (i : ObjectId) (reason : option string) (st st' : Store) (r : Response) (late : bool) :
  cancelAppointment w reqUser i reason st = (r, st') ->
  body r = CancelledBody late ->
  exists a t,
    findById i st = Some a
    /\ JS.minutesOf (time a) = JS.Num t /\ 0 <= t < 1440
    /\ Date.startOfDay (now w) <= date a
    /\ (late = true
        <-> Date.startOfDay (date a) + t * Date.msPerMinute - now w
            < CANCELLATION_PERIOD_HOURS * Date.msPerHour).
Proof.
  unfold cancelAppointment. intros Hrun Hbody.
  destruct (findById i st) as [a|] eqn:Hfind; [|injection Hrun as <- <-; discriminate].
  destruct (notPermitted a reqUser); [injection Hrun as <- <-; discriminate|].
  destruct (save _ _ st) as [e|st1] eqn:Hsave; injection Hrun as <- <-; [discriminate|].
  cbn [body] in Hbody. injection Hbody as <-.
  apply save_validate, validate_spec in Hsave as (Hdate & Htime & _). cbn in Hdate, Htime.
  destruct (time_match_parts _ Htime) as (h & m & Hsplit & Hh & Hm & Hhr & Hmr).
  exists a, (h * 60 + m). split; [reflexivity|].
  split; [unfold JS.minutesOf; rewrite Hsplit; reflexivity|].
  split; [lia|]. split; [exact Hdate|].
  rewrite Hh, Hm. unfold Date.setHours00. cbn [JS.mul JS.add JS.ltb].
  rewrite Z.ltb_lt. unfold Date.msPerHour, Date.msPerMinute. lia.
Qed.

Lemma cancelAppointment_late_flag_witness :
  let w := Scenario.salon Scenario.dayBefore (fun _ => true) in
  let run := cancelAppointment w (Some (Scenario.principalOf Scenario.alice)) "a1"
               None Scenario.oneAtTen in
  (run = (fst run, snd run) /\ body (fst run) = CancelledBody true)
  /\ exists a t,
       findById "a1" Scenario.oneAtTen = Some a
       /\ JS.minutesOf (time a) = JS.Num t /\ 0 <= t < 1440
       /\ Date.startOfDay (now w) <= date a
       /\ (true = true
           <-> Date.startOfDay (date a) + t * Date.msPerMinute - now w
               < CANCELLATION_PERIOD_HOURS * Date.msPerHour).
Proof.
  intros w run.
  assert (Hrun : run = (fst run, snd run)) by (vm_compute; reflexivity).
  assert (Hbody : body (fst run) = CancelledBody true) by (vm_compute; reflexivity).
  split; [split; [exact Hrun|exact Hbody]|].
  exact (cancelAppointment_late_flag w (Some (Scenario.principalOf Scenario.alice)) "a1"
           None Scenario.oneAtTen (snd run) (fst run) true Hrun Hbody).
Defined.

(** ** Methods of the appointment document *)

(** X10.  For an appointment whose time passes the schema's pattern,
    the virtual [dateTime] is the midnight of its date plus the minutes [t]
    of its time; [isUpcoming(h)] holds exactly when that instant is later
    than the clock reading and at most [h] hours later; [hasPassed()] holds
    exactly when it is earlier than the clock reading; so an upcoming
    appointment has not passed. *)
Theorem isUpcoming_hasPassed (now : Z) (a : IAppointment) (hoursThreshold : Z) :
  time_match (time a) = true ->
  exists t,
    JS.minutesOf (time a) = JS.Num t /\ 0 <= t < 1440
    /\ dateTime a = Some (JS.Num (Date.startOfDay (date a) + t * Date.msPerMinute))
    /\ (isUpcoming now a hoursThreshold = true
        <-> now < Date.startOfDay (date a) + t * Date.msPerMinute
                <= now + hoursThreshold * Date.msPerHour)
    /\ (hasPassed now a = true
        <-> Date.startOfDay (date a) + t * Date.msPerMinute < now)
    /\ (isUpcoming now a hoursThreshold = true -> hasPassed now a = false).
Proof.
  intros Htime.
  destruct (time_match_parts _ Htime) as (h & m & Hsplit & _ & _ & Hhr & Hmr).
  assert (Hdt : dateTime a
                = Some (JS.Num (Date.startOfDay (date a) + (h * 60 + m) * Date.msPerMinute))).
  { unfold dateTime. destruct (String.eqb_spec (time a) "") as [Hempty|_].
    - rewrite Hempty in Htime. discriminate.
    - rewrite Hsplit. unfold Date.setHours00. cbn [JS.mul JS.add].
      do 2 f_equal. unfold Date.msPerHour, Date.msPerMinute. lia. }
  exists (h * 60 + m).
  split; [unfold JS.minutesOf; rewrite Hsplit; reflexivity|].
  split; [lia|]. split; [exact Hdt|].
  unfold isUpcoming, hasPassed. rewrite Hdt.
  cbn [JS.add JS.gtb JS.ltb JS.leb].
  rewrite andb_true_iff, !Z.ltb_lt, Z.leb_le.
  split; [lia|]. split; [lia|].
  intros [Hlo _]. apply Z.ltb_ge. lia.
Qed.

Lemma isUpcoming_hasPassed_witness :
  let a := Scenario.appointment "a1" "u1" Scenario.june10 "10:00" 60 pending in
  time_match (time a) = true
  /\ exists t,
    JS.minutesOf (time a) = JS.Num t /\ 0 <= t < 1440
    /\ dateTime a = Some (JS.Num (Date.startOfDay (date a) + t * Date.msPerMinute))
    /\ (isUpcoming Scenario.dayBefore a 24 = true
        <-> Scenario.dayBefore < Date.startOfDay (date a) + t * Date.msPerMinute
                <= Scenario.dayBefore + 24 * Date.msPerHour)
    /\ (hasPassed Scenario.dayBefore a = true
        <-> Date.startOfDay (date a) + t * Date.msPerMinute < Scenario.dayBefore)
    /\ (isUpcoming Scenario.dayBefore a 24 = true -> hasPassed Scenario.dayBefore a = false).
Proof.
  intros a.
  assert (Htime : time_match (time a) = true) by (vm_compute; reflexivity).
  split; [exact Htime|].
  exact (isUpcoming_hasPassed Scenario.dayBefore a 24 Htime).
Defined.

(** ** Closing a day ([processScheduleChange]) *)

(** The loop of [processScheduleChange], when it runs to its end. *)
Lemma cancelEach_inr w reason : forall l st st',
  uniqueIds st -> NoDup (map _id l) -> (forall a, a ∈ l -> a ∈ st) ->
  (forall a, a ∈ l -> status a <> cancelled) ->
  cancelEach w reason l st = inr st' ->
  st' = map (fun b => if bool_decide (b ∈ l)
                      then set_saved (set_cancelled b reason (now w)) (now w) else b) st.
Proof.
  induction l as [|a l IH]; intros st st' Hu Hnd Hin Hlive; cbn [cancelEach].
  - intros [= <-]. symmetry. rewrite <- (map_id st) at 2. apply map_ext_in.
    intros b _. rewrite bool_decide_eq_false_2 by apply not_elem_of_nil. reflexivity.
  - destruct (save _ _ st) as [e|st1] eqn:Hsave; [discriminate|].
    intros Hrest. apply save_inr in Hsave. cbn [_id set_cancelled] in Hsave.
    assert (Ha : a ∈ st) by (apply Hin; left).
    rewrite (replace_by_id _ st a Hu Ha) in Hsave.
    assert (Hmod : preSave (now w) a (set_cancelled a reason (now w))
                   = set_saved (set_cancelled a reason (now w)) (now w)).
    { unfold preSave. rewrite bool_decide_eq_false_2; [reflexivity|].
      intros Heq. apply (Hlive a); [left|]. rewrite <- Heq. reflexivity. }
    rewrite Hmod in Hsave. clear Hmod.
    cbn [map] in Hnd. apply NoDup_cons in Hnd as [Hfresh Hnd].
    set (A := fun b => set_saved (set_cancelled b reason (now w)) (now w)) in *.
    assert (HA : forall b, _id (A b) = _id b) by reflexivity.
    assert (Hother : forall b, b ∈ l -> b <> a).
    { intros b Hb ->. apply Hfresh. apply list_elem_of_In, in_map, list_elem_of_In. exact Hb. }
    apply IH in Hrest.
    + subst st' st1. apply (replace_compose A); auto.
    + subst st1. apply uniqueIds_map; [|exact Hu].
      intros b. destruct (bool_decide_reflect (b = a)) as [->|_]; reflexivity.
    + exact Hnd.
    + intros b Hb. subst st1. apply (elem_of_replace A); [apply Hin; right; exact Hb|auto].
    + intros b Hb. apply Hlive. right. exact Hb.
Qed.

(** What [processScheduleChange] has done when it returns. *)
Lemma processScheduleChange_inr w date reason st res st' :
  uniqueIds st ->
  processScheduleChange w date true reason st = (inr res, st') ->
  st' = map (closedOut w date reason) st
  /\ change_success res = true
  /\ change_affected res
     = length (List.filter
                 (fun a => dateBetween (Date.startOfDay date) (Date.endOfDay date) a
                           && notTerminal a) st).
Proof.
  intros Hu. unfold processScheduleChange. cbn [negb].
  set (p := fun a => dateBetween (Date.startOfDay date) (Date.endOfDay date) a && notTerminal a).
  destruct (bool_decide_reflect (List.filter p st = [])) as [Hnone|_].
  - intros [= <- <-]. rewrite Hnone. split; [|split; reflexivity].
    rewrite <- (map_id st) at 1. apply map_ext_in.
    intros b Hb. unfold closedOut. fold (p b).
    destruct (p b) eqn:Hp; [|reflexivity].
    assert (Hin : b ∈ List.filter p st)
      by (apply filter_elem_of; split; [apply list_elem_of_In; exact Hb|exact Hp]).
    rewrite Hnone in Hin. apply elem_of_nil in Hin. contradiction.
  - destruct (cancelEach _ _ _ st) as [e|st1] eqn:Hloop; [discriminate|].
    intros [= <- <-]. split; [|split; reflexivity].
    apply cancelEach_inr in Hloop.
    + rewrite Hloop, map_filter_replace. reflexivity.
    + exact Hu.
    + apply uniqueIds_filter. exact Hu.
    + intros a Ha. apply filter_elem_of in Ha as [Ha _]. exact Ha.
    + intros a Ha. apply filter_elem_of in Ha as [_ Ha].
      apply andb_prop in Ha as [_ Ha]. apply notTerminal_spec in Ha. tauto.
Qed.

(** X11.  When [processScheduleChange] returns (the documents of the
    collection having pairwise different [_id]s), it reports success; for a
    day that is not closed the collection is as before and the count is 0;
    for a closed day every appointment of that day that was neither cancelled
    nor completed is now cancelled with the reason given (or the default
    one), every other document is as before, and the count is the number of
    appointments so cancelled. *)
Theorem processScheduleChange_effect (w : World) (date : Z) (isClosed : bool)
    (reason : option string) (st st' : Store) (res : ScheduleChange) :
  uniqueIds st ->
  processScheduleChange w date isClosed reason st = (inr res, st') ->
  change_success res = true
  /\ st' = (if isClosed then map (closedOut w date reason) st else st)
  /\ change_affected res
     = (if isClosed
        then length (List.filter
                       (fun a => dateBetween (Date.startOfDay date) (Date.endOfDay date) a
                                 && notTerminal a) st)
        else 0%nat).
Proof.
  intros Hu Hrun. destruct isClosed.
  - apply processScheduleChange_inr in Hrun; tauto.
  - revert Hrun. unfold processScheduleChange. cbn [negb].
    intros [= <- <-]. repeat split.
Qed.

Lemma processScheduleChange_effect_witness :
  let w := Scenario.salon Scenario.dayBefore (fun _ => true) in
  let run := processScheduleChange w Scenario.june10 true (Some "Festivo") Scenario.twoBookings in
  (uniqueIds Scenario.twoBookings
   /\ exists res, run = (inr res, snd run)
   /\ change_success res = true
   /\ snd run = map (closedOut w Scenario.june10 (Some "Festivo")) Scenario.twoBookings
   /\ change_affected res
      = length (List.filter
                  (fun a => dateBetween (Date.startOfDay Scenario.june10)
                                        (Date.endOfDay Scenario.june10) a
                            && notTerminal a) Scenario.twoBookings)).
Proof.
  intros w run.
  assert (Hu : uniqueIds Scenario.twoBookings).
  { apply uniqueIds_check. vm_compute. reflexivity. }
  split; [exact Hu|].
  exists {| change_success := true; change_affected := 2;
            change_message := "Se han cancelado 2 citas afectadas por el cambio de horario" |}.
  assert (Hrun : run = (inr {| change_success := true; change_affected := 2;
            change_message := "Se han cancelado 2 citas afectadas por el cambio de horario" |},
                        snd run)) by (vm_compute; reflexivity).
  split; [exact Hrun|].
  exact (processScheduleChange_effect w Scenario.june10 true (Some "Festivo")
           Scenario.twoBookings (snd run) _ Hu Hrun).
Defined.

(** X12.  After [processScheduleChange] has returned for a closed day,
    every appointment of that day is cancelled or completed,
    [identifyAffectedAppointments] finds nothing on that day, and a second
    call for the day, at any time and with any reason, reports no affected
    appointment and leaves the collection as it is. *)
Theorem processScheduleChange_clears_day (w w' : World) (date : Z) (reason reason' : option string)
    (st st' : Store) (res : ScheduleChange) :
  uniqueIds st ->
  processScheduleChange w date true reason st = (inr res, st') ->
  (forall b, b ∈ st' -> sameDay (Appointment.date b) date ->
             status b = cancelled \/ status b = completed)
  /\ identifyAffectedAppointments date st' = []
  /\ processScheduleChange w' date true reason' st'
     = (inr {| change_success := true; change_affected := 0;
               change_message := "No hay citas afectadas por este cambio" |}, st').
Proof.
  intros Hu Hrun. apply processScheduleChange_inr in Hrun as [-> _]; [|exact Hu].
  assert (Hday : forall b', b' ∈ map (closedOut w date reason) st ->
                   sameDay (Appointment.date b') date ->
                   status b' = cancelled \/ status b' = completed).
  { intros b' Hb' Hsame. apply list_elem_of_In, in_map_iff in Hb' as (b & <- & Hb).
    revert Hsame. unfold closedOut.
    destruct (dateBetween _ _ b) eqn:Hd; cbn [andb].
    - destruct (notTerminal b) eqn:Hn; [intros _; left; reflexivity|].
      intros _. apply not_true_iff_false in Hn. rewrite notTerminal_spec in Hn.
      destruct (status b); auto; exfalso; apply Hn; split; discriminate.
    - intros Hsame. apply dateBetween_sameDay in Hsame. congruence. }
  split; [exact Hday|]. split.
  - unfold identifyAffectedAppointments. apply filter_none. intros b Hb.
    apply not_true_is_false. intros Hq. apply andb_prop in Hq as [Hd Hs].
    apply dateBetween_sameDay in Hd. apply pendingOrConfirmed_spec in Hs.
    destruct (Hday b Hb Hd) as [Hc|Hc]; rewrite Hc in Hs; destruct Hs; discriminate.
  - unfold processScheduleChange. cbn [negb].
    rewrite (filter_none (fun a => dateBetween (Date.startOfDay date) (Date.endOfDay date) a
                                   && notTerminal a)).
    + reflexivity.
    + intros b Hb. apply not_true_is_false. intros Hq. apply andb_prop in Hq as [Hd Hs].
      apply dateBetween_sameDay in Hd. apply notTerminal_spec in Hs.
      destruct (Hday b Hb Hd); tauto.
Qed.

Lemma processScheduleChange_clears_day_witness :
  let w := Scenario.salon Scenario.dayBefore (fun _ => true) in
  let run := processScheduleChange w Scenario.june10 true (Some "Festivo") Scenario.twoBookings in
  (uniqueIds Scenario.twoBookings /\ exists res, run = (inr res, snd run))
  /\ (forall b, b ∈ snd run -> sameDay (Appointment.date b) Scenario.june10 ->
                status b = cancelled \/ status b = completed)
  /\ identifyAffectedAppointments Scenario.june10 (snd run) = []
  /\ processScheduleChange w Scenario.june10 true None (snd run)
     = (inr {| change_success := true; change_affected := 0;
               change_message := "No hay citas afectadas por este cambio" |}, snd run).
Proof.
  intros w run.
  assert (Hu : uniqueIds Scenario.twoBookings).
  { apply uniqueIds_check. vm_compute. reflexivity. }
  assert (Hrun : run = (inr {| change_success := true; change_affected := 2;
            change_message := "Se han cancelado 2 citas afectadas por el cambio de horario" |},
                        snd run)) by (vm_compute; reflexivity).
  split; [split; [exact Hu|eexists; exact Hrun]|].
  exact (processScheduleChange_clears_day w w Scenario.june10 (Some "Festivo") None
           Scenario.twoBookings (snd run) _ Hu Hrun).
Defined.

(** A cancelled document that passes the validators is never refused. *)
Lemma save_cancelled now a reason at_ st :
  validate now a = true ->
  exists st', save now (set_cancelled a reason at_) st = inr st'.
Proof.
  intros Hv. unfold save.
  replace (validate now (set_cancelled a reason at_)) with (validate now a) by reflexivity.
  rewrite Hv. cbn [negb]. unfold date_time_status_unique, notCancelled. cbn [status set_cancelled].
  rewrite bool_decide_eq_true_2 by reflexivity. cbn [negb andb]. eexists. reflexivity.
Qed.

Lemma cancelEach_total w reason : forall l st,
  (forall a, a ∈ l -> validate (now w) a = true) ->
  exists st', cancelEach w reason l st = inr st'.
Proof.
  induction l as [|a l IH]; intros st Hv; cbn [cancelEach]; [eexists; reflexivity|].
  destruct (save_cancelled (now w) a reason (now w) st (Hv a ltac:(left))) as [st1 ->].
  apply IH. intros b Hb. apply Hv. right. exact Hb.
Qed.

(** X13.  For a day that is not before today, on a collection whose
    documents pass the schema's validators, [processScheduleChange] does not
    throw: the unique index never stands in the way of a cancellation. *)
Theorem processScheduleChange_succeeds (w : World) (date : Z) (isClosed : bool)
    (reason : option string) (st : Store) :
  Date.startOfDay (now w) <= date ->
  Forall schemaValid st ->
  exists res st', processScheduleChange w date isClosed reason st = (inr res, st').
Proof.
  intros Hdate Hvalid. unfold processScheduleChange.
  destruct (negb isClosed); [eexists _, _; reflexivity|].
  destruct (bool_decide _); [eexists _, _; reflexivity|].
  destruct (cancelEach_total w (JS.orElse reason "Cambio en el horario de la peluquería")
              (List.filter (fun a => dateBetween (Date.startOfDay date) (Date.endOfDay date) a
                                     && notTerminal a) st) st) as [st1 ->].
  - intros a Ha. apply filter_elem_of in Ha as [Ha Hp].
    apply andb_prop in Hp as [Hd _].
    rewrite Forall_forall in Hvalid. destruct (Hvalid a Ha) as [Htime Hdur].
    apply validate_spec. split; [|auto].
    unfold dateBetween in Hd. apply andb_prop in Hd as [Hlo _]. apply Z.leb_le in Hlo.
    revert Hlo Hdate. unfold Date.startOfDay, Date.msPerDay. intros Hlo Hdate.
    pose proof (Z.mod_pos_bound date 86400000 ltac:(lia)).
    pose proof (Z.mod_pos_bound (now w) 86400000 ltac:(lia)).
    pose proof (Z.div_mod date 86400000 ltac:(lia)).
    pose proof (Z.div_mod (now w) 86400000 ltac:(lia)).
    assert (now w / 86400000 <= date / 86400000) by (apply Z.div_le_lower_bound; lia).
    lia.
  - eexists _, _. reflexivity.
Qed.

Lemma processScheduleChange_succeeds_witness :
  let w := Scenario.salon Scenario.dayBefore (fun _ => true) in
  (Date.startOfDay (now w) <= Scenario.june10 /\ Forall schemaValid Scenario.twoBookings)
  /\ exists res st',
       processScheduleChange w Scenario.june10 true None Scenario.twoBookings = (inr res, st').
Proof.
  intros w.
  assert (Hdate : Date.startOfDay (now w) <= Scenario.june10) by (vm_compute; discriminate).
  assert (Hvalid : Forall schemaValid Scenario.twoBookings).
  { repeat constructor; vm_compute; congruence. }
  split; [split; assumption|].
  exact (processScheduleChange_succeeds w Scenario.june10 true None Scenario.twoBookings
           Hdate Hvalid).
Defined.

(** X14.  Closing a day before today that still has an appointment which
    is neither cancelled nor completed fails: the first save is refused by
    the date validator, the error is thrown again and the collection is as
    before. *)
Theorem processScheduleChange_past_day (w : World) (date : Z) (reason : option string)
    (st : Store) (a : IAppointment) :
  date < Date.startOfDay (now w) ->
  a ∈ st -> sameDay (Appointment.date a) date ->
  status a <> cancelled -> status a <> completed ->
  processScheduleChange w date true reason st = (inl ValidationError, st).
Proof.
  intros Hpast Ha Hday Hlive Hopen. unfold processScheduleChange. cbn [negb].
  set (p := fun a => dateBetween (Date.startOfDay date) (Date.endOfDay date) a && notTerminal a).
  assert (Hin : a ∈ List.filter p st).
  { apply filter_elem_of. split; [exact Ha|]. unfold p.
    apply andb_true_iff. split; [apply dateBetween_sameDay; exact Hday|].
    apply notTerminal_spec. auto. }
  destruct (List.filter p st) as [|b l] eqn:Hl; [apply elem_of_nil in Hin; contradiction|].
  rewrite bool_decide_eq_false_2 by discriminate.
  assert (Hb : b ∈ List.filter p st) by (rewrite Hl; left).
  apply filter_elem_of in Hb as [_ Hb]. unfold p in Hb. apply andb_prop in Hb as [Hb _].
  cbn [cancelEach]. unfold save.
  replace (validate (now w) (set_cancelled b _ (now w))) with (validate (now w) b) by reflexivity.
  assert (Hv : validate (now w) b = false).
  { apply not_true_is_false. rewrite validate_spec. intros [Hlo _].
    unfold dateBetween in Hb. apply andb_prop in Hb as [_ Hhi]. apply Z.leb_le in Hhi.
    revert Hlo Hhi Hpast. unfold Date.endOfDay, Date.startOfDay, Date.msPerDay.
    intros Hlo Hhi Hpast.
    pose proof (Z.mod_pos_bound date 86400000 ltac:(lia)).
    pose proof (Z.mod_pos_bound (now w) 86400000 ltac:(lia)).
    pose proof (Z.div_mod date 86400000 ltac:(lia)).
    pose proof (Z.div_mod (now w) 86400000 ltac:(lia)).
    assert (date / 86400000 < now w / 86400000); [|lia].
    apply Z.div_lt_upper_bound; lia. }
  rewrite Hv. reflexivity.
Qed.

Lemma processScheduleChange_past_day_witness :
  let w := Scenario.salon Cases.june12 (fun _ => true) in
  let a := Scenario.appointment "a1" "u1" Scenario.june10 "10:00" 60 pending in
  (Scenario.june10 < Date.startOfDay (now w) /\ a ∈ Scenario.oneAtTen
   /\ sameDay (Appointment.date a) Scenario.june10
   /\ status a <> cancelled /\ status a <> completed)
  /\ processScheduleChange w Scenario.june10 true None Scenario.oneAtTen
     = (inl ValidationError, Scenario.oneAtTen).
Proof.
  intros w a.
  assert (Hpast : Scenario.june10 < Date.startOfDay (now w)) by (vm_compute; reflexivity).
  assert (Ha : a ∈ Scenario.oneAtTen) by left.
  assert (Hday : sameDay (Appointment.date a) Scenario.june10) by reflexivity.
  assert (Hlive : status a <> cancelled) by discriminate.
  assert (Hopen : status a <> completed) by discriminate.
  split; [repeat split; assumption|].
  exact (processScheduleChange_past_day w Scenario.june10 None Scenario.oneAtTen a
           Hpast Ha Hday Hlive Hopen).
Defined.

(** ** Completing the appointments of past days *)

Lemma writeCompleted_some now a st st' :
  writeCompleted now a st = Some st' ->
  st' = map (fun b => if bool_decide (_id b = _id a) then set_completed a now else b) st.
Proof.
  unfold writeCompleted. destruct (negb _); [discriminate|]. intros [= <-]. reflexivity.
Qed.

(** The run of [updateMany]: the documents of a first part of the matched
    list are completed, and the command succeeds when that part is all. *)
Lemma completeEach_prefix w : forall l st n o st',
  uniqueIds st -> NoDup (map _id l) -> (forall a, a ∈ l -> a ∈ st) ->
  completeEach w l st n = (o, st') ->
  exists l1 l2,
    l = (l1 ++ l2)%list
    /\ st' = map (fun b => if bool_decide (b ∈ l1) then set_completed b (now w) else b) st
    /\ (forall m, o = Some m -> l2 = [] /\ m = (n + length l)%nat).
Proof.
  induction l as [|a l IH]; intros st n o st' Hu Hnd Hin; cbn [completeEach].
  - intros [= <- <-]. exists [], []. split; [reflexivity|]. split.
    + rewrite <- (map_id st) at 1. apply map_ext_in.
      intros b _. rewrite bool_decide_eq_false_2 by apply not_elem_of_nil. reflexivity.
    + intros m [= <-]. split; [reflexivity|]. cbn. lia.
  - destruct (writeCompleted (now w) a st) as [st1|] eqn:Hwrite.
    + intros Hrest. apply writeCompleted_some in Hwrite.
      assert (Ha : a ∈ st) by (apply Hin; left).
      rewrite (replace_by_id (fun _ => set_completed a (now w)) st a Hu Ha) in Hwrite.
      cbn [map] in Hnd. apply NoDup_cons in Hnd as [Hfresh Hnd].
      set (A := fun b => set_completed b (now w)) in *.
      assert (Hother : forall b, b ∈ l -> b <> a).
      { intros b Hb ->. apply Hfresh. apply list_elem_of_In, in_map, list_elem_of_In. exact Hb. }
      apply IH in Hrest as (l1 & l2 & Hl & Hst & Hcount).
      * exists (a :: l1), l2. split; [rewrite Hl; reflexivity|]. split.
        -- subst st' st1. apply (replace_compose A); auto.
           intros Hin1. apply Hfresh. rewrite Hl, map_app. apply elem_of_app. left. exact Hin1.
        -- intros m Hm. destruct (Hcount m Hm) as [-> ->]. split; [reflexivity|].
           cbn [length]. lia.
      * subst st1. apply uniqueIds_map; [|exact Hu].
        intros b. destruct (bool_decide_reflect (b = a)) as [->|_]; reflexivity.
      * exact Hnd.
      * intros b Hb. subst st1. apply (elem_of_replace A); [apply Hin; right; exact Hb|auto].
    + intros [= <- <-]. exists [], (a :: l). split; [reflexivity|]. split.
      * rewrite <- (map_id st) at 1. apply map_ext_in.
        intros b _. rewrite bool_decide_eq_false_2 by apply not_elem_of_nil. reflexivity.
      * intros m Hm. discriminate.
Qed.

(** X15.  When [markCompletedAppointments] reports success (the
    documents having pairwise different [_id]s), every appointment dated up
    to the end of yesterday that was pending or confirmed is now completed,
    with a fresh [updatedAt]; every other document is as before; the count
    is the number of appointments so completed; none is left to complete,
    and a second run at that clock reading reports success with count 0 and
    changes nothing. *)
Theorem markCompletedAppointments_effect (w : World) (st st' : Store) (c : Completion) :
  uniqueIds st ->
  markCompletedAppointments w st = (c, st') ->
  completion_success c = true ->
  st' = map (fun b => if overdue w b then set_completed b (now w) else b) st
  /\ completion_count c = length (List.filter (overdue w) st)
  /\ List.filter (overdue w) st' = []
  /\ markCompletedAppointments w st'
     = ({| completion_success := true; completion_count := 0 |}, st').
Proof.
  intros Hu. unfold markCompletedAppointments.
  destruct (completeEach w (List.filter (overdue w) st) st 0) as [[m|] st1] eqn:Hrun;
    intros [= <- <-]; [intros _|discriminate].
  apply completeEach_prefix in Hrun as (l1 & l2 & Hl & Hst & Hcount).
  - destruct (Hcount m eq_refl) as [-> ->]. rewrite app_nil_r in Hl. subst l1.
    rewrite map_filter_replace in Hst.
    assert (Hnone : List.filter (overdue w) st1 = []).
    { apply filter_none. intros b' Hb'. subst st1.
      apply list_elem_of_In, in_map_iff in Hb' as (b & <- & _).
      destruct (overdue w b) eqn:Hb; [|exact Hb].
      unfold overdue, pendingOrConfirmed. cbn [status set_completed].
      rewrite !bool_decide_eq_false_2 by discriminate. apply andb_false_r. }
    split; [exact Hst|]. split; [reflexivity|]. split; [exact Hnone|].
    rewrite Hnone. reflexivity.
  - exact Hu.
  - apply uniqueIds_filter. exact Hu.
  - intros a Ha. apply filter_elem_of in Ha as [Ha _]. exact Ha.
Qed.

Lemma markCompletedAppointments_effect_witness :
  let w := Scenario.salon Cases.june12 (fun _ => true) in
  let run := markCompletedAppointments w Scenario.twoBookings in
  (uniqueIds Scenario.twoBookings /\ run = (fst run, snd run)
   /\ completion_success (fst run) = true)
  /\ snd run = map (fun b => if overdue w b then set_completed b (now w) else b)
                   Scenario.twoBookings
  /\ completion_count (fst run) = length (List.filter (overdue w) Scenario.twoBookings)
  /\ List.filter (overdue w) (snd run) = []
  /\ markCompletedAppointments w (snd run)
     = ({| completion_success := true; completion_count := 0 |}, snd run).
Proof.
  intros w run.
  assert (Hu : uniqueIds Scenario.twoBookings).
  { apply uniqueIds_check. vm_compute. reflexivity. }
  assert (Hrun : run = (fst run, snd run)) by (vm_compute; reflexivity).
  assert (Hok : completion_success (fst run) = true) by (vm_compute; reflexivity).
  split; [repeat split; assumption|].
  exact (markCompletedAppointments_effect w Scenario.twoBookings (snd run) (fst run)
           Hu Hrun Hok).
Defined.

(** X16.  Whatever [markCompletedAppointments] reports, the
    collection keeps its documents in place, and each is either as before or
    was pending or confirmed, dated up to the end of yesterday, and is now
    the same document with status 'completed' and a fresh [updatedAt]:
    cancelled appointments, appointments awaiting rescheduling and
    appointments of today or later are never touched. *)
Theorem markCompletedAppointments_frame (w : World) (st st' : Store) (c : Completion) :
  uniqueIds st ->
  markCompletedAppointments w st = (c, st') ->
  Forall2 (fun b b' => b' = b \/ (overdue w b = true /\ b' = set_completed b (now w))) st st'.
Proof.
  intros Hu. unfold markCompletedAppointments.
  destruct (completeEach w (List.filter (overdue w) st) st 0) as [o st1] eqn:Hrun.
  intros Hout. assert (st' = st1) as -> by (destruct o; injection Hout; auto). clear Hout.
  apply completeEach_prefix in Hrun as (l1 & l2 & Hl & -> & _).
  - apply Forall2_fmap_r, Forall_Forall2_diag, Forall_forall. intros b Hb. unfold compose.
    destruct (bool_decide_reflect (b ∈ l1)) as [Hin|_]; [right|left; reflexivity].
    split; [|reflexivity].
    assert (Hb1 : b ∈ List.filter (overdue w) st) by (rewrite Hl; apply elem_of_app; auto).
    apply filter_elem_of in Hb1. tauto.
  - exact Hu.
  - apply uniqueIds_filter. exact Hu.
  - intros a Ha. apply filter_elem_of in Ha as [Ha _]. exact Ha.
Qed.

Lemma markCompletedAppointments_frame_witness :
  let w := Scenario.salon Cases.june12 (fun _ => true) in
  let run := markCompletedAppointments w Scenario.twoBookings in
  (uniqueIds Scenario.twoBookings /\ run = (fst run, snd run))
  /\ Forall2 (fun b b' => b' = b \/ (overdue w b = true /\ b' = set_completed b (now w)))
             Scenario.twoBookings (snd run).
Proof.
  intros w run.
  assert (Hu : uniqueIds Scenario.twoBookings).
  { apply uniqueIds_check. vm_compute. reflexivity. }
  assert (Hrun : run = (fst run, snd run)) by (vm_compute; reflexivity).
  split; [split; assumption|].
  exact (markCompletedAppointments_frame w Scenario.twoBookings (snd run) (fst run) Hu Hrun).
Defined.

(** ** Reminders *)

Lemma canMail_reachable w a : canMail w a = true <-> reachable w a.
Proof.
  unfold canMail, reachable. destruct (findUserById (user a) (users w)) as [u|].
  - rewrite andb_true_iff, negb_true_iff. split.
    + intros [He Hd]. exists u. split; [reflexivity|]. split; [|exact Hd].
      intros Heq. rewrite Heq in He. discriminate.
    + intros (u' & [= <-] & He & Hd). split; [|exact Hd].
      apply String.eqb_neq. exact He.
  - split; [discriminate|]. intros (u & Hu & _). discriminate.
Qed.

(** One turn of the reminder loop, by cases. *)
Lemma remindOne_cases w a run :
  (canMail w a = false /\ remindOne w a run = run)
  \/ (canMail w a = true
      /\ mailed (remindOne w a run) = (mailed run ++ [_id a])%list
      /\ ((sentCount (remindOne w a run) = sentCount run
           /\ remindedStore (remindOne w a run) = remindedStore run
           /\ exists e, save (now w) (set_reminder a true (Some (now w))) (remindedStore run)
                        = inl e)
          \/ (sentCount (remindOne w a run) = S (sentCount run)
              /\ save (now w) (set_reminder a true (Some (now w))) (remindedStore run)
                 = inr (remindedStore (remindOne w a run))))).
Proof.
  unfold remindOne, canMail.
  destruct (findUserById (user a) (users w)) as [u|]; [|left; auto].
  destruct (String.eqb (email u) ""); cbn [negb andb]; [left; auto|].
  destruct (delivers w (email u)); cbn [negb]; [|left; auto].
  right. split; [reflexivity|].
  destruct (save _ _ _) as [e|st1]; cbn [mailed sentCount remindedStore].
  - split; [reflexivity|]. left. repeat split. exists e. reflexivity.
  - split; [reflexivity|]. right. split; reflexivity.
Qed.

(** Who is mailed does not depend on the collection. *)
Lemma remind_mailed w : forall l run,
  mailed (foldl (fun run appointment => remindOne w appointment run) run l)
  = (mailed run ++ map _id (List.filter (canMail w) l))%list.
Proof.
  induction l as [|a l IH]; intros run; cbn [foldl List.filter].
  - cbn [map]. rewrite app_nil_r. reflexivity.
  - rewrite IH.
    destruct (remindOne_cases w a run) as [[Hno ->]|(Hyes & Hm & _)].
    + rewrite Hno. reflexivity.
    + rewrite Hyes, Hm. cbn [map]. rewrite <- app_assoc. reflexivity.
Qed.

Lemma filter_andb {A} (f g : A -> bool) (l : list A) :
  List.filter g (List.filter f l) = List.filter (fun x => f x && g x) l.
Proof.
  induction l as [|a l IH]; [reflexivity|]. cbn [List.filter].
  destruct (f a); cbn [andb List.filter]; [|exact IH].
  destruct (g a); [f_equal|]; exact IH.
Qed.

Lemma sendAppointmentReminders_mailed w st :
  mailed (sendAppointmentReminders w st)
  = map _id (List.filter (fun a => dueForReminder w a && canMail w a) st).
Proof.
  unfold sendAppointmentReminders. rewrite remind_mailed, filter_andb. reflexivity.
Qed.

Lemma dueForReminder_spec w a :
  dueForReminder w a = true
  <-> sameDay (date a) (Date.addDays (now w) 1)
      /\ (status a = pending \/ status a = confirmed) /\ reminderSent a = false.
Proof.
  unfold dueForReminder.
  rewrite !andb_true_iff, dateBetween_sameDay, pendingOrConfirmed_spec, negb_true_iff.
  tauto.
Qed.

(** The index is a matter of [_id], date, time and status only. *)
Lemma indexed_map (f : IAppointment -> IAppointment) st :
  (forall b, _id (f b) = _id b /\ date (f b) = date b /\ time (f b) = time b
             /\ status (f b) = status b) ->
  indexed st -> indexed (map f st).
Proof.
  intros Hf Hi a' b' Ha' Hb'.
  apply list_elem_of_In, in_map_iff in Ha' as (a & <- & Ha).
  apply list_elem_of_In, in_map_iff in Hb' as (b & <- & Hb).
  destruct (Hf a) as (-> & -> & -> & ->). destruct (Hf b) as (-> & -> & -> & ->).
  apply Hi; apply list_elem_of_In; assumption.
Qed.

(** A save that touches neither date, time nor status of a stored document
    is not refused by the index. *)
Lemma save_same_key now a a' st :
  validate now a' = true -> indexed st -> a ∈ st ->
  _id a' = _id a -> date a' = date a -> time a' = time a -> status a' = status a ->
  exists st', save now a' st = inr st'.
Proof.
  intros Hv Hi Ha Hid Hd Ht Hs. unfold save. rewrite Hv. cbn [negb].
  assert (Hkey : date_time_status_unique
                   (List.filter (fun b => negb (bool_decide (_id b = _id a'))) st) a' = true).
  { unfold date_time_status_unique. apply negb_true_iff, not_true_is_false.
    intros Hdup. apply andb_prop in Hdup as [Hlive Hdup].
    apply notCancelled_true in Hlive.
    apply existsb_exists in Hdup as (b & Hb & Hkey).
    apply filter_In in Hb as [Hb Hne].
    apply negb_true_iff, bool_decide_eq_false in Hne.
    apply andb_prop in Hkey as [_ Hkey]. unfold sameIndexKey in Hkey.
    apply andb_prop in Hkey as [Hkey Hst]. apply andb_prop in Hkey as [Hdate Htime].
    apply bool_decide_eq_true in Hdate, Htime, Hst.
    apply (Hi a b Ha); [apply list_elem_of_In; exact Hb|congruence..]. }
  rewrite Hkey. eexists. reflexivity.
Qed.

(** The loop of [sendAppointmentReminders] on the collection: the documents
    of some of the mailed appointments are marked, the others are as
    before. *)
Lemma remind_store w : forall l run,
  uniqueIds (remindedStore run) -> NoDup (map _id l) ->
  (forall a, a ∈ l -> a ∈ remindedStore run) ->
  (forall a, a ∈ l -> reminderSent a = false) ->
  let run' := foldl (fun run appointment => remindOne w appointment run) run l in
  exists saved,
    sublist saved (List.filter (canMail w) l)
    /\ remindedStore run'
       = map (fun b => if bool_decide (b ∈ saved) then reminded w b else b) (remindedStore run)
    /\ sentCount run' = (sentCount run + length saved)%nat
    /\ (indexed (remindedStore run) -> (forall a, a ∈ l -> validate (now w) a = true) ->
        saved = List.filter (canMail w) l).
Proof.
  induction l as [|a l IH]; intros run Hu Hnd Hin Hnew; cbn [foldl].
  - exists []. split; [constructor|]. split; [|split; [cbn; lia|reflexivity]].
    rewrite <- (map_id (remindedStore run)) at 1. apply map_ext_in.
    intros b _. rewrite bool_decide_eq_false_2 by apply not_elem_of_nil. reflexivity.
  - cbn [map] in Hnd. apply NoDup_cons in Hnd as [Hfresh Hnd].
    assert (Ha : a ∈ remindedStore run) by (apply Hin; left).
    assert (Hother : forall b, b ∈ l -> b <> a).
    { intros b Hb ->. apply Hfresh. apply list_elem_of_In, in_map, list_elem_of_In. exact Hb. }
    assert (Hkeep : remindedStore (remindOne w a run) = remindedStore run ->
              exists saved,
                sublist saved (List.filter (canMail w) l)
                /\ remindedStore (foldl (fun run appointment => remindOne w appointment run)
                                        (remindOne w a run) l)
                   = map (fun b => if bool_decide (b ∈ saved) then reminded w b else b)
                         (remindedStore run)
                /\ sentCount (foldl (fun run appointment => remindOne w appointment run)
                                    (remindOne w a run) l)
                   = (sentCount (remindOne w a run) + length saved)%nat
                /\ (indexed (remindedStore run) -> (forall a, a ∈ l -> validate (now w) a = true) ->
                    saved = List.filter (canMail w) l)).
    { intros Hsame.
      destruct (IH (remindOne w a run)) as (saved & Hsub & Hst & Hcount & Hall).
      - rewrite Hsame. exact Hu.
      - exact Hnd.
      - intros b Hb. rewrite Hsame. apply Hin. right. exact Hb.
      - intros b Hb. apply Hnew. right. exact Hb.
      - exists saved. rewrite Hsame in Hst, Hall. auto. }
    cbn [List.filter].
    destruct (remindOne_cases w a run) as [[Hno Hrun]|(Hyes & _ & [(Hc & Hsame & e & Hfail)|(Hc & Hsave)])].
    + rewrite Hno. destruct (Hkeep ltac:(rewrite Hrun; reflexivity))
        as (saved & Hsub & Hst & Hcount & Hall).
      exists saved. split; [exact Hsub|]. split; [exact Hst|].
      split; [rewrite Hcount, Hrun; reflexivity|].
      intros Hi Hok. apply Hall; [exact Hi|]. intros b Hb. apply Hok. right. exact Hb.
    + rewrite Hyes. destruct (Hkeep Hsame) as (saved & Hsub & Hst & Hcount & Hall).
      exists saved. split; [apply sublist_cons; exact Hsub|].
      split; [exact Hst|]. split; [rewrite Hcount, Hc; reflexivity|].
      intros Hi Hok.
      destruct (save_same_key (now w) a (set_reminder a true (Some (now w))) (remindedStore run))
        as [st' Hst']; try reflexivity; auto.
      { apply (Hok a). left. }
      congruence.
    + rewrite Hyes.
      apply save_inr in Hsave. cbn [_id set_reminder] in Hsave.
      rewrite (replace_by_id _ _ a Hu Ha) in Hsave.
      assert (Hmod : preSave (now w) a (set_reminder a true (Some (now w))) = reminded w a).
      { unfold preSave. rewrite bool_decide_eq_false_2; [reflexivity|].
        intros Heq. pose proof (Hnew a ltac:(left)) as Hf. rewrite <- Heq in Hf. discriminate. }
      rewrite Hmod in Hsave. clear Hmod.
      destruct (IH (remindOne w a run)) as (saved & Hsub & Hst & Hcount & Hall).
      * rewrite Hsave. apply uniqueIds_map; [|exact Hu].
        intros b. destruct (bool_decide_reflect (b = a)) as [->|_]; reflexivity.
      * exact Hnd.
      * intros b Hb. rewrite Hsave.
        apply (elem_of_replace (reminded w)); [apply Hin; right; exact Hb|auto].
      * intros b Hb. apply Hnew. right. exact Hb.
      * exists (a :: saved). split; [apply sublist_skip; exact Hsub|].
        split.
        { rewrite Hst, Hsave. apply (replace_compose (reminded w)); auto.
          intros Hin1. apply Hfresh.
          apply list_elem_of_In, in_map_iff in Hin1 as (x & Hx & Hin1).
          apply list_elem_of_In, (sublist_subseteq _ _ Hsub), filter_elem_of in Hin1 as [Hin1 _].
          rewrite <- Hx. apply list_elem_of_In, in_map, list_elem_of_In. exact Hin1. }
        split; [rewrite Hcount, Hc; cbn [length]; lia|].
        intros Hi Hok. f_equal. apply Hall; [|intros b Hb; apply Hok; right; exact Hb].
        rewrite Hsave. apply indexed_map; [|exact Hi].
        intros b. destruct (bool_decide_reflect (b = a)) as [->|_]; repeat split.
Qed.

(** X17.  A run of [sendAppointmentReminders] mails exactly the
    appointments of tomorrow that are pending or confirmed, have no reminder
    yet and whose user can be reached, each once; it counts no more
    reminders than it mailed; and each document is afterwards either as
    before or is one of the mailed appointments, now marked as reminded at
    the clock reading: the mark is never set without the mail. *)
Theorem sendAppointmentReminders_safe (w : World) (st : Store) :
  uniqueIds st ->
  let run := sendAppointmentReminders w st in
  mailed run = map _id (List.filter (fun a => dueForReminder w a && canMail w a) st)
  /\ NoDup (mailed run)
  /\ (forall j, j ∈ mailed run ->
        exists a, a ∈ st /\ _id a = j /\ reachable w a
                  /\ sameDay (date a) (Date.addDays (now w) 1)
                  /\ (status a = pending \/ status a = confirmed)
                  /\ reminderSent a = false)
  /\ (sentCount run <= length (mailed run))%nat
  /\ Forall2 (fun b b' => b' = b \/ (_id b ∈ mailed run /\ b' = reminded w b))
             st (remindedStore run).
Proof.
  intros Hu run.
  assert (Hmailed : mailed run
                    = map _id (List.filter (fun a => dueForReminder w a && canMail w a) st))
    by apply sendAppointmentReminders_mailed.
  assert (Hin : forall a, a ∈ List.filter (fun a => dueForReminder w a && canMail w a) st ->
                          _id a ∈ mailed run).
  { intros a Ha. rewrite Hmailed. apply list_elem_of_In, in_map, list_elem_of_In. exact Ha. }
  split; [exact Hmailed|]. split; [rewrite Hmailed; apply uniqueIds_filter; exact Hu|].
  split.
  { intros j Hj. rewrite Hmailed in Hj.
    apply list_elem_of_In, in_map_iff in Hj as (a & <- & Ha).
    apply list_elem_of_In, filter_elem_of in Ha as [Ha Hq].
    apply andb_prop in Hq as [Hdue Hmail].
    apply dueForReminder_spec in Hdue. apply canMail_reachable in Hmail.
    exists a. tauto. }
  destruct (remind_store w (List.filter (dueForReminder w) st)
              {| sentCount := 0; mailed := []; remindedStore := st |})
    as (saved & Hsub & Hst & Hcount & _).
  - exact Hu.
  - apply uniqueIds_filter. exact Hu.
  - intros a Ha. apply filter_elem_of in Ha as [Ha _]. exact Ha.
  - intros a Ha. apply filter_elem_of in Ha as [_ Ha].
    apply dueForReminder_spec in Ha. tauto.
  - fold (sendAppointmentReminders w st) in Hst, Hcount. fold run in Hst, Hcount.
    cbn [sentCount remindedStore] in Hst, Hcount.
    assert (Hsaved : forall a, a ∈ saved ->
              a ∈ List.filter (fun a => dueForReminder w a && canMail w a) st).
    { intros a Ha. apply (sublist_subseteq _ _ Hsub), filter_elem_of in Ha as [Ha Hmail].
      apply filter_elem_of in Ha as [Ha Hdue]. apply filter_elem_of.
      split; [exact Ha|]. rewrite Hdue, Hmail. reflexivity. }
    split.
    + rewrite Hcount, Hmailed, length_map, <- filter_andb. cbn [Nat.add].
      apply sublist_length. exact Hsub.
    + rewrite Hst. apply Forall2_fmap_r, Forall_Forall2_diag, Forall_forall.
      intros b Hb. unfold compose.
      destruct (bool_decide_reflect (b ∈ saved)) as [Hbs|_]; [right|left; reflexivity].
      split; [apply Hin, Hsaved; exact Hbs|reflexivity].
Qed.

Lemma sendAppointmentReminders_safe_witness :
  let w := Scenario.salon Scenario.dayBefore Scenario.notToBob in
  let run := sendAppointmentReminders w Scenario.twoBookings in
  uniqueIds Scenario.twoBookings
  /\ (mailed run
      = map _id (List.filter (fun a => dueForReminder w a && canMail w a) Scenario.twoBookings)
      /\ NoDup (mailed run)
      /\ (forall j, j ∈ mailed run ->
            exists a, a ∈ Scenario.twoBookings /\ _id a = j /\ reachable w a
                      /\ sameDay (date a) (Date.addDays (now w) 1)
                      /\ (status a = pending \/ status a = confirmed)
                      /\ reminderSent a = false)
      /\ (sentCount run <= length (mailed run))%nat
      /\ Forall2 (fun b b' => b' = b \/ (_id b ∈ mailed run /\ b' = reminded w b))
                 Scenario.twoBookings (remindedStore run)).
Proof.
  intros w run.
  assert (Hu : uniqueIds Scenario.twoBookings).
  { apply uniqueIds_check. vm_compute. reflexivity. }
  split; [exact Hu|].
  exact (sendAppointmentReminders_safe w Scenario.twoBookings Hu).
Defined.

(** X18.  On a collection that respects the unique index and
    whose documents pass the schema's validators, no save of the reminder
    run fails: every mailed appointment is marked, the count is the number
    of mails, and a second run on the result mails nobody. *)
Theorem sendAppointmentReminders_complete (w : World) (st : Store) :
  uniqueIds st -> indexed st -> Forall schemaValid st ->
  let run := sendAppointmentReminders w st in
  remindedStore run
  = map (fun b => if dueForReminder w b && canMail w b then reminded w b else b) st
  /\ sentCount run = length (mailed run)
  /\ mailed (sendAppointmentReminders w (remindedStore run)) = [].
Proof.
  intros Hu Hi Hvalid run.
  destruct (remind_store w (List.filter (dueForReminder w) st)
              {| sentCount := 0; mailed := []; remindedStore := st |})
    as (saved & _ & Hst & Hcount & Hall).
  - exact Hu.
  - apply uniqueIds_filter. exact Hu.
  - intros a Ha. apply filter_elem_of in Ha as [Ha _]. exact Ha.
  - intros a Ha. apply filter_elem_of in Ha as [_ Ha].
    apply dueForReminder_spec in Ha. tauto.
  - fold (sendAppointmentReminders w st) in Hst, Hcount. fold run in Hst, Hcount.
    cbn [sentCount remindedStore] in Hst, Hcount, Hall.
    assert (Hv : forall a, a ∈ List.filter (dueForReminder w) st -> validate (now w) a = true).
    { intros a Ha. apply filter_elem_of in Ha as [Ha Hdue].
      rewrite Forall_forall in Hvalid. destruct (Hvalid a Ha) as [Htime Hdur].
      apply validate_spec. split; [|auto].
      apply dueForReminder_spec in Hdue as (Hday & _).
      unfold sameDay, Date.addDays in Hday. unfold Date.startOfDay, Date.msPerDay in *.
      pose proof (Z.mod_pos_bound (now w) 86400000 ltac:(lia)).
      pose proof (Z.div_mod (now w) 86400000 ltac:(lia)).
      pose proof (Z.mod_pos_bound (date a) 86400000 ltac:(lia)).
      pose proof (Z.div_mod (date a) 86400000 ltac:(lia)).
      rewrite Z.div_add in Hday by lia. lia. }
    specialize (Hall Hi Hv). subst saved.
    rewrite filter_andb in Hst, Hcount. rewrite map_filter_replace in Hst.
    split; [exact Hst|]. split.
    + unfold run at 2. rewrite sendAppointmentReminders_mailed, length_map. exact Hcount.
    + rewrite sendAppointmentReminders_mailed, Hst.
      rewrite (filter_none (fun a => dueForReminder w a && canMail w a)); [reflexivity|].
      intros b' Hb'. apply list_elem_of_In, in_map_iff in Hb' as (b & <- & _).
      destruct (dueForReminder w b && canMail w b) eqn:Hq; [|exact Hq].
      unfold dueForReminder, reminded. cbn [reminderSent set_saved set_reminder negb].
      rewrite andb_false_r. reflexivity.
Qed.

Lemma sendAppointmentReminders_complete_witness :
  let w := Scenario.salon Scenario.dayBefore Scenario.notToBob in
  let run := sendAppointmentReminders w Scenario.twoBookings in
  (uniqueIds Scenario.twoBookings /\ indexed Scenario.twoBookings
   /\ Forall schemaValid Scenario.twoBookings)
  /\ remindedStore run
     = map (fun b => if dueForReminder w b && canMail w b then reminded w b else b)
           Scenario.twoBookings
  /\ sentCount run = length (mailed run)
  /\ mailed (sendAppointmentReminders w (remindedStore run)) = [].
Proof.
  intros w run.
  assert (Hu : uniqueIds Scenario.twoBookings).
  { apply uniqueIds_check. vm_compute. reflexivity. }
  assert (Hi : indexed Scenario.twoBookings).
  { intros a b Ha Hb Hid _ _ Htime.
    apply elem_of_cons in Ha as [->|Ha]; [|apply elem_of_cons in Ha as [->|Ha]];
      [| |apply elem_of_nil in Ha; contradiction];
      (apply elem_of_cons in Hb as [->|Hb]; [|apply elem_of_cons in Hb as [->|Hb]];
       [| |apply elem_of_nil in Hb; contradiction]);
      (contradiction || discriminate). }
  assert (Hvalid : Forall schemaValid Scenario.twoBookings).
  { repeat constructor; vm_compute; congruence. }
  split; [repeat split; assumption|].
  exact (sendAppointmentReminders_complete w Scenario.twoBookings Hu Hi Hvalid).
Defined.

(** ** Reminder endpoints *)

Lemma isAdminOrSuperAdmin_spec reqUser :
  isAdminOrSuperAdmin reqUser = true
  <-> exists p, reqUser = Some p
                /\ (principal_role p = "admin" \/ principal_role p = "superadmin").
Proof.
  unfold isAdminOrSuperAdmin. destruct reqUser as [p|].
  - rewrite orb_true_iff, !String.eqb_eq. split.
    + intros H. exists p. auto.
    + intros (q & [= <-] & H). exact H.
  - split; [discriminate|]. intros (q & H & _). discriminate.
Qed.

(** X19.  When [toggleAppointmentReminder] answers 200, the request
    carried a boolean [enabled] and came from the owner of the appointment
    (an administrator who is not the owner is refused).  The stored flag
    [reminderSent] is the negation of [enabled]: switching reminders off
    marks the appointment as already reminded, at the clock reading, and
    switching them on clears the mark and its time, also when a reminder had
    gone out before.  The other fields of the appointment, every other
    document and the size of the collection are as before. *)
Theorem toggleAppointmentReminder_effect (w : World) (reqUser : option Principal)
    (i : ObjectId) (enabled : option bool) (st st' : Store) (r : Reply) :
  toggleAppointmentReminder w reqUser i enabled st = (r, st') ->
  reply_status r = 200 ->
  exists on requester a a',
    enabled = Some on /\ reqUser = Some requester
    /\ findById i st = Some a /\ user a = id requester
    /\ findById i st' = Some a'
    /\ reminderSent a' = negb on
    /\ reminderSentAt a' = (if on then None else Some (now w))
    /\ _id a' = _id a /\ user a' = user a /\ services a' = services a
    /\ date a' = date a /\ time a' = time a /\ totalDuration a' = totalDuration a
    /\ status a' = status a /\ notes a' = notes a
    /\ (forall j, j <> i -> findById j st' = findById j st)
    /\ length st' = length st.
Proof.
  unfold toggleAppointmentReminder. intros Hrun Hcode.
  destruct enabled as [on|]; [|injection Hrun as <- <-; discriminate].
  destruct (findById i st) as [a|] eqn:Hfind; [|injection Hrun as <- <-; discriminate].
  destruct (bool_decide_reflect (Some (user a) = id <$> reqUser)) as [Howner|_];
    [|injection Hrun as <- <-; discriminate].
  cbn [negb] in Hrun.
  destruct (save _ _ st) as [e|st1] eqn:Hsave; injection Hrun as <- <-; [discriminate|].
  destruct reqUser as [requester|]; [|discriminate]. injection Howner as Howner.
  pose proof (findById_id _ _ _ Hfind) as Hid.
  set (toggled := set_reminder a (negb on) (if on then None else Some (now w))) in *.
  exists on, requester, a, (preSave (now w) a toggled).
  split; [reflexivity|]. split; [reflexivity|]. split; [reflexivity|]. split; [exact Howner|].
  split.
  { rewrite (save_lookup _ _ _ _ i Hsave). cbn [_id toggled set_reminder].
    rewrite bool_decide_eq_true_2 by congruence. rewrite Hfind. reflexivity. }
  assert (Hrest : (forall j, j <> i -> findById j st1 = findById j st)
                  /\ length st1 = length st).
  { split; [|apply (save_length _ _ _ _ Hsave)].
    intros j Hj. rewrite (save_lookup _ _ _ _ j Hsave). cbn [_id toggled set_reminder].
    rewrite bool_decide_eq_false_2 by congruence. reflexivity. }
  destruct (preSave_cases (now w) a toggled) as [-> | ->]; cbn; repeat split; apply Hrest.
Qed.

Lemma toggleAppointmentReminder_effect_witness :
  let w := Scenario.salon Scenario.dayBefore (fun _ => true) in
  let run := toggleAppointmentReminder w (Some (Scenario.principalOf Scenario.alice)) "a1"
               (Some false) Scenario.twoBookings in
  (run = (fst run, snd run) /\ reply_status (fst run) = 200)
  /\ exists on requester a a',
    Some false = Some on /\ Some (Scenario.principalOf Scenario.alice) = Some requester
    /\ findById "a1" Scenario.twoBookings = Some a /\ user a = id requester
    /\ findById "a1" (snd run) = Some a'
    /\ reminderSent a' = negb on
    /\ reminderSentAt a' = (if on then None else Some (now w))
    /\ _id a' = _id a /\ user a' = user a /\ services a' = services a
    /\ date a' = date a /\ time a' = time a /\ totalDuration a' = totalDuration a
    /\ status a' = status a /\ notes a' = notes a
    /\ (forall j, j <> "a1" -> findById j (snd run) = findById j Scenario.twoBookings)
    /\ length (snd run) = length Scenario.twoBookings.
Proof.
  intros w run.
  assert (Hrun : run = (fst run, snd run)) by (vm_compute; reflexivity).
  assert (Hcode : reply_status (fst run) = 200) by (vm_compute; reflexivity).
  split; [split; [exact Hrun|exact Hcode]|].
  exact (toggleAppointmentReminder_effect w (Some (Scenario.principalOf Scenario.alice)) "a1"
           (Some false) Scenario.twoBookings (snd run) (fst run) Hrun Hcode).
Defined.

(** X20.  Once [toggleAppointmentReminder] has switched the reminders
    of an appointment off, no later run of [sendAppointmentReminders] on the
    resulting collection, at whatever time and with whatever users and mail
    transport, mails a reminder for it. *)
Theorem reminders_switched_off_are_not_sent (w w' : World) (reqUser : option Principal)
    (i : ObjectId) (st st' : Store) (r : Reply) :
  toggleAppointmentReminder w reqUser i (Some false) st = (r, st') ->
  reply_status r = 200 ->
  i ∉ mailed (sendAppointmentReminders w' st').
Proof.
  unfold toggleAppointmentReminder. intros Hrun Hcode.
  destruct (findById i st) as [a|] eqn:Hfind; [|injection Hrun as <- <-; discriminate].
  destruct (negb (bool_decide _)); [injection Hrun as <- <-; discriminate|].
  destruct (save _ _ st) as [e|st1] eqn:Hsave; injection Hrun as <- <-; [discriminate|].
  pose proof (findById_id _ _ _ Hfind) as Hid.
  apply save_inr in Hsave. cbn [_id set_reminder] in Hsave.
  rewrite sendAppointmentReminders_mailed. intros Hin.
  apply list_elem_of_In, in_map_iff in Hin as (b' & Hb'id & Hb').
  apply filter_In in Hb' as [Hb' Hq]. apply andb_prop in Hq as [Hdue _].
  apply dueForReminder_spec in Hdue as (_ & _ & Hflag).
  subst st1. apply in_map_iff in Hb' as (b & <- & _).
  destruct (bool_decide_reflect (_id b = _id a)) as [_|Hne].
  - destruct (preSave_cases (now w) b (set_reminder a (negb false) (Some (now w)))) as [Heq|Heq];
      rewrite Heq in Hflag; discriminate.
  - congruence.
Qed.

Lemma reminders_switched_off_are_not_sent_witness :
  let w := Scenario.salon Scenario.dayBefore (fun _ => true) in
  let run := toggleAppointmentReminder w (Some (Scenario.principalOf Scenario.alice)) "a1"
               (Some false) Scenario.twoBookings in
  (run = (fst run, snd run) /\ reply_status (fst run) = 200)
  /\ "a1" ∉ mailed (sendAppointmentReminders w (snd run)).
Proof.
  intros w run.
  assert (Hrun : run = (fst run, snd run)) by (vm_compute; reflexivity).
  assert (Hcode : reply_status (fst run) = 200) by (vm_compute; reflexivity).
  split; [split; [exact Hrun|exact Hcode]|].
  exact (reminders_switched_off_are_not_sent w w (Some (Scenario.principalOf Scenario.alice))
           "a1" Scenario.twoBookings (snd run) (fst run) Hrun Hcode).
Defined.

(** X21.  When [sendManualReminder] answers 200, the requester is an
    administrator or the super-administrator; the appointment exists, is not
    cancelled and is not dated before the clock reading; its user exists,
    has an address and the mail went out; the appointment is now marked as
    reminded at the clock reading, with identity, user, date, time and
    status as before; every other document and the size of the collection
    are as before. *)
Theorem sendManualReminder_effect (w : World) (reqUser : option Principal)
    (i : ObjectId) (st st' : Store) (r : Reply) :
  sendManualReminder w reqUser i st = (r, st') ->
  reply_status r = 200 ->
  exists p a a',
    reqUser = Some p /\ (principal_role p = "admin" \/ principal_role p = "superadmin")
    /\ findById i st = Some a
    /\ status a <> cancelled /\ now w <= date a /\ reachable w a
    /\ findById i st' = Some a'
    /\ reminderSent a' = true /\ reminderSentAt a' = Some (now w)
    /\ _id a' = _id a /\ user a' = user a /\ date a' = date a /\ time a' = time a
    /\ status a' = status a
    /\ (forall j, j <> i -> findById j st' = findById j st)
    /\ length st' = length st.
Proof.
  unfold sendManualReminder. intros Hrun Hcode.
  destruct (isAdminOrSuperAdmin reqUser) eqn:Hadmin; [|injection Hrun as <- <-; discriminate].
  cbn [negb] in Hrun. apply isAdminOrSuperAdmin_spec in Hadmin as (p & -> & Hrole).
  destruct (findById i st) as [a|] eqn:Hfind; [|injection Hrun as <- <-; discriminate].
  destruct (bool_decide_reflect (status a = cancelled)) as [|Hlive];
    [injection Hrun as <- <-; discriminate|].
  destruct (Z.ltb_spec (date a) (now w)) as [|Hdate]; [injection Hrun as <- <-; discriminate|].
  destruct (findUserById (user a) (users w)) as [u|] eqn:Hu;
    [|injection Hrun as <- <-; discriminate].
  destruct (String.eqb_spec (email u) "") as [|Hemail];
    [injection Hrun as <- <-; discriminate|].
  destruct (delivers w (email u)) eqn:Hdel; cbn [negb] in Hrun;
    [|injection Hrun as <- <-; discriminate].
  destruct (save _ _ st) as [e|st1] eqn:Hsave; injection Hrun as <- <-; [discriminate|].
  pose proof (findById_id _ _ _ Hfind) as Hid.
  set (marked := set_reminder a true (Some (now w))) in *.
  exists p, a, (preSave (now w) a marked).
  split; [reflexivity|]. split; [exact Hrole|]. split; [reflexivity|].
  split; [exact Hlive|]. split; [exact Hdate|].
  split; [exists u; auto|].
  split.
  { rewrite (save_lookup _ _ _ _ i Hsave). cbn [_id marked set_reminder].
    rewrite bool_decide_eq_true_2 by congruence. rewrite Hfind. reflexivity. }
  assert (Hrest : (forall j, j <> i -> findById j st1 = findById j st)
                  /\ length st1 = length st).
  { split; [|apply (save_length _ _ _ _ Hsave)].
    intros j Hj. rewrite (save_lookup _ _ _ _ j Hsave). cbn [_id marked set_reminder].
    rewrite bool_decide_eq_false_2 by congruence. reflexivity. }
  destruct (preSave_cases (now w) a marked) as [-> | ->]; cbn; repeat split; apply Hrest.
Qed.

Lemma sendManualReminder_effect_witness :
  let w := Scenario.salon Scenario.dayBefore (fun _ => true) in
  let run := sendManualReminder w (Some (Scenario.principalOf Scenario.root)) "a1"
               Scenario.twoBookings in
  (run = (fst run, snd run) /\ reply_status (fst run) = 200)
  /\ exists p a a',
    Some (Scenario.principalOf Scenario.root) = Some p
    /\ (principal_role p = "admin" \/ principal_role p = "superadmin")
    /\ findById "a1" Scenario.twoBookings = Some a
    /\ status a <> cancelled /\ now w <= date a /\ reachable w a
    /\ findById "a1" (snd run) = Some a'
    /\ reminderSent a' = true /\ reminderSentAt a' = Some (now w)
    /\ _id a' = _id a /\ user a' = user a /\ date a' = date a /\ time a' = time a
    /\ status a' = status a
    /\ (forall j, j <> "a1" -> findById j (snd run) = findById j Scenario.twoBookings)
    /\ length (snd run) = length Scenario.twoBookings.
Proof.
  intros w run.
  assert (Hrun : run = (fst run, snd run)) by (vm_compute; reflexivity).
  assert (Hcode : reply_status (fst run) = 200) by (vm_compute; reflexivity).
  split; [split; [exact Hrun|exact Hcode]|].
  exact (sendManualReminder_effect w (Some (Scenario.principalOf Scenario.root)) "a1"
           Scenario.twoBookings (snd run) (fst run) Hrun Hcode).
Defined.

(** ** Completing one appointment *)

(** Looking a document up after the documents with the [_id] [i] were
    rewritten. *)
Lemma findById_replace (g : IAppointment -> IAppointment) i st j :
  (forall b, _id b = i -> _id (g b) = i) ->
  findById j (map (fun b => if bool_decide (_id b = i) then g b else b) st)
  = if bool_decide (j = i) then g <$> findById j st else findById j st.
Proof.
  intros Hg. induction st as [|b st IH]; unfold findById in *; cbn [map List.find].
  - destruct (bool_decide (j = i)); reflexivity.
  - destruct (bool_decide_reflect (_id b = i)) as [Hb|Hb].
    + rewrite (Hg b Hb). destruct (bool_decide_reflect (i = j)) as [Hj|Hj].
      * rewrite (bool_decide_eq_true_2 (_id b = j)) by congruence.
        rewrite bool_decide_eq_true_2 by congruence. reflexivity.
      * rewrite (bool_decide_eq_false_2 (_id b = j)) by congruence. exact IH.
    + destruct (bool_decide_reflect (_id b = j)) as [Hj|Hj].
      * rewrite bool_decide_eq_false_2 by congruence. reflexivity.
      * exact IH.
Qed.

(** X22.  When [completeAppointment] answers 200, the requester is an
    administrator or the super-administrator and the id is a valid ObjectId
    of a stored appointment; whatever its status, date and time were, the
    appointment is now the same document with status 'completed' and a fresh
    [updatedAt] (no validator and no save hook has run: the version is as
    before), and that is the document sent back; every other document and
    the size of the collection are as before. *)
Theorem completeAppointment_effect (isValidObjectId : ObjectId -> bool) (w : World)
    (reqUser : option Principal) (i : ObjectId) (st st' : Store)
    (found : option IAppointment) :
  completeAppointment isValidObjectId w reqUser i st = (CompletionDone found, st') ->
  exists p a,
    reqUser = Some p /\ (principal_role p = "admin" \/ principal_role p = "superadmin")
    /\ isValidObjectId i = true
    /\ findById i st = Some a
    /\ found = Some (set_completed a (now w))
    /\ findById i st' = Some (set_completed a (now w))
    /\ (forall j, j <> i -> findById j st' = findById j st)
    /\ length st' = length st.
Proof.
  unfold completeAppointment.
  destruct (isAdminOrSuperAdmin reqUser) eqn:Hadmin; [|discriminate]. cbn [negb].
  apply isAdminOrSuperAdmin_spec in Hadmin as (p & -> & Hrole).
  destruct (isValidObjectId i) eqn:Hvalid; [|discriminate]. cbn [negb].
  destruct (findById i st) as [a|] eqn:Hfind; [|discriminate].
  destruct (writeCompleted (now w) a st) as [st1|] eqn:Hwrite; [|discriminate].
  intros [= <- <-].
  pose proof (findById_id _ _ _ Hfind) as Hid.
  apply writeCompleted_some in Hwrite. rewrite Hid in Hwrite.
  set (done := set_completed a (now w)) in *.
  pose proof (fun j => findById_replace (fun _ => done) i st j (fun _ _ => Hid)) as Hlook.
  cbn beta in Hlook. rewrite <- Hwrite in Hlook.
  exists p, a. split; [reflexivity|]. split; [exact Hrole|]. split; [reflexivity|].
  split; [reflexivity|].
  assert (Hfound : findById i st1 = Some done).
  { rewrite Hlook, bool_decide_eq_true_2 by reflexivity. rewrite Hfind. reflexivity. }
  split; [exact Hfound|]. split; [exact Hfound|]. split.
  - intros j Hj. rewrite Hlook, bool_decide_eq_false_2 by exact Hj. reflexivity.
  - rewrite Hwrite. apply length_map.
Qed.

Lemma completeAppointment_effect_witness :
  let w := Scenario.salon Scenario.mondayAfternoon (fun _ => true) in
  let run := completeAppointment (fun _ => true) w (Some (Scenario.principalOf Scenario.admin))
               "a1" Scenario.twoBookings in
  let found := Some (set_completed (Scenario.appointment "a1" "u1" Scenario.june10 "10:00" 60 pending)
                                   (now w)) in
  run = (CompletionDone found, snd run)
  /\ exists p a,
    Some (Scenario.principalOf Scenario.admin) = Some p
    /\ (principal_role p = "admin" \/ principal_role p = "superadmin")
    /\ (fun _ : ObjectId => true) "a1" = true
    /\ findById "a1" Scenario.twoBookings = Some a
    /\ found = Some (set_completed a (now w))
    /\ findById "a1" (snd run) = Some (set_completed a (now w))
    /\ (forall j, j <> "a1" -> findById j (snd run) = findById j Scenario.twoBookings)
    /\ length (snd run) = length Scenario.twoBookings.
Proof.
  intros w run found.
  assert (Hrun : run = (CompletionDone found, snd run)) by (vm_compute; reflexivity).
  split; [exact Hrun|].
  exact (completeAppointment_effect (fun _ => true) w (Some (Scenario.principalOf Scenario.admin))
           "a1" Scenario.twoBookings (snd run) found Hrun).
Defined.

(** ** The routes *)

(** X23.  The middleware [isAppointmentOwner] in front of
    [cancelAppointment] and [rescheduleAppointment] changes neither the
    status code of the answer nor the collection: whenever it stops a
    request (404 for an unknown appointment, 403 for a requester who is
    neither the owner nor an administrator), the controller alone would have
    answered with the same code and changed nothing either. *)
Theorem owner_gate_adds_nothing (w : World) (reqUser : option Principal) (i : ObjectId)
    (st : Store) :
  (forall reason,
     statusCode (fst (cancelRoute w reqUser i reason st))
     = statusCode (fst (cancelAppointment w reqUser i reason st))
     /\ snd (cancelRoute w reqUser i reason st) = snd (cancelAppointment w reqUser i reason st))
  /\ (forall date time services,
        statusCode (fst (rescheduleRoute w reqUser i date time services st))
        = statusCode (fst (rescheduleAppointment w reqUser i date time services st))
        /\ snd (rescheduleRoute w reqUser i date time services st)
           = snd (rescheduleAppointment w reqUser i date time services st)).
Proof.
  assert (Hgate : match isAppointmentOwner reqUser i st with
                  | Next => True
                  | Halt code _ =>
                      (code = 404 /\ findById i st = None)
                      \/ (code = 403 /\ exists a, findById i st = Some a
                                                  /\ notPermitted a reqUser = true)
                  end).
  { unfold isAppointmentOwner. destruct (findById i st) as [a|]; [|left; auto].
    destruct (negb (bool_decide (Some (user a) = id <$> reqUser))) eqn:Howner; cbn [andb]; [|exact I].
    destruct (negb (isAdminOrSuperAdmin reqUser)) eqn:Hadmin; [|exact I].
    right. split; [reflexivity|]. exists a. split; [reflexivity|].
    unfold notPermitted. rewrite Howner. cbn [andb].
    apply negb_true_iff, bool_decide_eq_false. intros Hrole.
    apply negb_true_iff, not_true_iff_false in Hadmin. apply Hadmin.
    apply isAdminOrSuperAdmin_spec. destruct reqUser as [p|]; [|discriminate].
    injection Hrole as Hrole. exists p. auto. }
  unfold cancelRoute, rescheduleRoute, behind.
  destruct (isAppointmentOwner reqUser i st) as [|code m].
  - split; intros; split; reflexivity.
  - destruct Hgate as [[-> Hnone]|(-> & a & Hfind & Hperm)].
    + split; intros; unfold cancelAppointment, rescheduleAppointment; rewrite Hnone;
        split; reflexivity.
    + split; intros; unfold cancelAppointment, rescheduleAppointment; rewrite Hfind, Hperm;
        split; reflexivity.
Qed.

(** ** The unique index as an invariant *)

(** What the index has checked when it lets a write through. *)
Lemma date_time_status_unique_spec others x :
  date_time_status_unique others x = true ->
  forall b, b ∈ others -> status x <> cancelled ->
            date x = date b -> time x = time b -> status x <> status b.
Proof.
  unfold date_time_status_unique. intros Hcheck b Hb Hlive Hd Ht Hs.
  apply negb_true_iff, not_true_iff_false in Hcheck. apply Hcheck.
  apply andb_true_iff. split; [apply notCancelled_true; exact Hlive|].
  apply existsb_exists. exists b. split; [apply list_elem_of_In; exact Hb|].
  apply andb_true_iff. split; [apply notCancelled_true; congruence|].
  unfold sameIndexKey. rewrite !bool_decide_eq_true_2 by assumption. reflexivity.
Qed.

(** Rewriting the documents with the [_id] of [x] into documents with the
    key of [x], after the index has let [x] through. *)
Lemma replace_keeps (x : IAppointment) (g : IAppointment -> IAppointment) st :
  wellKept st ->
  date_time_status_unique (List.filter (fun b => negb (bool_decide (_id b = _id x))) st) x = true ->
  (forall b, _id b = _id x ->
             _id (g b) = _id x /\ date (g b) = date x /\ time (g b) = time x
             /\ status (g b) = status x) ->
  wellKept (map (fun b => if bool_decide (_id b = _id x) then g b else b) st).
Proof.
  intros [Hu Hi] Hcheck Hg. split.
  - apply uniqueIds_map; [|exact Hu]. intros b.
    destruct (bool_decide_reflect (_id b = _id x)) as [Hb|_]; [|reflexivity].
    destruct (Hg b Hb) as (-> & _). congruence.
  - pose proof (date_time_status_unique_spec _ _ Hcheck) as Hfree.
    assert (Hothers : forall b, b ∈ st -> _id b <> _id x ->
              b ∈ List.filter (fun b => negb (bool_decide (_id b = _id x))) st).
    { intros b Hb Hne. apply filter_elem_of. split; [exact Hb|].
      apply negb_true_iff, bool_decide_eq_false. exact Hne. }
    intros a' b' Ha' Hb'.
    apply list_elem_of_In, in_map_iff in Ha' as (a & <- & Ha).
    apply list_elem_of_In, in_map_iff in Hb' as (b & <- & Hb).
    apply list_elem_of_In in Ha, Hb.
    destruct (bool_decide_reflect (_id a = _id x)) as [Hax|Hax];
      destruct (bool_decide_reflect (_id b = _id x)) as [Hbx|Hbx].
    + destruct (Hg a Hax) as (-> & _). destruct (Hg b Hbx) as (-> & _). contradiction.
    + destruct (Hg a Hax) as (_ & -> & -> & ->). intros _. apply Hfree. auto.
    + destruct (Hg b Hbx) as (_ & -> & -> & ->). intros _ Hlive Hd Ht Hs.
      apply (Hfree a); auto; congruence.
    + apply Hi; assumption.
Qed.

Lemma save_keeps now a st st' : wellKept st -> save now a st = inr st' -> wellKept st'.
Proof.
  intros Hk Hsave. pose proof (save_inr _ _ _ _ Hsave) as ->.
  apply (replace_keeps a (fun b => preSave now b a)); [exact Hk| |].
  - revert Hsave. unfold save. destruct (negb (validate now a)); [discriminate|].
    destruct (date_time_status_unique _ a); [reflexivity|discriminate].
  - intros b _. destruct (preSave_cases now b a) as [-> | ->]; repeat split.
Qed.

Lemma writeCompleted_keeps now a st st' :
  wellKept st -> writeCompleted now a st = Some st' -> wellKept st'.
Proof.
  intros Hk Hwrite. pose proof (writeCompleted_some _ _ _ _ Hwrite) as ->.
  apply (replace_keeps (set_completed a now) (fun _ => set_completed a now)); [exact Hk| |].
  - revert Hwrite. unfold writeCompleted.
    destruct (date_time_status_unique _ _); [reflexivity|discriminate].
  - intros b _. repeat split.
Qed.

Lemma saveNew_keeps now a st st' : wellKept st -> saveNew now a st = inr st' -> wellKept st'.
Proof.
  intros [Hu Hi] Hsave. apply saveNew_inr in Hsave as (-> & _ & Hfresh & Hcheck).
  pose proof (date_time_status_unique_spec _ _ Hcheck) as Hfree.
  split.
  - unfold uniqueIds. rewrite map_app. cbn [map _id set_saved].
    apply NoDup_app. split; [exact Hu|]. split; [|apply NoDup_singleton].
    intros j Hj Hin. apply elem_of_cons in Hin as [->|Hin]; [|apply elem_of_nil in Hin; auto].
    apply list_elem_of_In, in_map_iff in Hj as (b & Hb & Hin).
    apply (Hfresh b); [apply list_elem_of_In; exact Hin|exact Hb].
  - intros x y Hx Hy.
    apply elem_of_app in Hx as [Hx|Hx]; apply elem_of_app in Hy as [Hy|Hy].
    + apply Hi; assumption.
    + apply elem_of_cons in Hy as [->|Hy]; [|apply elem_of_nil in Hy; contradiction].
      cbn. intros _ Hlive Hd Ht Hs. apply (Hfree x); auto; congruence.
    + apply elem_of_cons in Hx as [->|Hx]; [|apply elem_of_nil in Hx; contradiction].
      cbn. intros _. apply Hfree. exact Hy.
    + apply elem_of_cons in Hx as [->|Hx]; [|apply elem_of_nil in Hx; contradiction].
      apply elem_of_cons in Hy as [->|Hy]; [|apply elem_of_nil in Hy; contradiction].
      contradiction.
Qed.

Lemma handleAppointmentConflict_keeps w date time userId services duration st :
  wellKept st ->
  wellKept (snd (handleAppointmentConflict w date time userId services duration st)).
Proof.
  intros Hk. unfold handleAppointmentConflict.
  destruct (findNextAvailableSlot _ _ _ _ _ _) as [slot|]; [|exact Hk].
  destruct (saveNew _ _ st) as [e|st1] eqn:Hsave; [exact Hk|].
  apply saveNew_keeps in Hsave; [|exact Hk].
  destruct (match findUserById userId (users w) with Some _ => _ | None => _ end); exact Hsave.
Qed.

Lemma cancelEach_keeps w reason : forall l st st',
  wellKept st -> cancelEach w reason l st = inr st' -> wellKept st'.
Proof.
  induction l as [|a l IH]; intros st st' Hk; cbn [cancelEach].
  - intros [= <-]. exact Hk.
  - destruct (save _ _ st) as [e|st1] eqn:Hsave; [discriminate|].
    apply IH. apply (save_keeps _ _ _ _ Hk Hsave).
Qed.

Lemma completeEach_keeps w : forall l st n,
  wellKept st -> wellKept (snd (completeEach w l st n)).
Proof.
  induction l as [|a l IH]; intros st n Hk; cbn [completeEach]; [exact Hk|].
  destruct (writeCompleted (now w) a st) as [st1|] eqn:Hwrite; [|exact Hk].
  apply IH. apply (writeCompleted_keeps _ _ _ _ Hk Hwrite).
Qed.

Lemma remind_keeps w : forall l run,
  wellKept (remindedStore run) ->
  wellKept (remindedStore (foldl (fun run appointment => remindOne w appointment run) run l)).
Proof.
  induction l as [|a l IH]; intros run Hk; cbn [foldl]; [exact Hk|].
  apply IH.
  destruct (remindOne_cases w a run) as [[_ ->]|(_ & _ & [(_ & -> & _)|(_ & Hsave)])];
    [exact Hk|exact Hk|].
  apply (save_keeps _ _ _ _ Hk Hsave).
Qed.

Lemma notify_keeps w reason : forall l st,
  wellKept st ->
  wellKept (foldl (fun acc appointment => notifyOne w reason appointment acc) st l).
Proof.
  induction l as [|a l IH]; intros st Hk; cbn [foldl]; [exact Hk|].
  apply IH. unfold notifyOne.
  destruct (findUserById _ _) as [u|]; [|exact Hk].
  destruct (String.eqb _ _); [exact Hk|].
  destruct (negb _); [exact Hk|].
  destruct (save _ _ st) as [e|st1] eqn:Hsave; [exact Hk|].
  apply (save_keeps _ _ _ _ Hk Hsave).
Qed.

(** X24.  Every operation on the appointments keeps the collection
    well kept: if the documents have pairwise different [_id]s and no two of
    them that are not cancelled agree on date, time and status, the same
    holds of the collection left by [createAppointment],
    [cancelAppointment], [rescheduleAppointment], [notifyScheduleChange],
    [processScheduleChange], [markCompletedAppointments],
    [sendAppointmentReminders], [toggleAppointmentReminder],
    [sendManualReminder] and [completeAppointment], whatever the request and
    whatever the answer. *)
Theorem operations_keep_the_index (isValidObjectId : ObjectId -> bool) (w : World)
    (reqUser : option Principal) (st : Store) :
  wellKept st ->
  (forall services date time notes,
     wellKept (snd (createAppointment w reqUser services date time notes st)))
  /\ (forall i reason, wellKept (snd (cancelAppointment w reqUser i reason st)))
  /\ (forall i date time services,
        wellKept (snd (rescheduleAppointment w reqUser i date time services st)))
  /\ (forall date reason, wellKept (snd (notifyScheduleChange w date reason st)))
  /\ (forall date isClosed reason,
        wellKept (snd (processScheduleChange w date isClosed reason st)))
  /\ wellKept (snd (markCompletedAppointments w st))
  /\ wellKept (remindedStore (sendAppointmentReminders w st))
  /\ (forall i enabled, wellKept (snd (toggleAppointmentReminder w reqUser i enabled st)))
  /\ (forall i, wellKept (snd (sendManualReminder w reqUser i st)))
  /\ (forall i, wellKept (snd (completeAppointment isValidObjectId w reqUser i st))).
Proof.
  intros Hk.
  split.
  { intros services date time notes. unfold createAppointment.
    destruct reqUser as [requester|]; [|exact Hk].
    destruct (checkDate _ _); try exact Hk.
    destruct (bool_decide _); [exact Hk|].
    destruct (negb (_ =? _)%nat); [exact Hk|].
    destruct (negb (business_available _)); [exact Hk|].
    assert (Hrelocate : forall failure duration,
      wellKept (snd (match handleAppointmentConflict w date time (id requester) services
                             duration st with
                     | (Some alt, st1) => (respond 200 (RelocatedBody alt), st1)
                     | (None, _) => (respond 409 (ConcurrentBody failure), st)
                     end))).
    { intros failure duration.
      pose proof (handleAppointmentConflict_keeps w date time (id requester) services
                    duration st Hk) as Hh.
      destruct (handleAppointmentConflict _ _ _ _ _ _ _) as [[alt|] st1]; [exact Hh|exact Hk]. }
    destruct (negb (available _)).
    - destruct (conflictExists _); [apply Hrelocate|exact Hk].
    - destruct (saveNew _ _ st) as [[| |]|st1] eqn:Hsave;
        [exact Hk|apply Hrelocate|exact Hk|apply (saveNew_keeps _ _ _ _ Hk Hsave)]. }
  split.
  { intros i reason. unfold cancelAppointment.
    destruct (findById i st) as [a|]; [|exact Hk].
    destruct (notPermitted a reqUser); [exact Hk|].
    destruct (save _ _ st) as [e|st1] eqn:Hsave; [exact Hk|].
    apply (save_keeps _ _ _ _ Hk Hsave). }
  split.
  { intros i date time services. unfold rescheduleAppointment.
    destruct (findById i st) as [a|]; [|exact Hk].
    destruct (notPermitted a reqUser); [exact Hk|].
    destruct (bool_decide _); [exact Hk|].
    destruct (checkDate _ _); try exact Hk.
    destruct (match services with Some l => _ | None => false end); [exact Hk|].
    destruct (negb (business_available _)); [exact Hk|].
    destruct (checkTimeConflict _ _ _ _ _); [exact Hk|].
    destruct (save _ _ st) as [[| |]|st1] eqn:Hsave;
      [exact Hk| |exact Hk|apply (save_keeps _ _ _ _ Hk Hsave)].
    destruct reqUser as [requester|]; [|exact Hk].
    match goal with |- context [handleAppointmentConflict ?w ?d ?t ?u ?s ?n ?st] =>
      pose proof (handleAppointmentConflict_keeps w d t u s n st Hk) as Hh;
      destruct (handleAppointmentConflict w d t u s n st) as [[alt|] st1] end; [|exact Hk].
    destruct (save _ _ st1) as [e|st2] eqn:Hsave2; [exact Hk|].
    apply (save_keeps _ _ _ _ Hh Hsave2). }
  split.
  { intros date reason. unfold notifyScheduleChange.
    destruct date as [d|]; [|exact Hk].
    destruct (bool_decide _); [exact Hk|].
    apply notify_keeps. exact Hk. }
  split.
  { intros date isClosed reason. unfold processScheduleChange.
    destruct (negb isClosed); [exact Hk|].
    destruct (bool_decide _); [exact Hk|].
    destruct (cancelEach _ _ _ st) as [e|st1] eqn:Hloop; [exact Hk|].
    apply (cancelEach_keeps _ _ _ _ _ Hk Hloop). }
  split.
  { unfold markCompletedAppointments.
    pose proof (completeEach_keeps w (List.filter (overdue w) st) st 0 Hk) as Hc.
    destruct (completeEach _ _ _ _) as [[n|] st1]; exact Hc. }
  split.
  { apply remind_keeps. exact Hk. }
  split.
  { intros i enabled. unfold toggleAppointmentReminder.
    destruct enabled as [on|]; [|exact Hk].
    destruct (findById i st) as [a|]; [|exact Hk].
    destruct (negb (bool_decide _)); [exact Hk|].
    destruct (save _ _ st) as [e|st1] eqn:Hsave; [exact Hk|].
    apply (save_keeps _ _ _ _ Hk Hsave). }
  split.
  { intros i. unfold sendManualReminder.
    destruct (negb (isAdminOrSuperAdmin reqUser)); [exact Hk|].
    destruct (findById i st) as [a|]; [|exact Hk].
    destruct (bool_decide _); [exact Hk|].
    destruct (_ <? _); [exact Hk|].
    destruct (findUserById _ _) as [u|]; [|exact Hk].
    destruct (String.eqb _ _); [exact Hk|].
    destruct (negb (delivers _ _)); [exact Hk|].
    destruct (save _ _ st) as [e|st1] eqn:Hsave; [exact Hk|].
    apply (save_keeps _ _ _ _ Hk Hsave). }
  { intros i. unfold completeAppointment.
    destruct (negb (isAdminOrSuperAdmin reqUser)); [exact Hk|].
    destruct (negb (isValidObjectId i)); [exact Hk|].
    destruct (findById i st) as [a|]; [|exact Hk].
    destruct (writeCompleted _ _ st) as [st1|] eqn:Hwrite; [|exact Hk].
    apply (writeCompleted_keeps _ _ _ _ Hk Hwrite). }
Qed.

Lemma operations_keep_the_index_witness :
  let w := Scenario.salon Scenario.dayBefore (fun _ => true) in
  let reqUser := Some (Scenario.principalOf Scenario.alice) in
  let st := Scenario.twoBookings in
  wellKept st
  /\ ((forall services date time notes,
        wellKept (snd (createAppointment w reqUser services date time notes st)))
      /\ (forall i reason, wellKept (snd (cancelAppointment w reqUser i reason st)))
      /\ (forall i date time services,
            wellKept (snd (rescheduleAppointment w reqUser i date time services st)))
      /\ (forall date reason, wellKept (snd (notifyScheduleChange w date reason st)))
      /\ (forall date isClosed reason,
            wellKept (snd (processScheduleChange w date isClosed reason st)))
      /\ wellKept (snd (markCompletedAppointments w st))
      /\ wellKept (remindedStore (sendAppointmentReminders w st))
      /\ (forall i enabled, wellKept (snd (toggleAppointmentReminder w reqUser i enabled st)))
      /\ (forall i, wellKept (snd (sendManualReminder w reqUser i st)))
      /\ (forall i, wellKept (snd (completeAppointment (fun _ => true) w reqUser i st)))).
Proof.
  intros w reqUser st.
  assert (Hk : wellKept st).
  { split.
    - apply uniqueIds_check. vm_compute. reflexivity.
    - intros a b Ha Hb Hid _ _ Htime.
      apply elem_of_cons in Ha as [->|Ha]; [|apply elem_of_cons in Ha as [->|Ha]];
        [| |apply elem_of_nil in Ha; contradiction];
        (apply elem_of_cons in Hb as [->|Hb]; [|apply elem_of_cons in Hb as [->|Hb]];
         [| |apply elem_of_nil in Hb; contradiction]);
        (contradiction || discriminate). }
  split; [exact Hk|].
  exact (operations_keep_the_index (fun _ => true) w reqUser st Hk).
Defined.

(** ** The availability calendar *)

(** The map built by the [reduce] of [getFullAvailability], started from any
    map. *)
Lemma bookedSlots_fold w key t : forall l (acc : gmap string (gset string)),
  t ∈ default ∅ (foldl (fun map appointment =>
                          let dateKey := isoDate w (date appointment) in
                          <[dateKey := default ∅ (map !! dateKey) ∪ {[time appointment]}]> map)
                       acc l !! key)
  <-> t ∈ default ∅ (acc !! key)
      \/ exists a, a ∈ l /\ isoDate w (date a) = key /\ time a = t.
Proof.
  induction l as [|a l IH]; intros acc; cbn [foldl].
  - split; [auto|]. intros [H|(a & Ha & _)]; [exact H|]. apply elem_of_nil in Ha. contradiction.
  - rewrite IH. cbn zeta.
    destruct (decide (isoDate w (date a) = key)) as [Hkey|Hkey].
    + rewrite Hkey, lookup_insert_eq. cbn [default from_option]. unfold Datatypes.id. rewrite elem_of_union, elem_of_singleton.
      split.
      * intros [[H|H]|(b & Hb & H)]; [left; exact H| |].
        -- right. exists a. split; [left|]. auto.
        -- right. exists b. split; [right; exact Hb|exact H].
      * intros [H|(b & Hb & Hbk & Hbt)]; [left; left; exact H|].
        apply elem_of_cons in Hb as [->|Hb]; [left; right; auto|].
        right. exists b. auto.
    + rewrite lookup_insert_ne by exact Hkey. split.
      * intros [H|(b & Hb & H)]; [left; exact H|]. right. exists b. split; [right; exact Hb|exact H].
      * intros [H|(b & Hb & Hbk & Hbt)]; [left; exact H|].
        apply elem_of_cons in Hb as [->|Hb]; [contradiction|].
        right. exists b. auto.
Qed.

Lemma bookedSlots_spec w l key t :
  t ∈ default ∅ (bookedSlots w l !! key)
  <-> exists a, a ∈ l /\ isoDate w (date a) = key /\ time a = t.
Proof.
  unfold bookedSlots. rewrite bookedSlots_fold, lookup_empty. cbn [default].
  rewrite elem_of_empty. tauto.
Qed.

Lemma Calendar_inj days days' : Calendar days = Calendar days' -> days = days'.
Proof. intros [= H]. exact H. Qed.

(** X25.  In the answer of [getFullAvailability], a slot of a day is
    marked as not available exactly when some stored appointment that is not
    cancelled, dated between today's midnight and the clock reading two
    months on, falls on that ISO day and starts at exactly the time of the
    slot: durations play no part, so the later half hours of a longer
    appointment are shown as available.  A day is shown as open exactly when
    it lists at least one slot, and its message says so. *)
Theorem calendar_marks_exact_start_times (w : World) (st : Store)
    (days : list DayAvailability) (day : DayAvailability) (entry : SlotEntry) :
  getFullAvailability w st = Calendar days ->
  day ∈ days -> entry ∈ day_slots day ->
  (entry_available entry = false
   <-> exists a, a ∈ st /\ status a <> cancelled
                 /\ Date.startOfDay (now w) <= date a <= Date.addMonths (now w) MAX_BOOKING_MONTHS
                 /\ isoDate w (date a) = day_date day /\ time a = entry_time entry)
  /\ (isOpen day = true <-> day_slots day <> [])
  /\ day_message day = (if isOpen day then "Disponible" else "Cerrado").
Proof.
  unfold getFullAvailability. destruct (theSchedule w) as [schedule|]; [|discriminate].
  intros Hrun Hday Hentry. apply Calendar_inj in Hrun. subst days.
  apply filter_elem_of in Hday as [Hday _].
  apply list_elem_of_In, in_map_iff in Hday as (d & <- & _).
  unfold dayAvailability in *. cbn [day_date day_slots isOpen day_message] in *.
  set (localDate := madridWallClock w d) in *.
  set (dateKey := isoDate w localDate) in *.
  set (booked := bookedSlots w (List.filter (inCalendarRange w) st)) in *.
  set (slots := if negb (isDayClosed w localDate schedule) then _ else []) in *.
  split; [|split; [|reflexivity]].
  - apply list_elem_of_In, in_map_iff in Hentry as (slot & <- & _).
    cbn [entry_time entry_available]. rewrite negb_false_iff.
    transitivity (slot ∈ default ∅ (booked !! dateKey)).
    + destruct (booked !! dateKey) as [times|]; cbn [default].
      * apply bool_decide_eq_true.
      * rewrite elem_of_empty. split; [discriminate|tauto].
    + unfold booked. rewrite bookedSlots_spec. split.
      * intros (a & Ha & Hkey & Htime). apply filter_elem_of in Ha as [Ha Hq].
        unfold inCalendarRange in Hq. rewrite !andb_true_iff, !Z.leb_le, notCancelled_true in Hq.
        exists a. tauto.
      * intros (a & Ha & Hlive & Hrange & Hkey & Htime). exists a.
        split; [|auto]. apply filter_elem_of. split; [exact Ha|].
        unfold inCalendarRange. rewrite !andb_true_iff, !Z.leb_le, notCancelled_true. tauto.
  - clear Hentry. subst slots.
    destruct (isDayClosed w localDate schedule); cbn [negb andb].
    + split; [discriminate|]. intros H. contradiction.
    + destruct (generateTimeSlots _) as [|s l]; cbn [map length].
      * split; [discriminate|]. intros H. contradiction.
      * split; [discriminate|reflexivity].
Qed.

Lemma calendar_marks_exact_start_times_witness :
  let w := Scenario.salon Scenario.dayBefore (fun _ => true) in
  let days := match getFullAvailability w Scenario.twoBookings with
              | Calendar days => days
              | CalendarError _ _ => []
              end in
  let day := dayAvailability w Scenario.weeklyMorning
               (bookedSlots w (List.filter (inCalendarRange w) Scenario.twoBookings))
               (Date.at_ 2024 6 10 2 0) in
  let entry := {| entry_time := "10:30"; entry_available := true |} in
  (getFullAvailability w Scenario.twoBookings = Calendar days
   /\ day ∈ days /\ entry ∈ day_slots day)
  /\ (entry_available entry = false
      <-> exists a, a ∈ Scenario.twoBookings /\ status a <> cancelled
                    /\ Date.startOfDay (now w) <= date a
                       <= Date.addMonths (now w) MAX_BOOKING_MONTHS
                    /\ isoDate w (date a) = day_date day /\ time a = entry_time entry)
  /\ (isOpen day = true <-> day_slots day <> [])
  /\ day_message day = (if isOpen day then "Disponible" else "Cerrado").
Proof.
  intros w days day entry.
  assert (Hrun : getFullAvailability w Scenario.twoBookings = Calendar days)
    by (vm_compute; reflexivity).
  assert (Hday : day ∈ days).
  { apply list_elem_of_In. vm_compute. right. left. reflexivity. }
  assert (Hentry : entry ∈ day_slots day).
  { apply list_elem_of_In. vm_compute. do 3 right. left. reflexivity. }
  split; [repeat split; assumption|].
  exact (calendar_marks_exact_start_times w Scenario.twoBookings days day entry
           Hrun Hday Hentry).
Defined.

(** ** Updating the schedule *)

Lemma closedOut_fields w date reason b :
  _id (closedOut w date reason b) = _id b
  /\ Appointment.date (closedOut w date reason b) = Appointment.date b
  /\ time (closedOut w date reason b) = time b
  /\ totalDuration (closedOut w date reason b) = totalDuration b.
Proof. unfold closedOut. destruct (_ && _); repeat split. Qed.

Lemma closedOut_status w date reason b :
  sameDay (Appointment.date b) date ->
  status (closedOut w date reason b) = cancelled \/ status (closedOut w date reason b) = completed.
Proof.
  intros Hday. unfold closedOut.
  rewrite (proj2 (dateBetween_sameDay date b) Hday). cbn [andb].
  destruct (notTerminal b) eqn:Hn; [left; reflexivity|].
  apply not_true_iff_false in Hn. rewrite notTerminal_spec in Hn.
  destruct (status b); auto; exfalso; apply Hn; split; discriminate.
Qed.

(** One turn of the loop of [updateSchedule] on the collection. *)
Lemma processDay_store w acc day :
  uniqueIds (snd acc) ->
  snd (processDay w acc day) = snd acc
  \/ (Schedule.closed (update_schedule day) = true
      /\ snd (processDay w acc day)
         = map (closedOut w (update_date day)
                  (Some (JS.orElse (update_reason day) "Cambio en el horario de la peluquería")))
               (snd acc)).
Proof.
  intros Hu. unfold processDay.
  destruct (Schedule.closed (update_schedule day)); [|left; reflexivity].
  destruct (processScheduleChange _ _ _ _ _) as [[e|res] st1] eqn:Hrun; [left; reflexivity|].
  right. split; [reflexivity|].
  apply processScheduleChange_inr in Hrun as [-> _]; [reflexivity|exact Hu].
Qed.

Lemma processDay_succeeds w acc day :
  uniqueIds (snd acc) -> Forall schemaValid (snd acc) ->
  Schedule.closed (update_schedule day) = true ->
  Date.startOfDay (now w) <= update_date day ->
  snd (processDay w acc day)
  = map (closedOut w (update_date day)
           (Some (JS.orElse (update_reason day) "Cambio en el horario de la peluquería")))
        (snd acc).
Proof.
  intros Hu Hvalid Hclosed Hdate. unfold processDay. rewrite Hclosed.
  destruct (cancelEach_total w
              (JS.orElse (Some (JS.orElse (update_reason day) "Cambio en el horario de la peluquería"))
                         "Cambio en el horario de la peluquería")
              (List.filter (fun a => dateBetween (Date.startOfDay (update_date day))
                                                 (Date.endOfDay (update_date day)) a
                                     && notTerminal a) (snd acc)) (snd acc)) as [st1 Hloop].
  { intros a Ha. apply filter_elem_of in Ha as [Ha Hp].
    apply andb_prop in Hp as [Hd _].
    rewrite Forall_forall in Hvalid. destruct (Hvalid a Ha) as [Htime Hdur].
    apply validate_spec. split; [|auto].
    unfold dateBetween in Hd. apply andb_prop in Hd as [Hlo _]. apply Z.leb_le in Hlo.
    revert Hlo Hdate. unfold Date.startOfDay, Date.msPerDay. intros Hlo Hdate.
    pose proof (Z.mod_pos_bound (update_date day) 86400000 ltac:(lia)).
    pose proof (Z.mod_pos_bound (now w) 86400000 ltac:(lia)).
    pose proof (Z.div_mod (update_date day) 86400000 ltac:(lia)).
    pose proof (Z.div_mod (now w) 86400000 ltac:(lia)).
    assert (now w / 86400000 <= update_date day / 86400000)
      by (apply Z.div_le_lower_bound; lia).
    lia. }
  destruct (processScheduleChange _ _ _ _ _) as [[e|res] st2] eqn:Hrun.
  - exfalso. revert Hrun. unfold processScheduleChange. cbn [negb].
    destruct (bool_decide _); [discriminate|]. rewrite Hloop. discriminate.
  - apply processScheduleChange_inr in Hrun as [-> _]; [reflexivity|exact Hu].
Qed.

Lemma orElse_orElse s d : JS.orElse (Some (JS.orElse s d)) d = JS.orElse s d.
Proof.
  unfold JS.orElse. destruct s as [x|].
  - destruct (String.eqb x "") eqn:Hx; [destruct (String.eqb d ""); reflexivity|].
    rewrite Hx. reflexivity.
  - destruct (String.eqb d ""); reflexivity.
Qed.

Lemma closedOut_closedBy w day days b :
  day ∈ days -> Schedule.closed (update_schedule day) = true ->
  closedBy w days b
    (closedOut w (update_date day)
       (Some (JS.orElse (update_reason day) "Cambio en el horario de la peluquería")) b).
Proof.
  intros Hday Hclosed. unfold closedOut.
  destruct (dateBetween _ _ b) eqn:Hd; cbn [andb]; [|left; reflexivity].
  destruct (notTerminal b) eqn:Hn; [|left; reflexivity].
  apply dateBetween_sameDay in Hd. apply notTerminal_spec in Hn as [Hlive Hopen].
  right. exists day. rewrite orElse_orElse. repeat split; auto.
Qed.

Lemma closedBy_fields w days b b' :
  closedBy w days b b' ->
  _id b' = _id b /\ Appointment.date b' = Appointment.date b /\ time b' = time b
  /\ totalDuration b' = totalDuration b
  /\ (status b = cancelled \/ status b = completed -> b' = b).
Proof.
  intros [->|(day & _ & _ & _ & Hlive & Hopen & ->)]; repeat split; auto.
  intros [H|H]; contradiction.
Qed.

Lemma Forall2_elem_of_r {A B} (P : A -> B -> Prop) l k y :
  Forall2 P l k -> y ∈ k -> exists x, x ∈ l /\ P x y.
Proof.
  intros Hrel Hy. apply list_elem_of_lookup in Hy as [n Hn].
  destruct (Forall2_lookup_r _ _ _ _ _ Hrel Hn) as (x & Hx & Hxy).
  exists x. split; [apply (list_elem_of_lookup_2 _ _ _ Hx)|exact Hxy].
Qed.

(** The loop of [updateSchedule] over the days to process. *)
Lemma processDays_fold w : forall days acc,
  uniqueIds (snd acc) -> Forall schemaValid (snd acc) ->
  let out := foldl (processDay w) acc days in
  uniqueIds (snd out) /\ Forall schemaValid (snd out)
  /\ Forall2 (closedBy w days) (snd acc) (snd out)
  /\ (forall day, day ∈ days -> Schedule.closed (update_schedule day) = true ->
        Date.startOfDay (now w) <= update_date day ->
        forall b', b' ∈ snd out -> sameDay (Appointment.date b') (update_date day) ->
                   status b' = cancelled \/ status b' = completed).
Proof.
  induction days as [|day days IH]; intros acc Hu Hvalid; cbn [foldl]; cbn zeta.
  - split; [exact Hu|]. split; [exact Hvalid|]. split.
    + apply Forall_Forall2_diag, Forall_forall. intros b _. left. reflexivity.
    + intros day Hday. apply elem_of_nil in Hday. contradiction.
  - set (acc1 := processDay w acc day).
    assert (Hstep : Forall2 (closedBy w (day :: days)) (snd acc) (snd acc1)).
    { destruct (processDay_store w acc day Hu) as [Hsame|[Hclosed Hmap]]; fold acc1 in Hsame || fold acc1 in Hmap.
      - rewrite Hsame. apply Forall_Forall2_diag, Forall_forall. intros b _. left. reflexivity.
      - rewrite Hmap. apply Forall2_fmap_r, Forall_Forall2_diag, Forall_forall.
        intros b _. unfold compose. apply closedOut_closedBy; [left|exact Hclosed]. }
    assert (Hu1 : uniqueIds (snd acc1)).
    { unfold uniqueIds.
      replace (map _id (snd acc1)) with (map _id (snd acc)); [exact Hu|].
      clear -Hstep. induction Hstep as [|b b' l l' Hb _ IHl]; [reflexivity|].
      cbn [map]. rewrite IHl. f_equal. symmetry. apply (closedBy_fields _ _ _ _ Hb). }
    assert (Hvalid1 : Forall schemaValid (snd acc1)).
    { clear -Hstep Hvalid. induction Hstep as [|b b' l l' Hb _ IHl]; [constructor|].
      apply Forall_cons in Hvalid as [Hbv Hlv]. constructor; [|auto].
      destruct (closedBy_fields _ _ _ _ Hb) as (_ & _ & Ht & Hd & _).
      unfold schemaValid. rewrite Ht, Hd. exact Hbv. }
    destruct (IH acc1 Hu1 Hvalid1) as (Huo & Hvo & Hrel & Hdone).
    split; [exact Huo|]. split; [exact Hvo|]. split.
    + apply (Forall2_trans _ (closedBy w days) (closedBy w (day :: days)) _ _ _)
        with (2 := Hstep) (3 := Hrel).
      intros b b1 b' Hb1 Hb'.
      destruct Hb' as [->|(d & Hd & Hclosed & Hday & Hlive & Hopen & ->)]; [exact Hb1|].
      destruct Hb1 as [->|(d1 & _ & _ & _ & _ & _ & ->)]; [|cbn in Hlive; contradiction].
      right. exists d. repeat split; auto. right. exact Hd.
    + intros d Hd Hclosed Hdate b' Hb' Hsame.
      apply elem_of_cons in Hd as [->|Hd]; [|apply (Hdone d Hd Hclosed Hdate b' Hb' Hsame)].
      destruct (Forall2_elem_of_r _ _ _ _ Hrel Hb') as (b1 & Hb1 & Hb1b').
      destruct (closedBy_fields _ _ _ _ Hb1b') as (_ & Hdate1 & _ & _ & Hkeep).
      assert (Hterm : status b1 = cancelled \/ status b1 = completed).
      { pose proof (processDay_succeeds w acc day Hu Hvalid Hclosed Hdate) as Hmap.
        fold acc1 in Hmap. rewrite Hmap in Hb1.
        apply list_elem_of_In, in_map_iff in Hb1 as (b & <- & _).
        apply closedOut_status.
        destruct (closedOut_fields w (update_date day)
                    (Some (JS.orElse (update_reason day) "Cambio en el horario de la peluquería")) b)
          as (_ & Hdate0 & _).
        rewrite Hdate0 in Hdate1. rewrite <- Hdate1. exact Hsame. }
      rewrite (Hkeep Hterm). exact Hterm.
Qed.

(** X26.  When [updateSchedule] answers 200 (on a collection whose
    documents have pairwise different [_id]s and pass the schema's
    validators), the requester is an administrator or the
    super-administrator and the schedule written has the weekly hours and
    the special days of the request.  A document is changed only if its day
    is a special day of the request that is closed and is new or was open
    before, and then only from a status other than cancelled or completed to
    cancelled, with the reason of that day: changing the weekly hours, or
    opening a day, never touches an appointment.  And for each such closed
    day that is not before today, every appointment of that day is
    afterwards cancelled or completed. *)
Theorem updateSchedule_effect (w : World) (reqUser : option Principal)
    (regularHours : Schedule.RegularHours) (specialDays : list SpecialDayUpdate)
    (st st' : Store) (schedule : Schedule.ISchedule) (processedDays : list ProcessedDay) :
  updateSchedule w reqUser regularHours specialDays st
  = (ScheduleUpdated schedule processedDays, st') ->
  uniqueIds st -> Forall schemaValid st ->
  isAdminOrSuperAdmin reqUser = true
  /\ Schedule.regularHours schedule = regularHours
  /\ Schedule.specialDays schedule = map processedSpecialDay specialDays
  /\ Forall2 (closedBy w (List.filter (needsProcessing w (existingSpecialDays w)) specialDays))
             st st'
  /\ (forall day, day ∈ specialDays ->
        needsProcessing w (existingSpecialDays w) day = true ->
        Schedule.closed (update_schedule day) = true ->
        Date.startOfDay (now w) <= update_date day ->
        forall b', b' ∈ st' -> sameDay (Appointment.date b') (update_date day) ->
                   status b' = cancelled \/ status b' = completed).
Proof.
  unfold updateSchedule. intros Hrun Hu Hvalid.
  destruct (isAdminOrSuperAdmin reqUser); [|discriminate]. cbn [negb] in Hrun.
  set (days := List.filter (needsProcessing w (existingSpecialDays w)) specialDays) in *.
  destruct (processDays_fold w days ([], st) Hu Hvalid) as (_ & _ & Hrel & Hdone).
  cbn [snd] in Hrel.
  injection Hrun as <- _ <-. cbn [Schedule.regularHours Schedule.specialDays].
  split; [reflexivity|]. split; [reflexivity|]. split; [reflexivity|].
  split; [exact Hrel|].
  intros day Hday Hneeds. apply Hdone. apply filter_elem_of. auto.
Qed.

Lemma updateSchedule_effect_witness :
  let w := Scenario.salon Scenario.dayBefore (fun _ => true) in
  let reqUser := Some (Scenario.principalOf Scenario.admin) in
  let holiday := Cases.holiday in
  let run := updateSchedule w reqUser (Scenario.everyDay Scenario.morning) [holiday]
               Scenario.twoBookings in
  let schedule := {| Schedule.regularHours := Scenario.everyDay Scenario.morning;
                     Schedule.specialDays := [processedSpecialDay holiday] |} in
  let processedDays :=
    [ {| processed_date := "2024-06-10"; processed_affected := 2;
         processed_message := "Se han cancelado 2 citas afectadas por el cambio de horario" |} ] in
  (run = (ScheduleUpdated schedule processedDays, snd run)
   /\ uniqueIds Scenario.twoBookings /\ Forall schemaValid Scenario.twoBookings)
  /\ isAdminOrSuperAdmin reqUser = true
  /\ Schedule.regularHours schedule = Scenario.everyDay Scenario.morning
  /\ Schedule.specialDays schedule = map processedSpecialDay [holiday]
  /\ Forall2 (closedBy w (List.filter (needsProcessing w (existingSpecialDays w)) [holiday]))
             Scenario.twoBookings (snd run)
  /\ (forall day, day ∈ [holiday] ->
        needsProcessing w (existingSpecialDays w) day = true ->
        Schedule.closed (update_schedule day) = true ->
        Date.startOfDay (now w) <= update_date day ->
        forall b', b' ∈ snd run -> sameDay (Appointment.date b') (update_date day) ->
                   status b' = cancelled \/ status b' = completed).
Proof.
  intros w reqUser holiday run schedule processedDays.
  assert (Hrun : run = (ScheduleUpdated schedule processedDays, snd run))
    by (vm_compute; reflexivity).
  assert (Hu : uniqueIds Scenario.twoBookings).
  { apply uniqueIds_check. vm_compute. reflexivity. }
  assert (Hvalid : Forall schemaValid Scenario.twoBookings).
  { repeat constructor; vm_compute; congruence. }
  split; [repeat split; assumption|].
  exact (updateSchedule_effect w reqUser (Scenario.everyDay Scenario.morning) [holiday]
           Scenario.twoBookings (snd run) schedule processedDays Hrun Hu Hvalid).
Defined.
